(** * gemini-commit-message-hook: a shallow embedding and its properties

    The repository holds three Python files: [config.py] (two module-level
    settings), [gemini_commit.py] (the [prepare-commit-msg] hook) and
    [install.py] (the installer of the hook).  Each function of the source
    is a definition below with the same name.

    Effects are explicit.  A program is a function from a store to an
    outcome and a store, where an outcome is a normal return, [sys.exit],
    or a raised exception; [try ... except C] catches the exceptions of
    class [C] and lets the others, and [sys.exit], pass.  What the hook
    reads from outside (arguments, configuration, environment, the PATH,
    the commands it runs, the network) is a record of answers; what it
    does outside is kept as a trace of events next to the files.  Three
    library functions are parameters: [json.loads], [bytes.decode] and
    [str.strip].

    The library calls fail as the libraries do: the output of a command
    may not be UTF-8, the network may raise errors of several classes, a
    file may not open, a text may not encode, and the system may refuse
    a call of the installer or clear the set-id bits of a mode.  The
    installer's file system has symbolic links, which every call
    follows. *)

From Stdlib Require Import ZArith Ascii String Floats.SpecFloat.
From stdpp Require Import base strings list gmap.

Local Open Scope Z_scope.
Local Open Scope string_scope.
Set Warnings "-register-all".

(** ** The Python layer: outcomes, values, truthiness, subscripts *)

Module Py.

(** The exception classes that can arise in the two scripts. *)
Inductive exn : Type :=
| IndexError
| KeyError
| TypeError
| ValueError                          (* JSONDecodeError, a body not UTF-8 *)
| UnicodeDecodeError
| UnicodeEncodeError
| CalledProcessError (returncode : Z)
| URLError
| HTTPError (code : Z)                (* a subclass of URLError *)
| RemoteDisconnected
| InvalidURL
| IncompleteRead
| OSError                             (* ELOOP, EROFS, ENOSPC, ... *)
| PermissionError
| FileNotFoundError
| FileExistsError
| NotADirectoryError
| IsADirectoryError.

(** How a computation ends: [return], [sys.exit(code)], or [raise]. *)
Inductive result (A : Type) : Type :=
| Ok (a : A)
| Exit (code : Z)
| Raise (e : exn).
Global Arguments Ok {A} a.
Global Arguments Exit {A} code.
Global Arguments Raise {A} e.

(** The status the operating system sees: 0 when the script runs off its
    end, the argument of [sys.exit], and 1 after an uncaught exception. *)
Definition exit_status {A} (r : result A) : Z :=
  match r with
  | Ok _ => 0
  | Exit code => code
  | Raise _ => 1
  end.

(** Programs over a store [S]. *)
Definition M (S A : Type) : Type := S → result A * S.

Definition ret {S A} (a : A) : M S A := λ s, (Ok a, s).

Definition bind {S A B} (m : M S A) (k : A → M S B) : M S B :=
  λ s, match m s with
       | (Ok a, s') => k a s'
       | (Exit code, s') => (Exit code, s')
       | (Raise e, s') => (Raise e, s')
       end.

Definition raise {S A} (e : exn) : M S A := λ s, (Raise e, s).

Definition sys_exit {S A} (code : Z) : M S A := λ s, (Exit code, s).

(** [try: m  except <class>: h] where [catches] decides the class.
    [sys.exit] raises [SystemExit], which no handler of the scripts
    catches. *)
Definition try_except {S A} (m : M S A) (catches : exn → bool)
    (h : M S A) : M S A :=
  λ s, match m s with
       | (Raise e, s') => if catches e then h s' else (Raise e, s')
       | other => other
       end.

(** The values [json.loads] produces. *)
Inductive value : Type :=
| VNone
| VBool (b : bool)
| VInt (n : Z)
| VFloat (f : spec_float)
| VStr (s : string)
| VList (l : list value)
| VDict (d : list (string * value)).

(** [bool(v)]. *)
Definition truthy (v : value) : bool :=
  match v with
  | VNone => false
  | VBool b => b
  | VInt n => negb (n =? 0)%Z
  | VFloat f => match f with S754_zero _ => false | _ => true end
  | VStr s => negb (String.eqb s "")
  | VList l => match l with [] => false | _ => true end
  | VDict d => match d with [] => false | _ => true end
  end.

(** Truthiness of a [str]. *)
Definition str_truthy (s : string) : bool := negb (String.eqb s "").

(** Truthiness of a [str | None]. *)
Definition opt_truthy (o : option string) : bool :=
  match o with
  | Some s => str_truthy s
  | None => false
  end.

Fixpoint dict_get (d : list (string * value)) (k : string) : option value :=
  match d with
  | [] => None
  | (k', v) :: d' => if String.eqb k' k then Some v else dict_get d' k
  end.

(** [v[0]]: lists and strings are indexed, a dict from JSON has only
    string keys, so the key [0] is missing; nothing else is
    subscriptable. *)
Definition getitem_0 (v : value) : result value :=
  match v with
  | VList (x :: _) => Ok x
  | VList [] => Raise IndexError
  | VStr (String c _) => Ok (VStr (String c ""))
  | VStr "" => Raise IndexError
  | VDict _ => Raise KeyError
  | _ => Raise TypeError
  end.

(** [v[k]] for a string [k]: only a dict accepts it. *)
Definition getitem_str (k : string) (v : value) : result value :=
  match v with
  | VDict d => match dict_get d k with
               | Some x => Ok x
               | None => Raise KeyError
               end
  | _ => Raise TypeError
  end.

(** Chaining subscripts: the first one that raises ends the chain. *)
Definition and_then {A B} (r : result A) (f : A → result B) : result B :=
  match r with
  | Ok a => f a
  | Exit code => Exit code
  | Raise e => Raise e
  end.

Definition lift {S A} (r : result A) : M S A := λ s, (r, s).

(** The two [logging] levels the scripts use. *)
Inductive level : Type := INFO | ERROR.

Definition nl : string := String (Ascii.ascii_of_nat 10) "".

Definition LF : ascii := Ascii.ascii_of_nat 10.
Definition CR : ascii := Ascii.ascii_of_nat 13.

(** Universal newlines, as a text stream opened with [newline=None]
    reads them: [text.replace("\r\n", "\n").replace("\r", "\n")]. *)
Fixpoint universal_newlines (text : string) : string :=
  match text with
  | EmptyString => EmptyString
  | String c rest =>
      if Ascii.eqb c CR then
        match rest with
        | String c' rest' =>
            if Ascii.eqb c' LF then String LF (universal_newlines rest')
            else String LF (universal_newlines rest)
        | EmptyString => String LF EmptyString
        end
      else String c (universal_newlines rest)
  end.

End Py.

Import Py.

Declare Scope py_scope.
Delimit Scope py_scope with py.
Notation "x <- m ;; k" := (bind m (λ x, k))
  (at level 100, m at next level, right associativity) : py_scope.
Notation "m ;;; k" := (bind m (λ _, k))
  (at level 100, right associativity) : py_scope.
Local Open Scope py_scope.

(** ** config.py *)

Module config.

Record t : Type := {
  GEMINI_MODEL : string;
  GEMINI_API_KEY : option string;
}.

(** The file as it is in the repository; a user edits [GEMINI_API_KEY]. *)
Definition shipped : t :=
  {| GEMINI_MODEL := "gemini-2.5-pro"; GEMINI_API_KEY := None |}.

End config.

(** ** gemini_commit.py *)

Module gemini_commit.

(** What [urllib.request.Request(url, data=json.dumps(data)..., headers)]
    carries; [data] is kept as the value that is serialised. *)
Record request : Type := {
  url : string;
  data : value;
  headers : list (string * string);
}.

(** Every interaction of the hook with the outside, in program order. *)
Inductive event : Type :=
| Log (lvl : level) (msg : string) (args : list value)
| EnvironGet (name : string)
| Which (cmd : string)
| CheckOutput (cmdline : list string)
| Urlopen (req : request)
| ReadText (path : string)
| WriteText (path : string) (text : string)
| Truncate (path : string).

(** The store: the text files on disk and the events so far. *)
Record state : Type := {
  files : gmap string string;
  trace : list event;
}.

(** A finished child process: its exit status and the bytes it wrote
    to its standard output. *)
Record completed : Type := {
  returncode : Z;
  stdout : string;
}.

(** What [urlopen] meets.  [Response]: a reply with its status and the
    bytes of its body.  [Unreachable]: a [URLError], the connection
    could not be made.  [Failed e]: [urlopen] raises [e] and gives no
    reply; [e] is the [HTTPError] that [urllib] raises for a status
    outside 2xx, or an error that [urllib] does not wrap, such as
    [RemoteDisconnected] or [InvalidURL].  [Cut status e]: the reply
    starts, and reading its body raises [e]. *)
Inductive http : Type :=
| Response (status : Z) (body : string)
| Unreachable
| Failed (e : exn)
| Cut (status : Z) (e : exn).

(** Everything the hook reads and does not change during a run: the
    same question gets the same answer each time it is asked. *)
Record world : Type := {
  argv : list string;
  cfg : config.t;
  environ : gmap string string;
  path_lookup : string → option string;      (* shutil.which *)
  child : list string → completed;           (* the command's run *)
  network : request → http;
  unreadable : string → option exn;          (* open(p) of a file fails *)
  unwritable : string → option exn;          (* open(p, "w") fails *)
  encodable : string → bool;                 (* the locale's encoding *)
}.

Section hook.

(** [json.loads(body.decode("utf-8"))]: [None] when the body does not
    decode or is not JSON (both are [ValueError]s). *)
Variable json_loads : string → option value.

(** [bytes.decode("utf-8")]: [None] when the bytes are not UTF-8, which
    raises [UnicodeDecodeError]. *)
Variable utf8_decode : string → option string.

(** [str.strip()]. *)
Variable strip : string → string.

Variable w : world.

Definition emit (ev : event) : M state unit :=
  λ s, (Ok (), {| files := files s; trace := trace s ++ [ev] |}).

Definition log (lvl : level) (msg : string) (args : list value)
  : M state unit := emit (Log lvl msg args).

Definition environ_get (name : string) : M state (option string) :=
  emit (EnvironGet name) ;;; ret (environ w !! name).

Definition which (cmd : string) : M state (option string) :=
  emit (Which cmd) ;;; ret (path_lookup w cmd).

(** [subprocess.check_output(cmdline, encoding="utf-8")]: the output
    is read through a text stream, which decodes it and translates its
    newlines, before the exit status is looked at. *)
Definition check_output (cmdline : list string) : M state string :=
  emit (CheckOutput cmdline) ;;;
  let c := child w cmdline in
  match utf8_decode (stdout c) with
  | None => raise UnicodeDecodeError
  | Some text =>
      if (returncode c =? 0)%Z then ret (universal_newlines text)
      else raise (CalledProcessError (returncode c))
  end.

Definition is_CalledProcessError (e : exn) : bool :=
  match e with CalledProcessError _ => true | _ => false end.

(** [isinstance(e, urllib.error.URLError)]. *)
Definition is_URLError (e : exn) : bool :=
  match e with URLError | HTTPError _ => true | _ => false end.

(** An open response: its status, and what [response.read()] gives. *)
Record response : Type := {
  status : Z;
  read : result string;
}.

Definition urlopen (req : request) : M state response :=
  emit (Urlopen req) ;;;
  match network w req with
  | Response status body => ret {| status := status; read := Ok body |}
  | Unreachable => raise URLError
  | Failed e => raise e
  | Cut status e => ret {| status := status; read := Raise e |}
  end.

(** [data.decode("utf-8")]. *)
Definition decode (data : string) : M state string :=
  match utf8_decode data with
  | Some text => ret text
  | None => raise UnicodeDecodeError
  end.

(** [Path(p).read_text()]. *)
Definition read_text (p : string) : M state string :=
  emit (ReadText p) ;;;
  λ s, match files s !! p with
       | Some text =>
           match unreadable w p with
           | Some e => (Raise e, s)
           | None => (Ok text, s)
           end
       | None => (Raise FileNotFoundError, s)
       end.

(** [Path(p).write_text(v)]: anything but a [str] is refused before
    the file is opened; [open(p, "w")] empties the file; the text is
    encoded as a whole and then written. *)
Definition write_text (p : string) (v : value) : M state unit :=
  match v with
  | VStr text =>
      match unwritable w p with
      | Some e => raise e
      | None =>
          if encodable w text then
            emit (WriteText p text) ;;;
            λ s, (Ok (), {| files := <[p := text]> (files s);
                            trace := trace s |})
          else
            emit (Truncate p) ;;;
            λ s, (Raise UnicodeEncodeError,
                  {| files := <[p := ""]> (files s); trace := trace s |})
      end
  | _ => raise TypeError
  end.

(** [sys.argv[i]]. *)
Definition argv_item (i : nat) : M state string :=
  match argv w !! i with
  | Some a => ret a
  | None => raise IndexError
  end.

Definition get_api_key : M state string :=
  if opt_truthy (config.GEMINI_API_KEY (cfg w)) then
    ret (default "" (config.GEMINI_API_KEY (cfg w)))
  else
    api_key <- environ_get "GEMINI_API_KEY" ;;
    if negb (opt_truthy api_key) then
      log ERROR "Error: GEMINI_API_KEY not found." [] ;;;
      log ERROR ("Please set the GEMINI_API_KEY in the script or as an "
                 ++ "environment variable.") [] ;;;
      sys_exit 1
    else ret (default "" api_key).

Definition get_git_diff : M state string :=
  git_executable <- which "git" ;;
  (if negb (opt_truthy git_executable) then
     log ERROR "git executable not found." [] ;;; sys_exit 1
   else ret ()) ;;;
  try_except
    (check_output [default "" git_executable; "diff"; "--staged"])
    is_CalledProcessError
    (ret "").

Definition get_branch_name : M state string :=
  git_executable <- which "git" ;;
  (if negb (opt_truthy git_executable) then
     log ERROR "git executable not found." [] ;;; sys_exit 1
   else ret ()) ;;;
  try_except
    (out <- check_output
              [default "" git_executable; "rev-parse"; "--abbrev-ref"; "HEAD"] ;;
     ret (strip out))
    is_CalledProcessError
    (ret "").

Definition user_prompt_of (user_message : option string) : string :=
  if opt_truthy user_message then
    "The user has provided the following hint: '"
    ++ default "" user_message ++ "'"
  else "".

Definition prompt_of (diff branch_name user_prompt : string) : string :=
  nl ++
  "    Generate a commit message for the following changes on branch '"
    ++ branch_name ++ "'." ++ nl ++
  "    " ++ user_prompt ++ nl ++
  nl ++
  "    The commit message should be a 1-2 sentence high-level summary," ++ nl ++
  "    followed by two newlines, and a markdown list of the changes in" ++ nl ++
  "    conventional commit format. You should only state facts and not" ++ nl ++
  "    assume the intentions of the change." ++ nl ++
  nl ++
  "    Use the following conventional commit types: feat, fix, docs, style," ++ nl ++
  "    refactor, perf, test, build, ci, chore, revert." ++ nl ++
  nl ++
  "    Example:" ++ nl ++
  "    ```" ++ nl ++
  "    API now supports HTTPS connections and DELETE" ++ nl ++
  "    method for `Pancakes` type. Plus minor bug fixes." ++ nl ++
  nl ++
  "    - feat(api): Add HTTPS support to api" ++ nl ++
  "    - feat(api): Add delete to `Pancakes` type" ++ nl ++
  "    - fix(pancakes): Fix for case when syrup is missing" ++ nl ++
  "    - docs(pancakes): Fix misspellings" ++ nl ++
  "    ```" ++ nl ++
  nl ++
  "    Here is the diff:" ++ nl ++
  "    ```" ++ nl ++
  "    " ++ diff ++ nl ++
  "    ```" ++ nl ++
  "    ".

(** [result["candidates"][0]["content"]["parts"][0]["text"]]. *)
Definition extract_text (result : value) : Py.result value :=
  and_then (getitem_str "candidates" result) (λ candidates,
  and_then (getitem_0 candidates) (λ candidate,
  and_then (getitem_str "content" candidate) (λ content,
  and_then (getitem_str "parts" content) (λ parts,
  and_then (getitem_0 parts) (λ part,
  getitem_str "text" part))))).

Definition request_of (diff branch_name api_key : string)
    (user_message : option string) : request :=
  let prompt := prompt_of diff branch_name (user_prompt_of user_message) in
  {| url := "https://generativelanguage.googleapis.com/v1beta/models/"
            ++ config.GEMINI_MODEL (cfg w) ++ ":generateContent?key="
            ++ api_key;
     data := VDict [("contents",
               VList [VDict [("parts",
                 VList [VDict [("text", VStr prompt)]])]])];
     headers := [("Content-Type", "application/json")] |}.

(** The [return None] after the [try] statement is dead code: the body
    of the [try] returns, exits or raises, and the handler exits. *)
Definition generate_commit_message (diff branch_name api_key : string)
    (user_message : option string) : M state value :=
  let req := request_of diff branch_name api_key user_message in
  try_except
    (response <- urlopen req ;;
     if (status response =? 200)%Z then
       body <- lift (read response) ;;
       match json_loads body with
       | Some result => lift (extract_text result)
       | None => raise ValueError
       end
     else
       log ERROR "Error: Gemini API request failed with status %s"
           [VInt (status response)] ;;;
       body <- lift (read response) ;;
       text <- decode body ;;
       log ERROR text [] ;;;
       sys_exit 1)
    is_URLError
    (log ERROR "Error: Could not connect to Gemini API" [] ;;;
     sys_exit 1).

Definition main : M state unit :=
  commit_msg_file <- argv_item 1 ;;
  commit_source <- (if (2 <? length (argv w))%nat then argv_item 2
                    else ret "") ;;
  (if String.eqb commit_source "merge" then
     log INFO "Merge commit detected. Skipping." [] ;;; sys_exit 0
   else ret ()) ;;;
  user_message <- (if String.eqb commit_source "message" then
                     text <- read_text commit_msg_file ;;
                     ret (Some (strip text))
                   else ret None) ;;
  api_key <- get_api_key ;;
  diff <- get_git_diff ;;
  branch_name <- get_branch_name ;;
  (if negb (str_truthy diff) then
     log INFO "No staged changes found. Aborting." [] ;;; sys_exit 0
   else ret ()) ;;;
  log INFO "Generating commit message..." [] ;;;
  commit_message <- generate_commit_message diff branch_name api_key
                      user_message ;;
  if truthy commit_message then write_text commit_msg_file commit_message
  else ret ().

End hook.

(** One run of the script as a process: the exit status and the store it
    leaves. *)
Definition run (json_loads : string → option value)
    (utf8_decode : string → option string)
    (strip : string → string) (w : world) (disk : gmap string string)
    : Z * state :=
  let out := main json_loads utf8_decode strip w
               {| files := disk; trace := [] |} in
  (exit_status out.1, out.2).

End gemini_commit.

(** ** install.py *)

Module install.

(** A relative path, as its components: [Path(".git/hooks")] is
    [[".git"; "hooks"]], and [p / name] appends a component. *)
Abbreviation path := (list string).

(** What a name in the tree stands for: a directory, a regular file with
    its text, or a symbolic link to another place of the tree.  [mode]
    holds the twelve mode bits: the nine permission bits and above them
    the sticky, set-group-id and set-user-id bits. *)
Inductive node : Type :=
| Dir (mode : Z)
| File (text : string) (mode : Z)
| Link (target : path).

(** The system calls of the installer that change the tree, with the
    resolved path they act on. *)
Inductive call : Type :=
| Mkdir (p : path)
| OpenW (p : path)
| Chmod (p : path) (mode : Z).

Record state : Type := {
  fs : gmap (list string) node;
  logged : list (level * string * list string);
}.

(** What the installer meets.  [refuses] is the error with which the
    system turns down a call that is otherwise in order, in the tree as
    it is then: no permission, not the owner, a read-only file system.
    [keeps] gives the set-id and sticky bits that the system lets stand
    at that call; the others it clears.  [encodable] tells the texts
    that the locale's encoding can write. *)
Record world : Type := {
  SCRIPT_DIR : path;                 (* Path(__file__).parent *)
  resolve : path → string;           (* str(p.resolve()) *)
  umask : Z;
  encodable : string → bool;
  refuses : gmap (list string) node → call → option exn;
  keeps : gmap (list string) node → call → Z;
}.

Definition HOOK_DIR : path := [".git"; "hooks"].
Definition HOOK_NAME : string := "prepare-commit-msg".
Definition SCRIPT_NAME : string := "gemini_commit.py".

(** [stat.S_IEXEC], [stat.S_IFREG], [stat.S_IFDIR]. *)
Definition S_IEXEC : Z := 64.        (* 0o100 *)
Definition S_IFREG : Z := 32768.     (* 0o100000 *)
Definition S_IFDIR : Z := 16384.     (* 0o040000 *)

(** The octal masks of the system calls. *)
Definition o777 : Z := 511.
Definition o666 : Z := 438.
Definition o7777 : Z := 4095.

(** The links that one path resolution may follow. *)
Definition SYMLOOP_MAX : nat := 40.

(** [s.replace(old, new)] for a one-character [old]. *)
Fixpoint replace (old : Ascii.ascii) (new : string) (s : string) : string :=
  match s with
  | EmptyString => EmptyString
  | String c rest =>
      if Ascii.eqb c old then new ++ replace old new rest
      else String c (replace old new rest)
  end.

(** Path resolution: the components [rest] are looked up one by one
    below the resolved prefix [seen]; a link is replaced by its target
    and resolution starts again, at most [links] times. *)
Fixpoint walk (links : nat) (tree : gmap (list string) node)
    (seen rest : path) {struct links} : option path :=
  (fix go (seen rest : path) {struct rest} : option path :=
     match rest with
     | [] => Some seen
     | name :: rest' =>
         match tree !! (seen ++ [name])%list with
         | Some (Link target) =>
             match links with
             | O => None
             | S links' => walk links' tree [] (target ++ rest')%list
             end
         | _ => go (seen ++ [name])%list rest'
         end
     end) seen rest.

(** The mode bits that stand when the system keeps the set-id and
    sticky bits [kept]: the permission bits always do. *)
Definition standing (mode kept : Z) : Z := Z.land mode (Z.lor o777 kept).

Section installer.

Variable w : world.

Definition log (lvl : level) (msg : string) (args : list string)
  : M state unit :=
  λ s, (Ok (), {| fs := fs s; logged := logged s ++ [(lvl, msg, args)] |}).

(** The node with a resolved path; the empty path is the working
    directory. *)
Definition node_of (s : state) (q : path) : option node :=
  match q with
  | [] => Some (Dir o777)
  | _ => fs s !! q
  end.

Definition set_node (q : path) (n : node) (s : state) : state :=
  {| fs := <[q := n]> (fs s); logged := logged s |}.

(** Where a path leads when every link is followed, or the error of
    the system call: too many links, or no directory to hold the last
    name. *)
Definition locate (s : state) (p : path) : result path :=
  match walk SYMLOOP_MAX (fs s) [] p with
  | None => Raise OSError
  | Some q =>
      match node_of s (removelast q) with
      | Some (Dir _) => Ok q
      | Some _ => Raise NotADirectoryError
      | None => Raise FileNotFoundError
      end
  end.

(** What a path names, through links: nothing when it leads nowhere. *)
Definition node_at (s : state) (p : path) : option node :=
  match locate s p with
  | Ok q => node_of s q
  | _ => None
  end.

(** [p.exists()]. *)
Definition exists_ (p : path) : M state bool :=
  λ s, (Ok (match node_at s p with Some _ => true | None => false end), s).

(** [p.mkdir(exist_ok=True)]: [os.mkdir] with mode [0o777] does not
    follow a link at the last name; on [FileExistsError] the path is
    accepted when [p.is_dir()], which follows links. *)
Definition mkdir_exist_ok (p : path) : M state unit :=
  λ s, match locate s (removelast p) with
       | Ok d =>
           match node_of s d with
           | Some (Dir _) =>
               let q := (d ++ [List.last p ""])%list in
               match fs s !! q with
               | None =>
                   match refuses w (fs s) (Mkdir q) with
                   | Some e => (Raise e, s)
                   | None =>
                       (Ok (),
                        set_node q (Dir (Z.land o777 (Z.lnot (umask w)))) s)
                   end
               | Some _ =>
                   match node_at s p with
                   | Some (Dir _) => (Ok (), s)
                   | _ => (Raise FileExistsError, s)
                   end
               end
           | Some _ => (Raise NotADirectoryError, s)
           | None => (Raise FileNotFoundError, s)
           end
       | Exit code => (Exit code, s)
       | Raise e => (Raise e, s)
       end.

(** [p.write_text(text)]: [open(p, "w")] follows links, keeps the mode
    of a file that exists, but for the set-id bits the system clears,
    and creates a missing one with [0o666 & ~umask]; the file is then
    empty, and the text is encoded as a whole and written. *)
Definition write_text (p : path) (text : string) : M state unit :=
  λ s, match locate s p with
       | Ok q =>
           match node_of s q with
           | Some (Dir _) => (Raise IsADirectoryError, s)
           | Some (Link _) => (Raise OSError, s)
           | found =>
               match refuses w (fs s) (OpenW q) with
               | Some e => (Raise e, s)
               | None =>
                   let mode :=
                     match found with
                     | Some (File _ mode) =>
                         standing mode (keeps w (fs s) (OpenW q))
                     | _ => Z.land o666 (Z.lnot (umask w))
                     end in
                   if encodable w text
                   then (Ok (), set_node q (File text mode) s)
                   else (Raise UnicodeEncodeError,
                         set_node q (File "" mode) s)
               end
           end
       | Exit code => (Exit code, s)
       | Raise e => (Raise e, s)
       end.

(** [p.stat().st_mode]: the file type bits above the mode bits. *)
Definition stat_st_mode (p : path) : M state Z :=
  λ s, match node_at s p with
       | Some (File _ mode) => (Ok (Z.lor S_IFREG mode), s)
       | Some (Dir mode) => (Ok (Z.lor S_IFDIR mode), s)
       | _ => (Raise FileNotFoundError, s)
       end.

(** [p.chmod(mode)]: the system call follows links and takes the low
    twelve bits; of the set-id and sticky bits it stores those it
    keeps. *)
Definition chmod (p : path) (mode : Z) : M state unit :=
  λ s, match locate s p with
       | Ok q =>
           let stored :=
             standing (Z.land mode o7777) (keeps w (fs s) (Chmod q mode)) in
           match node_of s q with
           | Some (File text _) =>
               match refuses w (fs s) (Chmod q mode) with
               | Some e => (Raise e, s)
               | None => (Ok (), set_node q (File text stored) s)
               end
           | Some (Dir _) =>
               match refuses w (fs s) (Chmod q mode) with
               | Some e => (Raise e, s)
               | None => (Ok (), set_node q (Dir stored) s)
               end
           | _ => (Raise FileNotFoundError, s)
           end
       | Exit code => (Exit code, s)
       | Raise e => (Raise e, s)
       end.

Definition hook_path : path := (HOOK_DIR ++ [HOOK_NAME])%list.

Definition script_path : string :=
  replace "\"%char "\\" (resolve w (SCRIPT_DIR w ++ [SCRIPT_NAME])%list).

Definition hook_content : string :=
  "#!/bin/sh" ++ nl ++ "python " ++ script_path ++ " $1" ++ nl.

Definition main : M state unit :=
  git_exists <- exists_ [".git"] ;;
  (if negb git_exists then
     log ERROR "Error: This is not a git repository." [] ;;; sys_exit 1
   else ret ()) ;;;
  mkdir_exist_ok HOOK_DIR ;;;
  write_text hook_path hook_content ;;;
  (* Make the hook executable *)
  st_mode <- stat_st_mode hook_path ;;
  chmod hook_path (Z.lor st_mode S_IEXEC) ;;;
  log INFO "Successfully installed %s hook." [HOOK_NAME].

End installer.

(** One run of the installer as a process. *)
Definition run (w : world) (disk : gmap (list string) node) : Z * state :=
  let out := main w {| fs := disk; logged := [] |} in
  (exit_status out.1, out.2).

End install.
(** ** Concrete environments

    Small worlds on which the definitions above are run: they serve the
    examples of the properties below. *)

Module sample.
Import gemini_commit.

(** [str.strip()] on ASCII text: the characters Python counts as
    white space below 128. *)
Definition is_space (c : ascii) : bool :=
  let n := nat_of_ascii c in
  ((9 <=? n) && (n <=? 13) || (28 <=? n) && (n <=? 32))%nat.

Fixpoint lstrip (s : string) : string :=
  match s with
  | String c rest => if is_space c then lstrip rest else s
  | EmptyString => EmptyString
  end.

Fixpoint rstrip (s : string) : string :=
  match s with
  | EmptyString => EmptyString
  | String c rest =>
      let rest' := rstrip rest in
      if is_space c && negb (str_truthy rest') then EmptyString
      else String c rest'
  end.

Definition strip (s : string) : string := rstrip (lstrip s).

(** Text in ASCII: what every encoding of interest can write, and what
    decodes as UTF-8 to itself. *)
Fixpoint is_ascii (s : string) : bool :=
  match s with
  | EmptyString => true
  | String c rest => (nat_of_ascii c <? 128)%nat && is_ascii rest
  end.

(** [bytes.decode("utf-8")] on ASCII output; a byte above 127 on its own
    is not UTF-8. *)
Definition decode (data : string) : option string :=
  if is_ascii data then Some data else None.

(** Two bytes that no UTF-8 text holds. *)
Definition not_utf8 : string :=
  String (ascii_of_nat 255) (String (ascii_of_nat 254) EmptyString).


(** The shape of a well-formed reply around its text. *)
Definition reply (text : value) : value :=
  VDict [("candidates",
    VList [VDict [("content",
      VDict [("parts", VList [VDict [("text", text)]])])]])].

(** A decoder that knows few bodies: [=msg] is a well-formed reply whose
    text is [msg], [null] a well-formed reply whose text is [null],
    [{}] an empty object; nothing else decodes. *)
Definition loads (body : string) : option value :=
  match body with
  | String "="%char msg => Some (reply (VStr msg))
  | "null" => Some (reply VNone)
  | "{}" => Some (VDict [])
  | _ => None
  end.

Definition git : string := "/usr/bin/git".

(** A repository with a staged change on branch [main]. *)
Definition staged (cmdline : list string) : completed :=
  match cmdline with
  | [_; "diff"; "--staged"] =>
      {| returncode := 0; stdout := "+print(1)" |}
  | [_; "rev-parse"; "--abbrev-ref"; "HEAD"] =>
      {| returncode := 0; stdout := "main" ++ nl |}
  | _ => {| returncode := 1; stdout := "" |}
  end.

(** A repository with nothing staged and no commit yet. *)
Definition nothing_staged (cmdline : list string) : completed :=
  match cmdline with
  | [_; "diff"; "--staged"] => {| returncode := 0; stdout := "" |}
  | _ => {| returncode := 128; stdout := "" |}
  end.

(** Nothing staged, on a branch whose name is not UTF-8. *)
Definition odd_branch (cmdline : list string) : completed :=
  match cmdline with
  | [_; "diff"; "--staged"] => {| returncode := 0; stdout := "" |}
  | _ => {| returncode := 0; stdout := not_utf8 |}
  end.

(** A staged change printed with Windows line ends. *)
Definition staged_crlf (cmdline : list string) : completed :=
  match cmdline with
  | [_; "diff"; "--staged"] =>
      {| returncode := 0;
         stdout := "+a" ++ String CR (String LF "+b") ++ String CR "" |}
  | _ => {| returncode := 0; stdout := "main" ++ nl |}
  end.

(** A staged change that is not UTF-8. *)
Definition staged_binary (cmdline : list string) : completed :=
  match cmdline with
  | [_; "diff"; "--staged"] => {| returncode := 0; stdout := not_utf8 |}
  | _ => {| returncode := 0; stdout := "main" ++ nl |}
  end.

(** A directory that is not a repository: both commands fail. *)
Definition not_a_repository (cmdline : list string) : completed :=
  match cmdline with
  | [_; "diff"; "--staged"] =>
      {| returncode := 129; stdout := "" |}
  | _ => {| returncode := 128; stdout := "" |}
  end.

Definition world_of (args : list string) (key : option string)
    (env : gmap string string) (found : option string)
    (runs : list string → completed) (answer : http) : world :=
  {| argv := "gemini_commit.py" :: args;
     cfg := {| config.GEMINI_MODEL := config.GEMINI_MODEL config.shipped;
               config.GEMINI_API_KEY := key |};
     environ := env;
     path_lookup := λ cmd, if String.eqb cmd "git" then found else None;
     child := runs;
     network := λ _, answer;
     unreadable := λ _, None;
     unwritable := λ _, None;
     encodable := is_ascii |}.

Definition key_in_env : gmap string string := {[ "GEMINI_API_KEY" := "k3y" ]}.

Definition msg_file : string := ".git/COMMIT_EDITMSG".

Definition disk : gmap string string := {[ msg_file := "fix login" ]}.

Definition init : state := {| files := disk; trace := [] |}.

(** A commit with a staged change, a key in the environment, and an API
    that answers with a message. *)
Definition happy : world :=
  world_of [msg_file] None key_in_env (Some git) staged
    (Response 200 "=feat: add print").

(** The same, with an API that answers with the empty message. *)
Definition empty_reply : world :=
  world_of [msg_file] None key_in_env (Some git) staged (Response 200 "=").

(** The same, with an API whose reply has no [candidates]. *)
Definition bad_reply : world :=
  world_of [msg_file] None key_in_env (Some git) staged (Response 200 "{}").

(** The same, with an API that refuses the request. *)
Definition rate_limited : world :=
  world_of [msg_file] None key_in_env (Some git) staged
    (Response 429 "quota exceeded").

(** No [git] on the PATH. *)
Definition no_git : world :=
  world_of [msg_file] None key_in_env None staged (Response 200 "=x").

(** [GEMINI_API_KEY] is exported, with the empty string as its value. *)
Definition empty_env_key : world :=
  world_of [msg_file] None {[ "GEMINI_API_KEY" := "" ]} (Some git) staged
    (Response 200 "=x").

(** [config.GEMINI_API_KEY = ""]. *)
Definition empty_cfg_key : world :=
  world_of [msg_file] (Some "") key_in_env (Some git) staged
    (Response 200 "=x").

(** No key anywhere. *)
Definition no_key : world :=
  world_of [msg_file] None ∅ (Some git) staged (Response 200 "=x").

(** A merge commit. *)
Definition merging : world :=
  world_of [msg_file; "merge"] None ∅ None staged Unreachable.

(** Nothing staged. *)
Definition unstaged : world :=
  world_of [msg_file] None key_in_env (Some git) nothing_staged
    (Response 200 "=x").

(** A key in the configuration and another in the environment. *)
Definition both_keys : world :=
  world_of [msg_file] (Some "c0nf") key_in_env (Some git) staged
    (Response 200 "=x").

(** The script called with no argument. *)
Definition bare : world :=
  world_of [] None key_in_env (Some git) staged (Response 200 "=x").

(** The source [message] with a file that is not there. *)
Definition lost_hint : world :=
  world_of ["gone"; "message"] None key_in_env (Some git) staged
    (Response 200 "=x").

(** The source [message] with a file that holds only white space. *)
Definition hinted : world :=
  world_of [msg_file; "message"] None key_in_env (Some git) staged
    (Response 200 "=x").

Definition blank_disk : gmap string string := {[ msg_file := "  " ++ nl ]}.

(** Nothing staged, and a branch name that does not decode. *)
Definition unstaged_odd : world :=
  world_of [msg_file] None key_in_env (Some git) odd_branch
    (Response 200 "=x").

(** A diff with Windows line ends. *)
Definition windows_diff : world :=
  world_of [msg_file] None key_in_env (Some git) staged_crlf
    (Response 200 "=x").

(** A diff that does not decode. *)
Definition binary_diff : world :=
  world_of [msg_file] None key_in_env (Some git) staged_binary
    (Response 200 "=x").


(** A server that closes the connection without a reply. *)
Definition hung_up : world :=
  world_of [msg_file] None key_in_env (Some git) staged
    (Failed RemoteDisconnected).

(** A server that answers 403, which [urllib] raises as [HTTPError]. *)
Definition forbidden : world :=
  world_of [msg_file] None key_in_env (Some git) staged
    (Failed (HTTPError 403)).

(** The happy world with a commit-message file that cannot be opened
    for writing. *)
Definition read_only : world :=
  {| argv := argv happy;
     cfg := cfg happy;
     environ := environ happy;
     path_lookup := path_lookup happy;
     child := child happy;
     network := network happy;
     unreadable := unreadable happy;
     unwritable := λ _, Some PermissionError;
     encodable := encodable happy |}.

End sample.

Module sample_install.
Import install.

(** Every set-id and sticky bit: [0o7000]. *)
Definition o7000 : Z := 3584.

(** A process that owns what it touches, with umask [0o022]: no call
    is refused and no bit is cleared. *)
Definition here : world :=
  {| SCRIPT_DIR := ["hook"];
     resolve := λ _, "/opt/hook/gemini_commit.py";
     umask := 18;
     encodable := λ _, true;
     refuses := λ _ _, None;
     keeps := λ _ _, o7000 |}.

(** A directory that is not a repository. *)
Definition outside : gmap (list string) node :=
  {[ ["README.md"] := File "notes" 420 ]}.

(** A fresh repository: [.git] and nothing below it. *)
Definition fresh : gmap (list string) node :=
  {[ [".git"] := Dir 493 ]}.

(** A repository with a hook installed before, mode [0o640]. *)
Definition installed : gmap (list string) node :=
  <[ hook_path := File "#!/bin/sh" 416 ]>
    (<[ HOOK_DIR := Dir 493 ]> fresh).

(** The same with the set-group-id bit on the hook: mode [0o2664]. *)
Definition shared : gmap (list string) node :=
  <[ hook_path := File "#!/bin/sh" 1460 ]>
    (<[ HOOK_DIR := Dir 493 ]> fresh).

(** A process outside the group of the file: [chmod] clears the
    set-group-id bit. *)
Definition outsider : world :=
  {| SCRIPT_DIR := ["hook"];
     resolve := λ _, "/opt/hook/gemini_commit.py";
     umask := 18;
     encodable := λ _, true;
     refuses := λ _ _, None;
     keeps := λ _ c, match c with Chmod _ _ => 0 | _ => o7000 end |}.

(** A process with umask [0o222] that is not the superuser: a file
    that lacks the owner's write bit does not open for writing. *)
Definition careful : world :=
  {| SCRIPT_DIR := ["hook"];
     resolve := λ _, "/opt/hook/gemini_commit.py";
     umask := 146;
     encodable := λ _, true;
     refuses := λ tree c,
       match c with
       | OpenW q =>
           match tree !! q with
           | Some (File _ mode) =>
               if Z.testbit mode 7 then None else Some PermissionError
           | _ => None
           end
       | _ => None
       end;
     keeps := λ _ _, o7000 |}.


(** A repository whose hooks are kept elsewhere: [.git/hooks] is a
    link to [shared-hooks]. *)
Definition linked : gmap (list string) node :=
  <[ HOOK_DIR := Link ["shared-hooks"] ]>
    (<[ ["shared-hooks"] := Dir 493 ]> fresh).

(** The script kept under a Windows path. *)
Definition windows : world :=
  {| SCRIPT_DIR := ["hook"];
     resolve := λ _, "C:\hook\gemini_commit.py";
     umask := 0;
     encodable := λ _, true;
     refuses := λ _ _, None;
     keeps := λ _ _, o7000 |}.

End sample_install.
(** ** Vocabulary of the properties *)

Module hook_spec.
Import gemini_commit.

(** The store after more events, the files untouched. *)
Definition after (s : state) (evs : list event) : state :=
  {| files := files s; trace := (trace s ++ evs)%list |}.

(** The same world with another [config.GEMINI_API_KEY]. *)
Definition with_key (k : option string) (w : world) : world :=
  {| argv := argv w;
     cfg := {| config.GEMINI_MODEL := config.GEMINI_MODEL (cfg w);
               config.GEMINI_API_KEY := k |};
     environ := environ w;
     path_lookup := path_lookup w;
     child := child w;
     network := network w;
     unreadable := unreadable w;
     unwritable := unwritable w;
     encodable := encodable w |}.

(** The same world with other environment variables. *)
Definition with_environ (env : gmap string string) (w : world) : world :=
  {| argv := argv w;
     cfg := cfg w;
     environ := env;
     path_lookup := path_lookup w;
     child := child w;
     network := network w;
     unreadable := unreadable w;
     unwritable := unwritable w;
     encodable := encodable w |}.

(** Neither source gives a usable key. *)
Definition keyless (w : world) : bool :=
  negb (opt_truthy (config.GEMINI_API_KEY (cfg w)))
  && negb (opt_truthy (environ w !! "GEMINI_API_KEY")).

(** The second command-line argument, [""] when there is none. *)
Definition commit_source (w : world) : string :=
  default "" (argv w !! 2%nat).

(** The path [candidates[0].content.parts[0].text] read as JSON
    structure: a member of an object, the first element of an array. *)
Definition member (k : string) (v : value) : option value :=
  match v with
  | VDict d => dict_get d k
  | _ => None
  end.

Definition first (v : value) : option value :=
  match v with
  | VList (x :: _) => Some x
  | _ => None
  end.

Definition text_path (v : value) : option value :=
  candidates ← member "candidates" v;
  candidate ← first candidates;
  content ← member "content" candidate;
  parts ← member "parts" content;
  part ← first parts;
  member "text" part.

(** A body that is not JSON, or JSON without the path. *)
Definition malformed (json_loads : string → option value)
    (body : string) : Prop :=
  match json_loads body with
  | None => True
  | Some v => text_path v = None
  end.

(** During the run that left the trace [tr], the API was asked and
    answered with [status] and [body]. *)
Definition api_replied (w : world) (tr : list event) (status : Z)
    (body : string) : Prop :=
  ∃ req, Urlopen req ∈ tr ∧ network w req = Response status body.

(** During that run the API client returned the value [v]. *)
Definition api_returned (json_loads : string → option value) (w : world)
    (tr : list event) (v : value) : Prop :=
  ∃ body result,
    api_replied w tr 200 body ∧ json_loads body = Some result
    ∧ extract_text result = Ok v.

(** The file writes of a trace, in order. *)
Definition writes (tr : list event) : list (string * string) :=
  omap (λ ev, match ev with
              | WriteText p text => Some (p, text)
              | _ => None
              end) tr.

(** The files a trace emptied without writing to them, in order. *)
Definition truncations (tr : list event) : list string :=
  omap (λ ev, match ev with
              | Truncate p => Some p
              | _ => None
              end) tr.

(** The requests of a trace, in order. *)
Definition requests (tr : list event) : list request :=
  omap (λ ev, match ev with
              | Urlopen req => Some req
              | _ => None
              end) tr.

(** [s'] comes from [s] by events that are neither file writes nor
    requests, with the files as they were. *)
Definition quiet_ext (s s' : state) : Prop :=
  files s' = files s
  ∧ ∃ evs, trace s' = (trace s ++ evs)%list
           ∧ writes evs = [] ∧ truncations evs = [] ∧ requests evs = [].

(** A program that neither writes a file nor asks the API. *)
Definition quiet {A} (m : M state A) : Prop :=
  ∀ s, quiet_ext s (m s).2.

(** A result of subscripting: a value, or an exception that is not a
    [URLError]; never an exit. *)
Definition subscript_result (r : result value) : Prop :=
  match r with
  | Ok _ => True
  | Exit _ => False
  | Raise e => is_URLError e = false
  end.

(** The last two statements of [main]. *)
Definition generate_and_write (json_loads : string → option value)
    (utf8_decode : string → option string)
    (w : world) (commit_msg_file diff branch_name api_key : string)
    (user_message : option string) : M state unit :=
  bind (generate_commit_message json_loads utf8_decode w diff branch_name
          api_key user_message)
    (λ commit_message,
       if truthy commit_message
       then write_text w commit_msg_file commit_message
       else ret ()).

(** The store after [write_text], when it wrote and when it only
    emptied the file. *)
Definition written (p text : string) (s : state) : state :=
  {| files := <[p := text]> (files s);
     trace := (trace s ++ [WriteText p text])%list |}.

(** How a call of the API ends, for each answer of the network: with
    the value at the path of a 200 reply, with [sys.exit(1)] after an
    error that is logged, or with an exception that is not caught. *)
Definition answer (json_loads : string → option value)
    (utf8_decode : string → option string) (w : world) (req : request)
    : result value :=
  match network w req with
  | Response status body =>
      if (status =? 200)%Z then
        match json_loads body with
        | Some result => extract_text result
        | None => Raise ValueError
        end
      else
        match utf8_decode body with
        | Some _ => Exit 1
        | None => Raise UnicodeDecodeError
        end
  | Unreachable => Exit 1
  | Failed e | Cut _ e => if is_URLError e then Exit 1 else Raise e
  end.

(** The end of a call that gave no value is the end of the run. *)
Definition unit_of (r : result value) : result unit :=
  match r with
  | Ok _ => Ok ()
  | Exit code => Exit code
  | Raise e => Raise e
  end.

(** Every way a run of the hook can end, with its outcome and the
    store it leaves.  [disk] holds the files at the start. *)
Inductive ending (json_loads : string → option value)
    (utf8_decode : string → option string) (w : world)
    (disk : gmap string string) : result unit → state → Prop :=
| end_before_request r st :
    requests (trace st) = [] → writes (trace st) = [] →
    truncations (trace st) = [] → files st = disk →
    ending json_loads utf8_decode w disk r st
| end_no_value st req r :
    requests (trace st) = [req] → writes (trace st) = [] →
    truncations (trace st) = [] → files st = disk →
    answer json_loads utf8_decode w req = r → (∀ v, r ≠ Ok v) →
    ending json_loads utf8_decode w disk (unit_of r) st
| end_no_message st req v :
    requests (trace st) = [req] → writes (trace st) = [] →
    truncations (trace st) = [] → files st = disk →
    answer json_loads utf8_decode w req = Ok v → truthy v = false →
    ending json_loads utf8_decode w disk (Ok ()) st
| end_not_a_string st req v :
    requests (trace st) = [req] → writes (trace st) = [] →
    truncations (trace st) = [] → files st = disk →
    answer json_loads utf8_decode w req = Ok v → truthy v = true →
    (∀ text, v ≠ VStr text) →
    ending json_loads utf8_decode w disk (Raise TypeError) st
| end_unwritable st req file text e :
    requests (trace st) = [req] → writes (trace st) = [] →
    truncations (trace st) = [] → files st = disk →
    answer json_loads utf8_decode w req = Ok (VStr text) → text ≠ "" →
    argv w !! 1%nat = Some file → unwritable w file = Some e →
    ending json_loads utf8_decode w disk (Raise e) st
| end_truncated st req file text :
    requests (trace st) = [req] → writes (trace st) = [] →
    truncations (trace st) = [file] → files st = <[file := ""]> disk →
    answer json_loads utf8_decode w req = Ok (VStr text) → text ≠ "" →
    argv w !! 1%nat = Some file → unwritable w file = None →
    encodable w text = false →
    ending json_loads utf8_decode w disk (Raise UnicodeEncodeError) st
| end_written st req file text :
    requests (trace st) = [req] → writes (trace st) = [(file, text)] →
    truncations (trace st) = [] → files st = <[file := text]> disk →
    answer json_loads utf8_decode w req = Ok (VStr text) → text ≠ "" →
    argv w !! 1%nat = Some file → unwritable w file = None →
    encodable w text = true →
    ending json_loads utf8_decode w disk (Ok ()) st.

(** The store a process starts from. *)
Definition start (disk : gmap string string) : state :=
  {| files := disk; trace := [] |}.

(** What the helpers give in a world, read off their code: the key
    [get_api_key] returns, the command found for [git], the two command
    lines, the text of a command's output, the diff and the branch
    name, and the hint read from the commit-message file. *)
Definition key_of (w : world) : string :=
  if opt_truthy (config.GEMINI_API_KEY (cfg w))
  then default "" (config.GEMINI_API_KEY (cfg w))
  else default "" (environ w !! "GEMINI_API_KEY").

Definition git_of (w : world) : string := default "" (path_lookup w "git").

Definition diff_command (w : world) : list string :=
  [git_of w; "diff"; "--staged"].

Definition branch_command (w : world) : list string :=
  [git_of w; "rev-parse"; "--abbrev-ref"; "HEAD"].

(** The output of a command as text: decoded, with its newlines
    translated; nothing when the bytes are not UTF-8. *)
Definition text_of (utf8_decode : string → option string) (w : world)
    (cmdline : list string) : option string :=
  universal_newlines <$> utf8_decode (stdout (child w cmdline)).

Definition diff_of (utf8_decode : string → option string) (w : world)
    : string :=
  if (returncode (child w (diff_command w)) =? 0)%Z
  then default "" (text_of utf8_decode w (diff_command w))
  else "".

Definition branch_of (utf8_decode : string → option string)
    (strip : string → string) (w : world) : string :=
  if (returncode (child w (branch_command w)) =? 0)%Z
  then strip (default "" (text_of utf8_decode w (branch_command w)))
  else "".

Definition hint_of (strip : string → string) (w : world)
    (disk : gmap string string) : option string :=
  match argv w !! 1%nat with
  | Some file =>
      if String.eqb (commit_source w) "message"
      then strip <$> disk !! file
      else None
  | None => None
  end.

(** The commit-message file is there and opens for reading. *)
Definition readable (w : world) (disk : gmap string string)
    (file : string) : Prop :=
  is_Some (disk !! file) ∧ unreadable w file = None.

(** The ways a run ends before the API is asked, in program order. *)
Inductive stops_early (utf8_decode : string → option string) (w : world)
    (disk : gmap string string) : result unit → Prop :=
| stop_no_argument :
    argv w !! 1%nat = None →
    stops_early utf8_decode w disk (Raise IndexError)
| stop_merge :
    is_Some (argv w !! 1%nat) → commit_source w = "merge" →
    stops_early utf8_decode w disk (Exit 0)
| stop_missing file :
    argv w !! 1%nat = Some file → commit_source w = "message" →
    disk !! file = None →
    stops_early utf8_decode w disk (Raise FileNotFoundError)
| stop_unreadable file e :
    argv w !! 1%nat = Some file → commit_source w = "message" →
    is_Some (disk !! file) → unreadable w file = Some e →
    stops_early utf8_decode w disk (Raise e)
| stop_keyless file :
    argv w !! 1%nat = Some file → commit_source w ≠ "merge" →
    (commit_source w = "message" → readable w disk file) →
    keyless w = true →
    stops_early utf8_decode w disk (Exit 1)
| stop_no_git file :
    argv w !! 1%nat = Some file → commit_source w ≠ "merge" →
    (commit_source w = "message" → readable w disk file) →
    keyless w = false → opt_truthy (path_lookup w "git") = false →
    stops_early utf8_decode w disk (Exit 1)
| stop_diff_not_text file :
    argv w !! 1%nat = Some file → commit_source w ≠ "merge" →
    (commit_source w = "message" → readable w disk file) →
    keyless w = false → opt_truthy (path_lookup w "git") = true →
    text_of utf8_decode w (diff_command w) = None →
    stops_early utf8_decode w disk (Raise UnicodeDecodeError)
| stop_branch_not_text file :
    argv w !! 1%nat = Some file → commit_source w ≠ "merge" →
    (commit_source w = "message" → readable w disk file) →
    keyless w = false → opt_truthy (path_lookup w "git") = true →
    is_Some (text_of utf8_decode w (diff_command w)) →
    text_of utf8_decode w (branch_command w) = None →
    stops_early utf8_decode w disk (Raise UnicodeDecodeError)
| stop_nothing_staged file :
    argv w !! 1%nat = Some file → commit_source w ≠ "merge" →
    (commit_source w = "message" → readable w disk file) →
    keyless w = false → opt_truthy (path_lookup w "git") = true →
    is_Some (text_of utf8_decode w (diff_command w)) →
    is_Some (text_of utf8_decode w (branch_command w)) →
    diff_of utf8_decode w = "" →
    stops_early utf8_decode w disk (Exit 0).

(** The conditions under which a run asks the API. *)
Definition asks (utf8_decode : string → option string) (w : world)
    (disk : gmap string string) (file : string) : Prop :=
  argv w !! 1%nat = Some file ∧ commit_source w ≠ "merge"
  ∧ (commit_source w = "message" → readable w disk file)
  ∧ keyless w = false ∧ opt_truthy (path_lookup w "git") = true
  ∧ is_Some (text_of utf8_decode w (diff_command w))
  ∧ is_Some (text_of utf8_decode w (branch_command w))
  ∧ diff_of utf8_decode w ≠ "".

(** The prompt as the lines of the template, each indented by four
    spaces: a blank line is [None].  [told] is the line about the
    hint. *)
Definition template (branch told diff : string) : list (option string) :=
  [ None;
    Some ("Generate a commit message for the following changes on branch '"
          ++ branch ++ "'.");
    Some told;
    None;
    Some "The commit message should be a 1-2 sentence high-level summary,";
    Some "followed by two newlines, and a markdown list of the changes in";
    Some "conventional commit format. You should only state facts and not";
    Some "assume the intentions of the change.";
    None;
    Some "Use the following conventional commit types: feat, fix, docs, style,";
    Some "refactor, perf, test, build, ci, chore, revert.";
    None;
    Some "Example:";
    Some "```";
    Some "API now supports HTTPS connections and DELETE";
    Some "method for `Pancakes` type. Plus minor bug fixes.";
    None;
    Some "- feat(api): Add HTTPS support to api";
    Some "- feat(api): Add delete to `Pancakes` type";
    Some "- fix(pancakes): Fix for case when syrup is missing";
    Some "- docs(pancakes): Fix misspellings";
    Some "```";
    None;
    Some "Here is the diff:";
    Some "```";
    Some diff;
    Some "```";
    Some "" ].

Definition line (l : option string) : string :=
  match l with
  | Some text => "    " ++ text
  | None => ""
  end.

(** Lines joined by newlines. *)
Fixpoint joined (lines : list string) : string :=
  match lines with
  | [] => ""
  | [l] => l
  | l :: rest => l ++ nl ++ joined rest
  end.

(** The line that tells the hint: empty when there is no hint or the
    hint is empty. *)
Definition told (hint : option string) : string :=
  match hint with
  | Some "" | None => ""
  | Some text => "The user has provided the following hint: '" ++ text ++ "'"
  end.

(** How often a character occurs in a string. *)
Fixpoint occurrences (c : ascii) (s : string) : nat :=
  match s with
  | EmptyString => 0
  | String c' rest =>
      (if Ascii.eqb c' c then 1 else 0) + occurrences c rest
  end.

End hook_spec.


Module install_spec.
Import install.

(** The mode bits of the hook file before the installer changes them:
    those of the file that was there, or those [open] gives a new file. *)
Definition prior_mode (w : world) (disk : gmap (list string) node) : Z :=
  match disk !! hook_path with
  | Some (File _ mode) => mode
  | _ => Z.land o666 (Z.lnot (umask w))
  end.

(** The two statements that make the hook executable. *)
Definition make_executable (w : world) : M state unit :=
  bind (stat_st_mode hook_path)
    (λ st_mode, chmod w hook_path (Z.lor st_mode S_IEXEC)).

(** The statements of [main] after the hooks directory is made. *)
Definition write_hook (w : world) : M state unit :=
  bind (write_text w hook_path (hook_content w))
    (λ _, bind (stat_st_mode hook_path)
       (λ st_mode, bind (chmod w hook_path (Z.lor st_mode S_IEXEC))
          (λ _, log INFO "Successfully installed %s hook." [HOOK_NAME]))).

(** The line logged at the end of a successful run. *)
Definition success : level * string * list string :=
  (INFO, "Successfully installed %s hook.", [HOOK_NAME]).

(** A mode without set-id and sticky bits, and without bits above. *)
Definition low (mode : Z) : Prop :=
  ∀ i : Z, (9 ≤ i)%Z → Z.testbit mode i = false.

(** The tree after [mkdir]: the one that was there when [.git/hooks]
    was, or the same with the new directory. *)
Definition with_hooks (w : world) (tree : gmap (list string) node)
    : gmap (list string) node :=
  match tree !! HOOK_DIR with
  | None => <[HOOK_DIR := Dir (Z.land o777 (Z.lnot (umask w)))]> tree
  | Some _ => tree
  end.

(** A tree without symbolic links. *)
Definition no_links (tree : gmap (list string) node) : Prop :=
  ∀ p target, tree !! p ≠ Some (Link target).

(** A tree in which no name on the way to the hook file is a link. *)
Definition plain (tree : gmap (list string) node) : Prop :=
  ∀ p target, p ∈ [[".git"]; HOOK_DIR; hook_path] →
              tree !! p ≠ Some (Link target).

(** A system that refuses no call. *)
Definition permissive (w : world) : Prop :=
  ∀ tree c, refuses w tree c = None.

(** A string with each occurrence of a character doubled. *)
Definition doubled (c : ascii) (s : list ascii) : list ascii :=
  flat_map (λ c', if Ascii.eqb c' c then [c'; c'] else [c']) s.

(** What the shell reads in an unquoted word: a backslash quotes the
    character after it. *)
Fixpoint unquoted (s : string) : string :=
  match s with
  | EmptyString => EmptyString
  | String c rest =>
      if Ascii.eqb c "\"%char then
        match rest with
        | String c' rest' => String c' (unquoted rest')
        | EmptyString => EmptyString
        end
      else String c (unquoted rest)
  end.

End install_spec.
(** * Properties of the hook's helpers *)

Import gemini_commit hook_spec.

Lemma str_truthy_nonempty (s : string) : str_truthy s = true ↔ s ≠ "".
Proof.
  unfold str_truthy. destruct (String.eqb_spec s ""); split; intros; try done.
Qed.

Lemma opt_truthy_Some (o : option string) :
  opt_truthy o = true ↔ ∃ k, o = Some k ∧ k ≠ "".
Proof.
  destruct o as [k|]; simpl.
  - rewrite str_truthy_nonempty. split; [eauto | by intros (? & [= ->] & ?)].
  - split; [done | by intros (? & ? & ?)].
Qed.

(** What [get_api_key] does, in each of its three cases. *)
Lemma get_api_key_run (w : world) (s : state) :
  get_api_key w s =
    if opt_truthy (config.GEMINI_API_KEY (cfg w)) then
      (Ok (default "" (config.GEMINI_API_KEY (cfg w))), s)
    else if opt_truthy (environ w !! "GEMINI_API_KEY") then
      (Ok (default "" (environ w !! "GEMINI_API_KEY")),
       after s [EnvironGet "GEMINI_API_KEY"])
    else
      (Exit 1,
       after s [EnvironGet "GEMINI_API_KEY";
                Log ERROR "Error: GEMINI_API_KEY not found." [];
                Log ERROR ("Please set the GEMINI_API_KEY in the script or as an "
                           ++ "environment variable.") []]).
Proof.
  unfold get_api_key, environ_get, log, emit, bind, ret, sys_exit, after.
  destruct (opt_truthy (config.GEMINI_API_KEY (cfg w))); [done|].
  destruct (opt_truthy (environ w !! "GEMINI_API_KEY")); simpl; [done|].
  by rewrite <- !app_assoc.
Qed.

(** What [get_branch_name] does, in each of its four cases. *)
Lemma get_branch_name_run (utf8_decode : string → option string)
    (strip : string → string) (w : world) (s : state) :
  let found := path_lookup w "git" in
  let cmdline := [default "" found; "rev-parse"; "--abbrev-ref"; "HEAD"] in
  get_branch_name utf8_decode strip w s =
    if opt_truthy found then
      match utf8_decode (stdout (child w cmdline)) with
      | None =>
          (Raise UnicodeDecodeError,
           after s [Which "git"; CheckOutput cmdline])
      | Some text =>
          if (returncode (child w cmdline) =? 0)%Z then
            (Ok (strip (universal_newlines text)),
             after s [Which "git"; CheckOutput cmdline])
          else (Ok "", after s [Which "git"; CheckOutput cmdline])
      end
    else
      (Exit 1, after s [Which "git"; Log ERROR "git executable not found." []]).
Proof.
  unfold get_branch_name, which, check_output, try_except, log, emit, bind,
    ret, raise, sys_exit, after.
  simpl. destruct (opt_truthy (path_lookup w "git")); simpl.
  - destruct (utf8_decode _) as [text|]; simpl.
    + destruct (returncode _ =? 0)%Z; simpl; by rewrite <- !app_assoc.
    + by rewrite <- !app_assoc.
  - by rewrite <- !app_assoc.
Qed.

(** The same for [get_git_diff]. *)
Lemma get_git_diff_run (utf8_decode : string → option string)
    (w : world) (s : state) :
  let found := path_lookup w "git" in
  let cmdline := [default "" found; "diff"; "--staged"] in
  get_git_diff utf8_decode w s =
    if opt_truthy found then
      match utf8_decode (stdout (child w cmdline)) with
      | None =>
          (Raise UnicodeDecodeError,
           after s [Which "git"; CheckOutput cmdline])
      | Some text =>
          if (returncode (child w cmdline) =? 0)%Z then
            (Ok (universal_newlines text),
             after s [Which "git"; CheckOutput cmdline])
          else (Ok "", after s [Which "git"; CheckOutput cmdline])
      end
    else
      (Exit 1, after s [Which "git"; Log ERROR "git executable not found." []]).
Proof.
  unfold get_git_diff, which, check_output, try_except, log, emit, bind,
    ret, raise, sys_exit, after.
  simpl. destruct (opt_truthy (path_lookup w "git")); simpl.
  - destruct (utf8_decode _) as [text|]; simpl.
    + destruct (returncode _ =? 0)%Z; simpl; by rewrite <- !app_assoc.
    + by rewrite <- !app_assoc.
  - by rewrite <- !app_assoc.
Qed.

(** C3 (as amended). [get_branch_name] has four outcomes.  When [git] is
    not on the PATH it logs an error and ends the process with
    [sys.exit(1)].  When [git] is found and the output of [rev-parse]
    is UTF-8, it returns the stripped text of the output if the command
    succeeded and the empty string if the command failed; in these two
    cases it does not exit.  When the output is not UTF-8 it raises
    [UnicodeDecodeError], whatever the exit status of the command.  It
    exits only in the first case and raises only in the last. *)
Theorem C3_branch_name_or_exit
    (utf8_decode : string → option string)
    (strip : string → string) (w : world) (s : state)
    (found := path_lookup w "git")
    (cmdline := [default "" found; "rev-parse"; "--abbrev-ref"; "HEAD"])
    (output := utf8_decode (stdout (child w cmdline))) :
  (opt_truthy found = false →
     get_branch_name utf8_decode strip w s
     = (Exit 1, after s [Which "git";
                         Log ERROR "git executable not found." []]))
  ∧ (∀ text, opt_truthy found = true → output = Some text →
     returncode (child w cmdline) = 0 →
     get_branch_name utf8_decode strip w s
     = (Ok (strip (universal_newlines text)),
        after s [Which "git"; CheckOutput cmdline]))
  ∧ (∀ text, opt_truthy found = true → output = Some text →
     returncode (child w cmdline) ≠ 0 →
     get_branch_name utf8_decode strip w s
     = (Ok "", after s [Which "git"; CheckOutput cmdline]))
  ∧ (opt_truthy found = true → output = None →
     get_branch_name utf8_decode strip w s
     = (Raise UnicodeDecodeError,
        after s [Which "git"; CheckOutput cmdline]))
  ∧ (∀ code s', get_branch_name utf8_decode strip w s = (Exit code, s') →
     opt_truthy found = false)
  ∧ (∀ e s', get_branch_name utf8_decode strip w s = (Raise e, s') →
     opt_truthy found = true ∧ output = None).
Proof.
  pose proof (get_branch_name_run utf8_decode strip w s) as Hrun.
  simpl in Hrun. fold found in Hrun. fold cmdline in Hrun.
  fold output in Hrun.
  split_and!.
  - intros Hfound. by rewrite Hrun, Hfound.
  - intros text Hfound Hout Hrc. by rewrite Hrun, Hfound, Hout, Hrc.
  - intros text Hfound Hout Hrc. rewrite Hrun, Hfound, Hout.
    by destruct (Z.eqb_spec (returncode (child w cmdline)) 0).
  - intros Hfound Hout. by rewrite Hrun, Hfound, Hout.
  - intros code s'. rewrite Hrun.
    destruct (opt_truthy found); [|done].
    destruct output; [|done].
    by destruct (returncode (child w cmdline) =? 0)%Z.
  - intros e s'. rewrite Hrun.
    destruct (opt_truthy found); [|done].
    destruct output; [|done].
    by destruct (returncode (child w cmdline) =? 0)%Z.
Qed.

(** How the subscripts of the source relate to the JSON path. *)
Lemma getitem_str_member (k : string) (v x : value) :
  getitem_str k v = Ok x ↔ member k v = Some x.
Proof.
  destruct v; simpl; try (split; discriminate).
  destruct (dict_get d k); split; congruence.
Qed.

Lemma getitem_str_raises (k : string) (v : value) :
  member k v = None → ∃ e, getitem_str k v = Raise e.
Proof.
  destruct v; simpl; eauto. intros ->. eauto.
Qed.

(** [v[0]] gives the first element of a list, a one-character string of
    a non-empty string, and raises otherwise. *)
Lemma getitem_0_cases (v : value) :
  (∃ x, first v = Some x ∧ getitem_0 v = Ok x)
  ∨ (first v = None ∧ ∃ c, getitem_0 v = Ok (VStr c))
  ∨ (first v = None ∧ ∃ e, getitem_0 v = Raise e).
Proof.
  destruct v as [| | | |[|c rest]|[|x l]|]; simpl; eauto 6.
Qed.

Lemma getitem_str_result (k : string) (v : value) :
  subscript_result (getitem_str k v).
Proof. destruct v; simpl; try done. by destruct (dict_get d k). Qed.

Lemma getitem_0_result (v : value) : subscript_result (getitem_0 v).
Proof. by destruct v as [| | | |[|c rest]|[|x l]|]. Qed.

Lemma and_then_result (r : result value) (f : value → result value) :
  subscript_result r → (∀ a, subscript_result (f a)) →
  subscript_result (and_then r f).
Proof. destruct r; simpl; auto. Qed.

(** Whatever [extract_text] raises passes the [except URLError] clause. *)
Lemma extract_text_result (v : value) : subscript_result (extract_text v).
Proof.
  unfold extract_text.
  repeat (apply and_then_result; [|intros ?]);
    auto using getitem_str_result, getitem_0_result.
Qed.

(** The subscript chain succeeds exactly on the values that have the
    path, and then gives the value at its end; on every other value it
    raises. *)
Lemma extract_text_path (v : value) :
  match text_path v with
  | Some text => extract_text v = Ok text
  | None => ∃ e, extract_text v = Raise e
  end.
Proof.
  unfold text_path, extract_text.
  destruct (member "candidates" v) as [candidates|] eqn:H1; simpl;
    [apply getitem_str_member in H1 as ->
    |apply getitem_str_raises in H1 as [e ->]; eauto]; simpl.
  destruct (getitem_0_cases candidates)
    as [(candidate & -> & ->)|[(-> & c & ->)|(-> & e & ->)]]; simpl; eauto.
  destruct (member "content" candidate) as [content|] eqn:H2; simpl;
    [apply getitem_str_member in H2 as ->
    |apply getitem_str_raises in H2 as [e ->]; eauto]; simpl.
  destruct (member "parts" content) as [parts|] eqn:H3; simpl;
    [apply getitem_str_member in H3 as ->
    |apply getitem_str_raises in H3 as [e ->]; eauto]; simpl.
  destruct (getitem_0_cases parts)
    as [(part & -> & ->)|[(-> & c & ->)|(-> & e & ->)]]; simpl; eauto.
  destruct (member "text" part) as [text|] eqn:H4; simpl;
    [by apply getitem_str_member in H4 as ->
    |apply getitem_str_raises in H4 as [e ->]; eauto].
Qed.

(** What [generate_commit_message] does, for each answer of the network. *)
Lemma generate_commit_message_run (json_loads : string → option value)
    (utf8_decode : string → option string)
    (w : world) (diff branch_name api_key : string)
    (user_message : option string) (s : state) :
  let req := request_of w diff branch_name api_key user_message in
  let refused status :=
    Log ERROR "Error: Gemini API request failed with status %s"
      [VInt status] in
  let down := Log ERROR "Error: Could not connect to Gemini API" [] in
  generate_commit_message json_loads utf8_decode w diff branch_name api_key
    user_message s
  = match network w req with
    | Unreachable => (Exit 1, after s [Urlopen req; down])
    | Failed e =>
        if is_URLError e then (Exit 1, after s [Urlopen req; down])
        else (Raise e, after s [Urlopen req])
    | Cut status e =>
        if (status =? 200)%Z then
          if is_URLError e then (Exit 1, after s [Urlopen req; down])
          else (Raise e, after s [Urlopen req])
        else
          if is_URLError e
          then (Exit 1, after s [Urlopen req; refused status; down])
          else (Raise e, after s [Urlopen req; refused status])
    | Response status body =>
        if (status =? 200)%Z then
          match json_loads body with
          | Some result => (extract_text result, after s [Urlopen req])
          | None => (Raise ValueError, after s [Urlopen req])
          end
        else
          match utf8_decode body with
          | Some text =>
              (Exit 1,
               after s [Urlopen req; refused status; Log ERROR text []])
          | None =>
              (Raise UnicodeDecodeError,
               after s [Urlopen req; refused status])
          end
    end.
Proof.
  unfold generate_commit_message, urlopen, decode, try_except, log, emit,
    bind, ret, raise, sys_exit, lift, after.
  simpl. destruct (network w _) as [status body| |e|status e]; simpl.
  - destruct (status =? 200)%Z; simpl.
    + destruct (json_loads body) as [result|]; simpl; [|done].
      pose proof (extract_text_result result) as Hres.
      destruct (extract_text result) as [text|code|e]; simpl in *;
        [done|done|by rewrite Hres].
    + destruct (utf8_decode body) as [text|]; simpl;
        by rewrite <- !app_assoc.
  - by rewrite <- !app_assoc.
  - destruct (is_URLError e); simpl; by rewrite <- ?app_assoc.
  - destruct (status =? 200)%Z; simpl;
      destruct (is_URLError e); simpl; by rewrite <- ?app_assoc.
Qed.

(** Its outcome is the one [answer] tells, and all it does is ask the
    API once and log. *)
Lemma generate_commit_message_outcome (json_loads : string → option value)
    (utf8_decode : string → option string)
    (w : world) (diff branch_name api_key : string)
    (user_message : option string) (s : state) :
  let req := request_of w diff branch_name api_key user_message in
  ∃ logs,
    generate_commit_message json_loads utf8_decode w diff branch_name
      api_key user_message s
    = (answer json_loads utf8_decode w req, after s (Urlopen req :: logs))
    ∧ writes logs = [] ∧ truncations logs = [] ∧ requests logs = [].
Proof.
  intros req. rewrite generate_commit_message_run. fold req. unfold answer.
  destruct (network w req) as [status body| |e|status e].
  - destruct (status =? 200)%Z.
    + exists []. by destruct (json_loads body).
    + destruct (utf8_decode body); (eexists; split; [reflexivity|done]).
  - eexists; split; [reflexivity|done].
  - destruct (is_URLError e); (eexists; split; [reflexivity|done]).
  - destruct (status =? 200)%Z, (is_URLError e);
      (eexists; split; [reflexivity|done]).
Qed.

(** [answer] gives a value exactly on a 200 reply whose body decodes
    and has the path. *)
Lemma answer_Ok (json_loads : string → option value)
    (utf8_decode : string → option string) (w : world) (req : request)
    (v : value) :
  answer json_loads utf8_decode w req = Ok v
  ↔ ∃ body result, network w req = Response 200 body
                   ∧ json_loads body = Some result
                   ∧ extract_text result = Ok v.
Proof.
  unfold answer. split.
  - destruct (network w req) as [status body| |e|status e]; try done.
    + destruct (Z.eqb_spec status 200) as [->|_].
      * destruct (json_loads body) as [result|] eqn:Hbody; [|done].
        intros Htext. by exists body, result.
      * by destruct (utf8_decode body).
    + by destruct (is_URLError e).
    + by destruct (is_URLError e).
  - intros (body & result & -> & Hbody & Htext). simpl. by rewrite Hbody.
Qed.

(** Whatever else [answer] gives ends the run with status 1. *)
Lemma answer_status (json_loads : string → option value)
    (utf8_decode : string → option string) (w : world) (req : request) :
  match answer json_loads utf8_decode w req with
  | Ok _ => True
  | Exit code => code = 1
  | Raise e => is_URLError e = false
  end.
Proof.
  unfold answer.
  destruct (network w req) as [status body| |e|status e]; try done.
  - destruct (status =? 200)%Z.
    + destruct (json_loads body) as [result|]; [|done].
      pose proof (extract_text_result result) as Hres.
      by destruct (extract_text result).
    + by destruct (utf8_decode body).
  - by destruct (is_URLError e) eqn:He.
  - by destruct (is_URLError e) eqn:He.
Qed.

(** * Programs that neither write nor ask the API *)

Lemma writes_app (a b : list event) :
  writes (a ++ b) = (writes a ++ writes b)%list.
Proof. apply omap_app. Qed.

Lemma truncations_app (a b : list event) :
  truncations (a ++ b) = (truncations a ++ truncations b)%list.
Proof. apply omap_app. Qed.

Lemma requests_app (a b : list event) :
  requests (a ++ b) = (requests a ++ requests b)%list.
Proof. apply omap_app. Qed.

Lemma elem_of_requests (req : request) (tr : list event) :
  Urlopen req ∈ tr ↔ req ∈ requests tr.
Proof.
  unfold requests. rewrite list_elem_of_omap. split.
  - intros Hin. by exists (Urlopen req).
  - intros (ev & Hin & Hev). destruct ev; by simplify_eq.
Qed.


Lemma quiet_ext_refl (s : state) : quiet_ext s s.
Proof. split; [done|]. exists []. by rewrite app_nil_r. Qed.

Lemma quiet_ext_trans (s1 s2 s3 : state) :
  quiet_ext s1 s2 → quiet_ext s2 s3 → quiet_ext s1 s3.
Proof.
  intros [Hf1 (evs1 & Ht1 & Hw1 & Hc1 & Hr1)]
         [Hf2 (evs2 & Ht2 & Hw2 & Hc2 & Hr2)].
  split; [congruence|]. exists (evs1 ++ evs2)%list.
  rewrite Ht2, Ht1, app_assoc, writes_app, truncations_app, requests_app,
    Hw1, Hw2, Hc1, Hc2, Hr1, Hr2.
  done.
Qed.

Lemma quiet_ext_after (s : state) (evs : list event) :
  writes evs = [] → truncations evs = [] → requests evs = [] →
  quiet_ext s (after s evs).
Proof. intros Hw Hc Hr. split; [done|]. by exists evs. Qed.

Lemma quiet_ret {A} (a : A) : quiet (ret a).
Proof. intros s. apply quiet_ext_refl. Qed.

Lemma quiet_raise {A} (e : exn) : quiet (@raise state A e).
Proof. intros s. apply quiet_ext_refl. Qed.

Lemma quiet_sys_exit {A} (code : Z) : quiet (@sys_exit state A code).
Proof. intros s. apply quiet_ext_refl. Qed.

Lemma quiet_bind {A B} (m : M state A) (k : A → M state B) :
  quiet m → (∀ a, quiet (k a)) → quiet (bind m k).
Proof.
  intros Hm Hk s. unfold bind. specialize (Hm s).
  destruct (m s) as [[a|code|e] s1]; simpl in *; [|done..].
  eapply quiet_ext_trans; [done|]. apply Hk.
Qed.

Lemma quiet_if {A} (b : bool) (m1 m2 : M state A) :
  quiet m1 → quiet m2 → quiet (if b then m1 else m2).
Proof. by destruct b. Qed.

Lemma quiet_log (lvl : level) (msg : string) (args : list value) :
  quiet (log lvl msg args).
Proof. intros s. by apply (quiet_ext_after s [Log lvl msg args]). Qed.

Lemma quiet_argv_item (w : world) (i : nat) : quiet (argv_item w i).
Proof.
  intros s. unfold argv_item. destruct (argv w !! i); apply quiet_ext_refl.
Qed.

Lemma quiet_read_text (w : world) (p : string) : quiet (read_text w p).
Proof.
  intros s. unfold read_text, emit, bind. simpl.
  destruct (files s !! p); [destruct (unreadable w p)|];
    by apply (quiet_ext_after s [ReadText p]).
Qed.

Lemma quiet_get_api_key (w : world) : quiet (get_api_key w).
Proof.
  intros s. rewrite get_api_key_run.
  repeat case_match; simpl;
    first [apply quiet_ext_refl | by apply quiet_ext_after].
Qed.

Lemma quiet_get_git_diff (utf8_decode : string → option string)
    (w : world) : quiet (get_git_diff utf8_decode w).
Proof.
  intros s. rewrite get_git_diff_run.
  repeat case_match; simpl; by apply quiet_ext_after.
Qed.

Lemma quiet_get_branch_name (utf8_decode : string → option string)
    (strip : string → string) (w : world) :
  quiet (get_branch_name utf8_decode strip w).
Proof.
  intros s. rewrite get_branch_name_run.
  repeat case_match; simpl; by apply quiet_ext_after.
Qed.

Create HintDb quiet.
#[local] Hint Resolve quiet_ret quiet_raise quiet_sys_exit quiet_bind quiet_if
  quiet_log quiet_argv_item quiet_read_text quiet_get_api_key
  quiet_get_git_diff quiet_get_branch_name : quiet.

(** One statement of a sequence: either it returns and the rest runs from
    a store that is still quiet, or the sequence ends there. *)
Lemma bind_step {A B} (m : M state A) (k : A → M state B) (s0 s : state) :
  quiet m → quiet_ext s0 s →
  (∃ a s1, m s = (Ok a, s1) ∧ quiet_ext s0 s1 ∧ bind m k s = k a s1)
  ∨ quiet_ext s0 (bind m k s).2.
Proof.
  intros Hm Hs. unfold bind. specialize (Hm s).
  destruct (m s) as [[a|code|e] s1]; simpl in *.
  - left. exists a, s1. eauto using quiet_ext_trans.
  - right. eauto using quiet_ext_trans.
  - right. eauto using quiet_ext_trans.
Qed.

(** A sequence whose first statement is known to return. *)
Lemma bind_Ok {S A B} (m : M S A) (k : A → M S B) (s s1 : S) (a : A) :
  m s = (Ok a, s1) → bind m k s = k a s1.
Proof. unfold bind. by intros ->. Qed.

Lemma bind_Exit {S A B} (m : M S A) (k : A → M S B) (s s1 : S)
    (code : Z) :
  m s = (Exit code, s1) → bind m k s = (Exit code, s1).
Proof. unfold bind. by intros ->. Qed.

Lemma bind_Raise {S A B} (m : M S A) (k : A → M S B) (s s1 : S)
    (e : exn) :
  m s = (Raise e, s1) → bind m k s = (Raise e, s1).
Proof. unfold bind. by intros ->. Qed.

Lemma bind_run {S A B} (m : M S A) (k : A → M S B) (s : S) :
  bind m k s
  = match (m s).1 with
    | Ok a => k a (m s).2
    | Exit code => (Exit code, (m s).2)
    | Raise e => (Raise e, (m s).2)
    end.
Proof. unfold bind. by destruct (m s) as [[a|code|e] s1]. Qed.

Lemma bind_assoc {S A B C} (m : M S A) (f : A → M S B) (g : B → M S C)
    (s : S) :
  bind (bind m f) g s = bind m (λ a, bind (f a) g) s.
Proof. unfold bind. by destruct (m s) as [[a|code|e] s1]. Qed.

(** Two sequences that agree statement by statement agree. *)
Lemma bind_ext {A B} (m m' : M state A) (k k' : A → M state B) (s : state) :
  (∀ s0, m s0 = m' s0) → (∀ a s0, k a s0 = k' a s0) →
  bind m k s = bind m' k' s.
Proof.
  intros Hm Hk. unfold bind. rewrite Hm.
  destruct (m' s) as [[a|code|e] s1]; [apply Hk|done..].
Qed.

Lemma argv_item_run (w : world) (i : nat) (s : state) (a : string) :
  argv w !! i = Some a → argv_item w i s = (Ok a, s).
Proof. unfold argv_item. by intros ->. Qed.

Lemma argv_item_Ok (w : world) (i : nat) (s s1 : state) (a : string) :
  argv_item w i s = (Ok a, s1) → argv w !! i = Some a.
Proof. unfold argv_item. destruct (argv w !! i); by intros [= <- _]. Qed.

(** Every run of [main] either ends before the API is asked, having
    written nothing, or reaches its last two statements with the first
    argument as the file to write. *)
Lemma main_prefix (json_loads : string → option value)
    (utf8_decode : string → option string)
    (strip : string → string) (w : world) (s : state) :
  quiet_ext s (main json_loads utf8_decode strip w s).2
  ∨ ∃ file diff branch_name api_key user_message s1,
      argv w !! 1%nat = Some file ∧ quiet_ext s s1
      ∧ main json_loads utf8_decode strip w s
        = generate_and_write json_loads utf8_decode w file diff branch_name
            api_key user_message s1.
Proof.
  unfold main.
  pose proof (quiet_ext_refl s) as Hq.
  lazymatch goal with
  | |- context [bind ?m ?k s] =>
      destruct (bind_step m k s s ltac:(auto with quiet) Hq)
        as [(file & s1 & Hfile & Hq1 & ->)|?]; [|by left]
  end.
  apply argv_item_Ok in Hfile. clear Hq.
  repeat lazymatch goal with
  | Hq : quiet_ext s ?s' |- context [bind ?m ?k ?s'] =>
      destruct (bind_step m k s s' ltac:(auto with quiet) Hq)
        as [(? & ? & _ & ? & ->)|?]; [clear Hq|by left]
  end.
  right. eexists _, _, _, _, _, _. split_and!; [done..|].
  reflexivity.
Qed.

(** The facts about a store that a quiet run from an empty trace left. *)
Lemma quiet_from_start (disk : gmap string string) (s1 : state) :
  quiet_ext {| files := disk; trace := [] |} s1 →
  files s1 = disk ∧ writes (trace s1) = [] ∧ truncations (trace s1) = []
  ∧ requests (trace s1) = [].
Proof. by intros [Hf (evs & -> & Hw & Hc & Hr)]. Qed.

(** The ways the last two statements of [main] can end. *)
Lemma generate_and_write_ending (json_loads : string → option value)
    (utf8_decode : string → option string)
    (w : world) (disk : gmap string string)
    (file diff branch_name api_key : string)
    (user_message : option string) (s : state) :
  argv w !! 1%nat = Some file →
  files s = disk → writes (trace s) = [] → truncations (trace s) = [] →
  requests (trace s) = [] →
  ending json_loads utf8_decode w disk
    (generate_and_write json_loads utf8_decode w file diff branch_name
       api_key user_message s).1
    (generate_and_write json_loads utf8_decode w file diff branch_name
       api_key user_message s).2.
Proof.
  intros Hfile Hf Hw Hc Hr. unfold generate_and_write, bind.
  destruct (generate_commit_message_outcome json_loads utf8_decode w diff
              branch_name api_key user_message s)
    as (logs & -> & Hlw & Hlc & Hlr).
  set (req := request_of w diff branch_name api_key user_message).
  set (asked := after s (Urlopen req :: logs)).
  assert (requests (trace asked) = [req]) as Hreq.
  { unfold asked, after. cbn [trace].
    rewrite requests_app, Hr. change (req :: requests logs = [req]).
    by rewrite Hlr. }
  assert (writes (trace asked) = []) as Hwr.
  { unfold asked, after. cbn [trace].
    rewrite writes_app, Hw. change (writes logs = []). done. }
  assert (truncations (trace asked) = []) as Htr.
  { unfold asked, after. cbn [trace].
    rewrite truncations_app, Hc. change (truncations logs = []). done. }
  destruct (answer json_loads utf8_decode w req) as [v|code|e] eqn:Hans.
  2: { by apply (end_no_value _ _ _ _ asked req (Exit code)). }
  2: { by apply (end_no_value _ _ _ _ asked req (Raise e)). }
  destruct (truthy v) eqn:Hv; [|by eapply end_no_message].
  destruct v as [| | | |text| |];
    try (cbn [fst snd write_text raise];
         by eapply end_not_a_string; eauto).
  apply str_truthy_nonempty in Hv. unfold write_text.
  destruct (unwritable w file) as [e|] eqn:Hopen.
  { cbn [fst snd raise]. by eapply end_unwritable. }
  destruct (encodable w text) eqn:Henc; unfold emit, bind; cbn [fst snd].
  - eapply end_written; eauto; cbn [trace files].
    + by rewrite requests_app, Hreq.
    + by rewrite writes_app, Hwr.
    + by rewrite truncations_app, Htr.
    + by rewrite <- Hf.
  - eapply end_truncated; eauto; cbn [trace files].
    + by rewrite requests_app, Hreq.
    + by rewrite writes_app, Hwr.
    + by rewrite truncations_app, Htr.
    + by rewrite <- Hf.
Qed.

(** A trace with one request: the one reply is the reply of that request. *)
Lemma api_replied_one (w : world) (tr : list event) (req : request)
    (status : Z) (body : string) :
  requests tr = [req] → api_replied w tr status body →
  network w req = Response status body.
Proof.
  intros Hreqs (req' & Hin & Hnet).
  apply elem_of_requests in Hin. rewrite Hreqs in Hin.
  by apply list_elem_of_singleton in Hin as ->.
Qed.

Lemma api_replied_none (w : world) (tr : list event) (status : Z)
    (body : string) :
  requests tr = [] → ¬ api_replied w tr status body.
Proof.
  intros Hreqs (req' & Hin & Hnet).
  apply elem_of_requests in Hin. rewrite Hreqs in Hin. by apply elem_of_nil in Hin.
Qed.

(** Every run of the hook from the start of a process ends in one of the
    seven ways. *)
Lemma main_ending (json_loads : string → option value)
    (utf8_decode : string → option string)
    (strip : string → string) (w : world) (disk : gmap string string) :
  ending json_loads utf8_decode w disk
    (main json_loads utf8_decode strip w (start disk)).1
    (main json_loads utf8_decode strip w (start disk)).2.
Proof.
  unfold start.
  destruct (main_prefix json_loads utf8_decode strip w
              {| files := disk; trace := [] |})
    as [Hq|(file & diff & branch_name & api_key & user_message & s1
            & Hfile & Hq & ->)];
    apply quiet_from_start in Hq as (Hf & Hw & Hc & Hr).
  - by apply end_before_request.
  - by apply generate_and_write_ending.
Qed.

(** With one request in the trace, what the API client returned is what
    [answer] gives for that request. *)
Lemma api_returned_one (json_loads : string → option value)
    (utf8_decode : string → option string) (w : world)
    (tr : list event) (req : request) (v : value) :
  requests tr = [req] → api_returned json_loads w tr v →
  answer json_loads utf8_decode w req = Ok v.
Proof.
  intros Hreqs (body & result & Hrep & Hbody & Htext).
  apply answer_Ok. exists body, result. eauto using api_replied_one.
Qed.

Lemma api_returned_none (json_loads : string → option value) (w : world)
    (tr : list event) (v : value) :
  requests tr = [] → ¬ api_returned json_loads w tr v.
Proof.
  intros Hreqs (body & result & Hrep & _). by eapply api_replied_none.
Qed.

Lemma api_returned_intro (json_loads : string → option value) (w : world)
    (tr : list event) (req : request) (body : string) (result v : value) :
  requests tr = [req] → network w req = Response 200 body →
  json_loads body = Some result → extract_text result = Ok v →
  api_returned json_loads w tr v.
Proof.
  intros Hreqs Hnet Hbody Htext. exists body, result. split_and!; [|done..].
  exists req. split; [|done]. apply elem_of_requests. rewrite Hreqs. by left.
Qed.


(** Unpacks [api_returned] and [api_replied] with the facts of the
    ending at hand. *)
Ltac returned_here :=
  repeat match goal with
  | Hreqs : requests ?tr = [], H : api_returned _ _ ?tr _ |- _ =>
      by destruct (api_returned_none _ _ _ _ Hreqs H)
  | Hreqs : requests ?tr = [_], H : api_returned ?j ?w ?tr _,
    Hans : answer ?j ?u ?w _ = _ |- _ =>
      apply (api_returned_one j u w _ _ _ Hreqs) in H
  | Hreqs : requests ?tr = [], H : api_replied _ ?tr _ _ |- _ =>
      by destruct (api_replied_none _ _ _ _ Hreqs H)
  | Hreqs : requests ?tr = [_], H : api_replied _ ?tr _ _ |- _ =>
      apply (api_replied_one _ _ _ _ _ Hreqs) in H
  end;
  repeat match goal with
  | H1 : ?x = _, H2 : ?x = _ |- _ => rewrite H1 in H2; simplify_eq
  end.

(** Names the facts of each way a run can end. *)
Ltac by_ending Hend :=
  destruct Hend as
    [ r st Hr Hw Hc Hf
    | st req r Hr Hw Hc Hf Hans Hnone
    | st req v Hr Hw Hc Hf Hans Hv
    | st req v Hr Hw Hc Hf Hans Hv Hstr
    | st req file text e Hr Hw Hc Hf Hans Hne Hfile Hopen
    | st req file text Hr Hw Hc Hf Hans Hne Hfile Hopen Henc
    | st req file text Hr Hw Hc Hf Hans Hne Hfile Hopen Henc ].

(** The conditional that computes [commit_source]. *)
Lemma commit_source_run (w : world) (s : state) :
  (if (2 <? length (argv w))%nat then argv_item w 2 else ret "") s
  = (Ok (commit_source w), s).
Proof.
  unfold commit_source, argv_item.
  destruct (Nat.ltb_spec 2 (length (argv w))) as [Hlt|Hge].
  - apply lookup_lt_is_Some in Hlt as [a ->]. done.
  - apply lookup_ge_None in Hge as ->. done.
Qed.


Lemma unit_of_status (r : result value) :
  (∀ v, r ≠ Ok v) →
  match r with
  | Ok _ => True
  | Exit code => code = 1
  | Raise e => is_URLError e = false
  end →
  exit_status (unit_of r) = 1.
Proof. destruct r as [v|code|e]; simpl; [by intros H; destruct (H v)|done..]. Qed.

Section process.

Variable json_loads : string → option value.
Variable utf8_decode : string → option string.
Variable strip : string → string.



(** C9. When the API answers with status 200 and a body that is not
    JSON, or is JSON without [candidates[0].content.parts[0].text],
    [generate_commit_message] raises an exception, which its
    [except URLError] clause does not catch: it returns no value.  A
    run of the hook in which this happens ends with that exception, so
    with exit status 1, and writes no file. *)
Theorem C9_malformed_reply_raises
    (w : world) (disk : gmap string string) (body : string)
    (st := (run json_loads utf8_decode strip w disk).2) :
  malformed json_loads body →
  (∀ diff branch_name api_key user_message s,
     network w (request_of w diff branch_name api_key user_message)
     = Response 200 body →
     ∃ e, generate_commit_message json_loads utf8_decode w diff branch_name
            api_key user_message s
          = (Raise e,
             after s [Urlopen (request_of w diff branch_name api_key
                                 user_message)]))
  ∧ (api_replied w (trace st) 200 body →
     (∃ e, (main json_loads utf8_decode strip w (start disk)).1 = Raise e)
     ∧ (run json_loads utf8_decode strip w disk).1 = 1
     ∧ files st = disk
     ∧ writes (trace st) = []).
Proof.
  intros Hbad. unfold malformed in Hbad.
  assert (∀ req, network w req = Response 200 body →
            ∃ e, answer json_loads utf8_decode w req = Raise e) as Hraise.
  { intros req Hnet. unfold answer. rewrite Hnet. simpl.
    destruct (json_loads body) as [result|]; [|eauto].
    pose proof (extract_text_path result) as Hpath. by rewrite Hbad in Hpath. }
  split.
  - intros diff branch_name api_key user_message s Hnet.
    rewrite generate_commit_message_run, Hnet. simpl.
    destruct (json_loads body) as [result|]; [|eauto].
    pose proof (extract_text_path result) as Hpath. rewrite Hbad in Hpath.
    destruct Hpath as [e ->]. eauto.
  - subst st. unfold run. cbn [fst snd]. fold (start disk).
    pose proof (main_ending json_loads utf8_decode strip w disk) as Hend.
    destruct (main json_loads utf8_decode strip w (start disk)) as [r st].
    cbn [fst snd] in *. intros Hrep.
    by_ending Hend; returned_here;
      try match goal with
      | Hnet : network w ?req = Response 200 body |- _ =>
          destruct (Hraise req Hnet) as [e' He']
      end;
      try congruence.
    rewrite He' in Hans. subst r. simpl. split_and!; eauto.
Qed.

(** C6. When the second argument is [merge] the run logs one line and
    exits with status 0.  The log line is the only event of the run: no
    environment variable is read and [get_api_key] is not reached, no
    command is looked up or run, the API client is not called, and no
    file is read or written; the files are as they were. *)
Theorem C6_merge_is_skipped (w : world) (disk : gmap string string) :
  argv w !! 2%nat = Some "merge" →
  run json_loads utf8_decode strip w disk
  = (0, {| files := disk;
           trace := [Log INFO "Merge commit detected. Skipping." []] |}).
Proof.
  intros Hmerge.
  assert (is_Some (argv w !! 1%nat)) as [file Hfile].
  { apply lookup_lt_is_Some. apply lookup_lt_Some in Hmerge. lia. }
  unfold run, main.
  erewrite bind_Ok by by apply argv_item_run.
  erewrite bind_Ok by apply commit_source_run.
  unfold commit_source. rewrite Hmerge.
  change (default "" (Some "merge")) with "merge".
  rewrite String.eqb_refl.
  erewrite bind_Exit by reflexivity. done.
Qed.

(** The hint is read when the source is [message] and the file is
    there and opens. *)
Lemma read_hint_run (w : world) (disk : gmap string string) (file : string)
    (s : state) :
  files s = disk →
  (commit_source w = "message" → readable w disk file) →
  ∃ s1,
    (if (commit_source w =? "message")%string
     then bind (read_text w file) (λ text, ret (Some (strip text)))
     else ret None) s
    = (Ok (if (commit_source w =? "message")%string
           then strip <$> disk !! file else None), s1)
    ∧ quiet_ext s s1.
Proof.
  intros Hf Hread.
  destruct (String.eqb_spec (commit_source w) "message") as [Hmsg|_].
  - destruct (Hread Hmsg) as [[text Htext] Hopen].
    eexists. split; [|apply (quiet_read_text w file)].
    unfold read_text, emit, bind, ret. simpl.
    by rewrite Hf, Htext, Hopen.
  - exists s. split; [done|apply quiet_ext_refl].
Qed.

(** C1 (as amended). Take a run whose commit source is not [merge] and
    that meets no error before the diff is fetched: the first argument
    is there, the file is readable when the source is [message], and a
    key is configured or in the environment.  If [get_git_diff] then
    returns the empty string, the files, the commit-message file among
    them, are as they were at the end of the run.  The branch name is
    looked up before the diff is tested: the run exits with status 0
    when the output of that command is UTF-8, and ends with
    [UnicodeDecodeError], so with status 1, when it is not. *)
Theorem C1_empty_diff_exits_0
    (w : world) (disk : gmap string string) (file : string) :
  argv w !! 1%nat = Some file →
  commit_source w ≠ "merge" →
  (commit_source w = "message" → readable w disk file) →
  keyless w = false →
  (∀ s, (get_git_diff utf8_decode w s).1 = Ok "") →
  files (run json_loads utf8_decode strip w disk).2 = disk
  ∧ (is_Some (text_of utf8_decode w (branch_command w)) →
     (run json_loads utf8_decode strip w disk).1 = 0)
  ∧ (text_of utf8_decode w (branch_command w) = None →
     (main json_loads utf8_decode strip w (start disk)).1
     = Raise UnicodeDecodeError
     ∧ (run json_loads utf8_decode strip w disk).1 = 1).
Proof.
  intros Hfile Hsrc Hread Hkey Hdiff.
  unfold run, main, start.
  erewrite !bind_Ok by by apply argv_item_run.
  erewrite !bind_Ok by apply commit_source_run.
  destruct (String.eqb_spec (commit_source w) "merge") as [|_]; [done|].
  erewrite !bind_Ok by reflexivity.
  destruct (read_hint_run w disk file {| files := disk; trace := [] |}
              eq_refl Hread) as (s1 & Hhint & [Hs1 _]).
  erewrite !bind_Ok by exact Hhint.
  assert (∃ api_key s2, get_api_key w s1 = (Ok api_key, s2)
                        ∧ files s2 = disk)
    as (api_key & s2 & Hkey' & Hs2).
  { rewrite get_api_key_run.
    unfold keyless in Hkey. apply andb_false_iff in Hkey.
    rewrite !negb_false_iff in Hkey.
    destruct (opt_truthy (config.GEMINI_API_KEY (cfg w))); [eauto|].
    destruct Hkey as [?| ->]; [done|]. eauto. }
  erewrite !bind_Ok by exact Hkey'.
  assert (∃ s3, get_git_diff utf8_decode w s2 = (Ok "", s3) ∧ files s3 = disk
                ∧ opt_truthy (path_lookup w "git") = true)
    as (s3 & Hdiff' & Hs3 & Hgit).
  { specialize (Hdiff s2). rewrite get_git_diff_run in Hdiff |- *.
    destruct (opt_truthy (path_lookup w "git")); [|done].
    destruct (utf8_decode _) as [text|]; [|done].
    destruct (returncode _ =? 0)%Z; simpl in Hdiff; simplify_eq;
      (eexists; split; [try rewrite Hdiff; reflexivity|done]). }
  erewrite !bind_Ok by exact Hdiff'.
  pose proof (get_branch_name_run utf8_decode strip w s3) as Hbranch.
  simpl in Hbranch. rewrite Hgit in Hbranch.
  unfold text_of, branch_command, git_of.
  destruct (utf8_decode _) as [text|]; simpl.
  - assert (∃ branch_name s4, get_branch_name utf8_decode strip w s3
                              = (Ok branch_name, s4) ∧ files s4 = disk)
      as (branch_name & s4 & Hbranch' & Hs4).
    { rewrite Hbranch. destruct (returncode _ =? 0)%Z; eauto. }
    erewrite !bind_Ok by exact Hbranch'.
    erewrite !bind_Exit by reflexivity.
    split_and!; [done|done|]. intros [=].
  - erewrite !bind_Raise by exact Hbranch.
    split_and!; [done| |done]. by intros [? [=]].
Qed.

(** C4 (as amended). When the configuration key is unset or empty and
    the [GEMINI_API_KEY] environment variable is unset or empty,
    [get_api_key] logs the problem and ends the process with
    [sys.exit(1)]; a run of the hook then issues no network request, and
    its exit status is non-zero unless the commit source is [merge]
    (then the run ends earlier, with status 0).  In every other case
    [get_api_key] returns a non-empty key and does not exit. *)
Theorem C4_missing_key_is_fatal (w : world) :
  (keyless w = true →
     (∀ s, get_api_key w s
           = (Exit 1,
              after s [EnvironGet "GEMINI_API_KEY";
                       Log ERROR "Error: GEMINI_API_KEY not found." [];
                       Log ERROR ("Please set the GEMINI_API_KEY in the script or as an "
                                  ++ "environment variable.") []]))
     ∧ (∀ disk, requests (trace (run json_loads utf8_decode strip w disk).2)
                = []
                ∧ (commit_source w ≠ "merge" →
                   (run json_loads utf8_decode strip w disk).1 ≠ 0)))
  ∧ (keyless w = false →
     ∀ s, ∃ k s', k ≠ "" ∧ get_api_key w s = (Ok k, s')).
Proof.
  unfold keyless. split.
  - intros Hkey. apply andb_true_iff in Hkey as [Hcfg Henv].
    apply negb_true_iff in Hcfg, Henv.
    assert (∀ s, get_api_key w s
                 = (Exit 1,
                    after s [EnvironGet "GEMINI_API_KEY";
                             Log ERROR "Error: GEMINI_API_KEY not found." [];
                             Log ERROR ("Please set the GEMINI_API_KEY in the script or as an "
                                        ++ "environment variable.") []]))
      as Hexit.
    { intros s. by rewrite get_api_key_run, Hcfg, Henv. }
    split; [done|]. intros disk. unfold run, main.
    destruct (argv w !! 1%nat) as [file|] eqn:Hfile.
    2: { erewrite bind_Raise by (unfold argv_item; by rewrite Hfile).
         done. }
    erewrite bind_Ok by by apply argv_item_run.
    erewrite bind_Ok by apply commit_source_run.
    destruct (String.eqb_spec (commit_source w) "merge") as [Hmerge|_].
    { erewrite bind_Exit by reflexivity. done. }
    erewrite bind_Ok by reflexivity.
    destruct (String.eqb_spec (commit_source w) "message") as [Hmsg|_].
    + destruct (disk !! file) as [text|] eqn:Htext;
        [destruct (unreadable w file) as [e|] eqn:Hopen|].
      * erewrite bind_Raise
          by (unfold read_text, emit, bind; simpl; by rewrite Htext, Hopen).
        done.
      * erewrite bind_Ok
          by (unfold read_text, emit, bind; simpl; by rewrite Htext, Hopen).
        erewrite bind_Exit by apply Hexit. done.
      * erewrite bind_Raise
          by (unfold read_text, emit, bind; simpl; by rewrite Htext).
        done.
    + erewrite bind_Ok by reflexivity.
      erewrite bind_Exit by apply Hexit. done.
  - intros Hkey s. apply andb_false_iff in Hkey.
    rewrite !negb_false_iff in Hkey. rewrite get_api_key_run.
    destruct (opt_truthy (config.GEMINI_API_KEY (cfg w))) eqn:Hcfg.
    + apply opt_truthy_Some in Hcfg as (k & -> & Hk). eauto.
    + destruct Hkey as [?|Henv]; [done|]. rewrite Henv.
      apply opt_truthy_Some in Henv as (k & -> & Hk). eauto.
Qed.

(** Worlds that differ only in how [get_api_key] behaves the same give
    the same run. *)
Lemma main_same_key (w w' : world) :
  argv w' = argv w → config.GEMINI_MODEL (cfg w') = config.GEMINI_MODEL (cfg w) →
  path_lookup w' = path_lookup w → child w' = child w →
  network w' = network w → unreadable w' = unreadable w →
  unwritable w' = unwritable w → encodable w' = encodable w →
  (∀ s, get_api_key w' s = get_api_key w s) →
  ∀ s, main json_loads utf8_decode strip w' s
       = main json_loads utf8_decode strip w s.
Proof.
  intros Hargv Hmodel Hpath Hchild Hnet Hread Hopen Henc Hkey s.
  unfold main, get_git_diff, get_branch_name, generate_commit_message,
    request_of, argv_item, which, check_output, urlopen, read_text,
    write_text.
  rewrite Hargv, Hmodel, Hpath, Hchild, Hnet, Hread, Hopen, Henc.
  repeat (apply bind_ext; [intros; try reflexivity; apply Hkey|intros]).
  reflexivity.
Qed.

(** C10. An empty-string API key is treated as an absent one.  With an
    empty [config.GEMINI_API_KEY], [get_api_key] goes on to the
    environment: it reads [GEMINI_API_KEY] and returns its value when
    that is not empty, and ends in [sys.exit(1)] when the variable is
    unset or empty; it, and with it the whole run, behaves as with
    [None] in the configuration.  An empty [GEMINI_API_KEY] variable,
    when the configuration gives no key, counts as missing: the
    variable is read, the error is logged and the process ends with
    [sys.exit(1)], as when the variable is not set.  [get_api_key]
    never returns the empty string. *)
Theorem C10_empty_key_is_absent (w : world) (s : state)
    (missing :=
       [EnvironGet "GEMINI_API_KEY";
        Log ERROR "Error: GEMINI_API_KEY not found." [];
        Log ERROR ("Please set the GEMINI_API_KEY in the script or as an "
                   ++ "environment variable.") []]) :
  (config.GEMINI_API_KEY (cfg w) = Some "" →
     (∀ k, environ w !! "GEMINI_API_KEY" = Some k → k ≠ "" →
        get_api_key w s = (Ok k, after s [EnvironGet "GEMINI_API_KEY"]))
     ∧ (opt_truthy (environ w !! "GEMINI_API_KEY") = false →
        get_api_key w s = (Exit 1, after s missing))
     ∧ get_api_key w s = get_api_key (with_key None w) s
     ∧ ∀ disk, run json_loads utf8_decode strip w disk
               = run json_loads utf8_decode strip (with_key None w) disk)
  ∧ (opt_truthy (config.GEMINI_API_KEY (cfg w)) = false →
     environ w !! "GEMINI_API_KEY" = Some "" →
     get_api_key w s = (Exit 1, after s missing)
     ∧ get_api_key w s
       = get_api_key (with_environ (delete "GEMINI_API_KEY" (environ w)) w) s
     ∧ ∀ disk, run json_loads utf8_decode strip w disk
               = run json_loads utf8_decode strip
                   (with_environ (delete "GEMINI_API_KEY" (environ w)) w) disk)
  ∧ (∀ k s', get_api_key w s = (Ok k, s') → k ≠ "").
Proof.
  subst missing. split_and!.
  - intros Hcfg.
    assert (∀ s0, get_api_key (with_key None w) s0 = get_api_key w s0) as Hsame.
    { intros s0. rewrite !get_api_key_run. simpl. by rewrite Hcfg. }
    split_and!; [| |done|].
    + intros k Henv Hk. rewrite get_api_key_run, Hcfg, Henv. simpl.
      apply str_truthy_nonempty in Hk. by rewrite Hk.
    + intros Henv. by rewrite get_api_key_run, Hcfg, Henv.
    + intros disk. unfold run.
      by rewrite (main_same_key w (with_key None w)).
  - intros Hcfg Henv.
    assert (∀ s0, get_api_key
                    (with_environ (delete "GEMINI_API_KEY" (environ w)) w) s0
                  = get_api_key w s0) as Hsame.
    { intros s0. rewrite !get_api_key_run. simpl.
      by rewrite Hcfg, Henv, lookup_delete_eq. }
    split_and!; [|done|].
    + by rewrite get_api_key_run, Hcfg, Henv.
    + intros disk. unfold run.
      by rewrite (main_same_key w
                    (with_environ (delete "GEMINI_API_KEY" (environ w)) w)).
  - intros k s'. rewrite get_api_key_run.
    destruct (opt_truthy (config.GEMINI_API_KEY (cfg w))) eqn:Hcfg.
    + apply opt_truthy_Some in Hcfg as (k0 & -> & ?). by intros [= <- _].
    + destruct (opt_truthy (environ w !! "GEMINI_API_KEY")) eqn:Henv; [|done].
      apply opt_truthy_Some in Henv as (k0 & -> & ?). by intros [= <- _].
Qed.

End process.
(** * Properties of the installer *)

Section installer_properties.
Import install install_spec.
Local Open Scope Z_scope.

(** The bits of the mode that [chmod] is asked to store, from the bits
    of the mode that [stat] found. *)
Lemma chmod_mode_bits (m i : Z) :
  0 ≤ i →
  Z.testbit (Z.land (Z.lor (Z.lor S_IFREG m) S_IEXEC) o7777) i
  = (i <? 12) && ((i =? 6) || Z.testbit m i).
Proof.
  intros Hi. unfold S_IFREG, S_IEXEC, o7777.
  change 32768 with (2 ^ 15). change 64 with (2 ^ 6).
  change 4095 with (Z.ones 12).
  rewrite Z.land_spec, !Z.lor_spec, !Z.pow2_bits_eqb by lia.
  rewrite Z.testbit_ones_nonneg by lia.
  destruct (Z.ltb_spec i 12) as [Hlt|Hge]; [|by rewrite andb_false_r].
  rewrite andb_true_r, andb_true_l.
  replace (15 =? i) with false by (symmetry; apply Z.eqb_neq; lia).
  rewrite (Z.eqb_sym 6 i). by rewrite orb_false_l, orb_comm.
Qed.

(** The bits that stand: the nine permission bits, and the others
    where the system keeps them. *)
Lemma standing_bits (mode kept i : Z) :
  0 ≤ i →
  Z.testbit (standing mode kept) i
  = Z.testbit mode i && ((i <? 9) || Z.testbit kept i).
Proof.
  intros Hi. unfold standing, o777. change 511 with (Z.ones 9).
  by rewrite Z.land_spec, Z.lor_spec, Z.testbit_ones_nonneg by lia.
Qed.

Lemma bits_below (m i n : Z) :
  0 ≤ m < 2 ^ n → 0 ≤ n ≤ i → Z.testbit m i = false.
Proof.
  intros Hm Hi.
  rewrite <- (Z.mod_small m (2 ^ n)) by done.
  apply Z.mod_pow2_bits_high. lia.
Qed.

(** A mode without set-id and sticky bits stands as it is. *)
Lemma standing_low (mode kept : Z) :
  0 ≤ mode < 512 → standing mode kept = mode.
Proof.
  intros Hm. apply Z.bits_inj'. intros i Hi.
  rewrite standing_bits by done.
  destruct (Z.ltb_spec i 9) as [Hlt|Hge]; [by rewrite andb_true_r|].
  by rewrite (bits_below mode i 9) by (done || lia).
Qed.

(** The bits of the mode that the two statements store. *)
Lemma stored_bits (m kept i : Z) :
  0 ≤ i →
  Z.testbit (standing (Z.land (Z.lor (Z.lor S_IFREG m) S_IEXEC) o7777) kept) i
  = (i <? 12) && ((i =? 6) || Z.testbit m i)
    && ((i <? 9) || Z.testbit kept i).
Proof. intros Hi. by rewrite standing_bits, chmod_mode_bits. Qed.

Lemma lor_exec_bits (m i : Z) :
  0 ≤ i → Z.testbit (Z.lor m S_IEXEC) i = (i =? 6) || Z.testbit m i.
Proof.
  intros Hi. unfold S_IEXEC. change 64 with (2 ^ 6).
  rewrite Z.lor_spec, Z.pow2_bits_eqb by lia.
  by rewrite (Z.eqb_sym 6 i), orb_comm.
Qed.

(** What the two statements store, for every mode [m] found and
    whatever the system keeps: bit 6 is set, the other eight permission
    bits are those of [m], no other bit is set that [m] has not, and a
    mode without set-id and sticky bits becomes [m | S_IEXEC]. *)
Lemma stored_mode (m kept : Z) :
  let m1 := standing (Z.land (Z.lor (Z.lor S_IFREG m) S_IEXEC) o7777) kept in
  Z.testbit m1 6 = true
  ∧ (∀ i, 0 ≤ i < 9 → i ≠ 6 → Z.testbit m1 i = Z.testbit m i)
  ∧ (∀ i, 9 ≤ i → Z.testbit m1 i = true →
          Z.testbit m i = true ∧ i < 12 ∧ Z.testbit kept i = true)
  ∧ (0 ≤ m < 4096 → m1 = standing (Z.lor m S_IEXEC) kept)
  ∧ (0 ≤ m < 512 → m1 = Z.lor m S_IEXEC).
Proof.
  intros m1. subst m1. split_and!.
  - by rewrite stored_bits.
  - intros i Hi Hne. rewrite stored_bits by lia.
    replace (i <? 12) with true by (symmetry; apply Z.ltb_lt; lia).
    replace (i <? 9) with true by (symmetry; apply Z.ltb_lt; lia).
    replace (i =? 6) with false by (symmetry; apply Z.eqb_neq; lia).
    by rewrite andb_true_r.
  - intros i Hi. rewrite stored_bits by lia.
    replace (i <? 9) with false by (symmetry; apply Z.ltb_ge; lia).
    replace (i =? 6) with false by (symmetry; apply Z.eqb_neq; lia).
    destruct (Z.ltb_spec i 12), (Z.testbit m i), (Z.testbit kept i);
      simpl; try done.
  - intros Hm. apply Z.bits_inj'. intros i Hi.
    rewrite stored_bits, standing_bits, lor_exec_bits by done.
    destruct (Z.ltb_spec i 12) as [Hlt|Hge]; [done|].
    replace (i =? 6) with false by (symmetry; apply Z.eqb_neq; lia).
    by rewrite (bits_below m i 12) by (done || lia).
  - intros Hm. apply Z.bits_inj'. intros i Hi.
    rewrite stored_bits, lor_exec_bits by done.
    destruct (Z.ltb_spec i 9) as [Hlt|Hge].
    + replace (i <? 12) with true by (symmetry; apply Z.ltb_lt; lia).
      by rewrite andb_true_r.
    + replace (i =? 6) with false by (symmetry; apply Z.eqb_neq; lia).
      rewrite (bits_below m i 9) by (done || lia).
      by rewrite andb_false_r.
Qed.

(** Path resolution, one name at a time. *)
Lemma walk_nil (links : nat) (tree : gmap (list string) node) (seen : path) :
  walk links tree seen [] = Some seen.
Proof. by destruct links. Qed.

Lemma walk_cons (links : nat) (tree : gmap (list string) node)
    (seen rest : path) (name : string) :
  walk links tree seen (name :: rest)
  = match tree !! (seen ++ [name])%list with
    | Some (Link target) =>
        match links with
        | O => None
        | S links' => walk links' tree [] (target ++ rest)%list
        end
    | _ => walk links tree (seen ++ [name])%list rest
    end.
Proof. by destruct links. Qed.

(** Where no name on the way is a link, a path leads to itself. *)
Lemma walk_plain (links : nat) (tree : gmap (list string) node)
    (seen rest : path) :
  (∀ k target, (0 < k ≤ length rest)%nat →
     tree !! (seen ++ take k rest)%list ≠ Some (Link target)) →
  walk links tree seen rest = Some (seen ++ rest)%list.
Proof.
  revert seen. induction rest as [|name rest IH]; intros seen Hplain.
  - by rewrite walk_nil, app_nil_r.
  - rewrite walk_cons.
    assert (∀ target, tree !! (seen ++ [name])%list ≠ Some (Link target))
      as Hname.
    { intros target. apply (Hplain 1%nat). simpl. lia. }
    assert (walk links tree (seen ++ [name]) rest
            = Some (seen ++ name :: rest)%list) as Hrest.
    { rewrite IH; [by rewrite <- app_assoc|].
      intros k target Hlen. rewrite <- app_assoc.
      apply (Hplain (S k)). simpl. lia. }
    destruct (tree !! (seen ++ [name])%list) as [[mode|text mode|target]|];
      [done..| |done].
    by destruct (Hname target).
Qed.

Lemma no_links_plain (tree : gmap (list string) node) :
  no_links tree → plain tree.
Proof. intros Hno p target _. apply Hno. Qed.

Lemma plain_insert (tree : gmap (list string) node) (q : path) (n : node) :
  plain tree → (∀ target, n ≠ Link target) → plain (<[q := n]> tree).
Proof.
  intros Hplain Hn p target Hp.
  destruct (decide (q = p)) as [->|Hne].
  - rewrite lookup_insert_eq. intros [= ->]. by destruct (Hn target).
  - rewrite lookup_insert_ne by done. by apply Hplain.
Qed.

Lemma no_links_insert (tree : gmap (list string) node) (q : path) (n : node) :
  no_links tree → (∀ target, n ≠ Link target) → no_links (<[q := n]> tree).
Proof.
  intros Hno Hn p target.
  destruct (decide (q = p)) as [->|Hne].
  - rewrite lookup_insert_eq. intros [= ->]. by destruct (Hn target).
  - rewrite lookup_insert_ne by done. apply Hno.
Qed.

(** In a plain tree the three paths of the installer lead to
    themselves. *)
Lemma walk_git (tree : gmap (list string) node) :
  plain tree → walk SYMLOOP_MAX tree [] [".git"] = Some [".git"].
Proof.
  intros Hplain. apply walk_plain. intros k target Hlen.
  simpl in Hlen. assert (k = 1%nat) as Hk1 by lia. rewrite Hk1.
  apply Hplain. by repeat econstructor.
Qed.

Lemma walk_hooks (tree : gmap (list string) node) :
  plain tree → walk SYMLOOP_MAX tree [] HOOK_DIR = Some HOOK_DIR.
Proof.
  intros Hplain. apply walk_plain. intros k target Hlen.
  simpl in Hlen. assert (k = 1 ∨ k = 2)%nat as [Hk1|Hk1] by lia;
    rewrite Hk1; apply Hplain; by repeat econstructor.
Qed.

Lemma walk_hook (tree : gmap (list string) node) :
  plain tree → walk SYMLOOP_MAX tree [] hook_path = Some hook_path.
Proof.
  intros Hplain. apply walk_plain. intros k target Hlen.
  simpl in Hlen. assert (k = 1 ∨ k = 2 ∨ k = 3)%nat as [Hk1|[Hk1|Hk1]] by lia;
    rewrite Hk1; apply Hplain; by repeat econstructor.
Qed.

(** In a plain tree where [.git/hooks] is a directory, the hook path
    leads to itself. *)
Lemma locate_hook (s : state) (hm : Z) :
  plain (fs s) → fs s !! HOOK_DIR = Some (Dir hm) →
  locate s hook_path = Ok hook_path.
Proof.
  intros Hplain Hhooks. unfold locate. rewrite walk_hook by done.
  change (removelast hook_path) with HOOK_DIR.
  change (node_of s HOOK_DIR) with (fs s !! HOOK_DIR). by rewrite Hhooks.
Qed.

(** The two statements that make the hook executable, there. *)
Lemma make_executable_run (w : world) (s : state) (hm : Z) (text : string)
    (m : Z) :
  plain (fs s) → fs s !! HOOK_DIR = Some (Dir hm) →
  fs s !! hook_path = Some (File text m) →
  let asked := Z.lor (Z.lor S_IFREG m) S_IEXEC in
  make_executable w s
  = match refuses w (fs s) (Chmod hook_path asked) with
    | Some e => (Raise e, s)
    | None =>
        (Ok (),
         set_node hook_path
           (File text (standing (Z.land asked o7777)
                         (keeps w (fs s) (Chmod hook_path asked)))) s)
    end.
Proof.
  intros Hplain Hhooks Hhook asked.
  unfold make_executable, stat_st_mode, chmod, node_at, bind.
  rewrite (locate_hook s hm) by done.
  change (node_of s hook_path) with (fs s !! hook_path).
  rewrite Hhook. cbn beta iota. rewrite (locate_hook s hm) by done.
  change (node_of s hook_path) with (fs s !! hook_path).
  rewrite Hhook. done.
Qed.

(** The last statements of [main], in a plain tree where [.git/hooks]
    is a directory. *)
Lemma write_hook_run (w : world) (s : state) (hm : Z) :
  plain (fs s) → fs s !! HOOK_DIR = Some (Dir hm) →
  write_hook w s
  = match fs s !! hook_path with
    | Some (Dir _) => (Raise IsADirectoryError, s)
    | found =>
        match refuses w (fs s) (OpenW hook_path) with
        | Some e => (Raise e, s)
        | None =>
            let m :=
              match found with
              | Some (File _ mode) =>
                  standing mode (keeps w (fs s) (OpenW hook_path))
              | _ => Z.land o666 (Z.lnot (umask w))
              end in
            if encodable w (hook_content w) then
              let s2 := set_node hook_path (File (hook_content w) m) s in
              let asked := Z.lor (Z.lor S_IFREG m) S_IEXEC in
              match refuses w (fs s2) (Chmod hook_path asked) with
              | Some e => (Raise e, s2)
              | None =>
                  (Ok (),
                   {| fs := <[hook_path :=
                                File (hook_content w)
                                  (standing (Z.land asked o7777)
                                     (keeps w (fs s2) (Chmod hook_path asked)))]>
                              (fs s2);
                      logged := (logged s
                                 ++ [(INFO, "Successfully installed %s hook.",
                                      [HOOK_NAME])])%list |})
              end
            else
              (Raise UnicodeEncodeError,
               set_node hook_path (File "" m) s)
        end
    end.
Proof.
  intros Hplain Hhooks.
  assert (hook_path ≠ HOOK_DIR) as Hne by done.
  assert (∀ m, let s2 := set_node hook_path (File (hook_content w) m) s in
            bind (stat_st_mode hook_path)
              (λ st_mode, bind (chmod w hook_path (Z.lor st_mode S_IEXEC))
                 (λ _, log INFO "Successfully installed %s hook." [HOOK_NAME]))
              s2
            = match refuses w (fs s2)
                      (Chmod hook_path (Z.lor (Z.lor S_IFREG m) S_IEXEC)) with
              | Some e => (Raise e, s2)
              | None =>
                  (Ok (),
                   {| fs := <[hook_path :=
                                File (hook_content w)
                                  (standing
                                     (Z.land (Z.lor (Z.lor S_IFREG m) S_IEXEC)
                                        o7777)
                                     (keeps w (fs s2)
                                        (Chmod hook_path
                                           (Z.lor (Z.lor S_IFREG m) S_IEXEC))))]>
                              (fs s2);
                      logged := (logged s
                                 ++ [(INFO, "Successfully installed %s hook.",
                                      [HOOK_NAME])])%list |})
              end) as Hrest.
  { intros m s2.
    rewrite <- (bind_assoc (stat_st_mode hook_path)
                  (λ st_mode, chmod w hook_path (Z.lor st_mode S_IEXEC))).
    fold (make_executable w). unfold bind at 1.
    rewrite (make_executable_run w s2 hm (hook_content w) m).
    - by destruct (refuses w (fs s2) _).
    - apply plain_insert; [done|by intros ?].
    - subst s2. cbn [fs set_node]. by rewrite lookup_insert_ne.
    - subst s2. cbn [fs set_node]. by rewrite lookup_insert_eq. }
  unfold write_hook, write_text.
  unfold bind at 1.
  rewrite (locate_hook s hm) by done.
  change (node_of s hook_path) with (fs s !! hook_path).
  destruct (fs s !! hook_path) as [[pm|pt pm|target]|] eqn:Hhook;
    [done| |by destruct (Hplain hook_path target ltac:(by repeat econstructor))|];
    (destruct (refuses w (fs s) (OpenW hook_path)); [done|]);
    (destruct (encodable w (hook_content w)); [|done]);
    apply Hrest.
Qed.

(** [HOOK_DIR.mkdir(exist_ok=True)] in a plain tree. *)
Lemma mkdir_run (w : world) (s : state) :
  plain (fs s) →
  mkdir_exist_ok w HOOK_DIR s
  = match fs s !! [".git"] with
    | Some (Dir _) =>
        match fs s !! HOOK_DIR with
        | None =>
            match refuses w (fs s) (Mkdir HOOK_DIR) with
            | Some e => (Raise e, s)
            | None =>
                (Ok (),
                 set_node HOOK_DIR (Dir (Z.land o777 (Z.lnot (umask w)))) s)
            end
        | Some (Dir _) => (Ok (), s)
        | Some _ => (Raise FileExistsError, s)
        end
    | Some _ => (Raise NotADirectoryError, s)
    | None => (Raise FileNotFoundError, s)
    end.
Proof.
  intros Hplain. unfold mkdir_exist_ok, node_at, locate.
  change (removelast HOOK_DIR) with [".git"].
  rewrite walk_git, walk_hooks by done.
  change (removelast [".git"]) with (@nil string).
  cbn [node_of].
  change ([".git"] ++ [List.last HOOK_DIR ""])%list with HOOK_DIR.
  destruct (fs s !! [".git"]) as [[gm|gt gm|target]|] eqn:Hg; try done.
  change (removelast HOOK_DIR) with [".git"].
  cbn [node_of]. rewrite Hg.
  change (node_of s HOOK_DIR) with (fs s !! HOOK_DIR).
  by destruct (fs s !! HOOK_DIR) as [[hm|ht hm|target]|] eqn:Hh.
Qed.

(** The installer, for each shape of a working directory in which no
    name on the way to the hook file is a link. *)
Lemma main_run (w : world) (s : state) :
  plain (fs s) →
  main w s
  = match fs s !! [".git"] with
    | None =>
        (Exit 1,
         {| fs := fs s;
            logged := (logged s
                       ++ [(ERROR, "Error: This is not a git repository.", [])])%list |})
    | Some (Dir _) =>
        match fs s !! HOOK_DIR with
        | None =>
            match refuses w (fs s) (Mkdir HOOK_DIR) with
            | Some e => (Raise e, s)
            | None =>
                write_hook w
                  (set_node HOOK_DIR (Dir (Z.land o777 (Z.lnot (umask w)))) s)
            end
        | Some (Dir _) => write_hook w s
        | Some _ => (Raise FileExistsError, s)
        end
    | Some _ => (Raise NotADirectoryError, s)
    end.
Proof.
  intros Hplain.
  assert (exists_ [".git"] s
          = (Ok (match fs s !! [".git"] with
                 | Some _ => true
                 | None => false
                 end), s)) as Hexists.
  { unfold exists_, node_at, locate. by rewrite walk_git. }
  unfold main.
  change (bind (write_text w hook_path (hook_content w)) _)
    with (write_hook w).
  erewrite bind_Ok by exact Hexists.
  destruct (fs s !! [".git"]) as [n|] eqn:Hg.
  2: { by erewrite bind_Exit by reflexivity. }
  erewrite bind_Ok by reflexivity.
  rewrite bind_run, mkdir_run, Hg by done.
  destruct n as [gm|gt gm|target]; try done.
  destruct (fs s !! HOOK_DIR) as [[hm|ht hm|target]|]; try done.
  by destruct (refuses w (fs s) (Mkdir HOOK_DIR)).
Qed.

(** C7. Run in a directory with no [.git], the installer finds so by its
    first check, logs the error and exits with status 1; the file system
    is as it was, so no hook file is created.  More generally, whenever
    [.git] does not lead to a directory the run ends with status 1 and
    the file system is as it was. *)
Theorem C7_outside_repository_no_hook
    (w : world) (disk : gmap (list string) node) :
  (disk !! [".git"] = None →
     run w disk
     = (1, {| fs := disk;
              logged := [(ERROR, "Error: This is not a git repository.", [])] |}))
  ∧ ((∀ mode, node_at {| fs := disk; logged := [] |} [".git"]
              ≠ Some (Dir mode)) →
     (run w disk).1 = 1 ∧ fs (run w disk).2 = disk
     ∧ fs (run w disk).2 !! hook_path = disk !! hook_path).
Proof.
  set (s0 := {| fs := disk; logged := [] |}).
  assert (exists_ [".git"] s0
          = (Ok (match node_at s0 [".git"] with
                 | Some _ => true
                 | None => false
                 end), s0)) as Hexists by done.
  split.
  - intros Hnone.
    assert (node_at s0 [".git"] = None) as Hnode.
    { unfold node_at, locate, SYMLOOP_MAX. rewrite walk_cons.
      change ([] ++ [".git"])%list with [".git"]. cbn [fs s0].
      rewrite Hnone, walk_nil. cbn [removelast node_of fs s0].
      by rewrite Hnone. }
    unfold run, main. fold s0. rewrite Hnode in Hexists.
    erewrite bind_Ok by exact Hexists.
    by erewrite bind_Exit by reflexivity.
  - intros Hnodir. fold s0 in Hnodir. unfold run, main. fold s0.
    erewrite bind_Ok by exact Hexists.
    destruct (node_at s0 [".git"]) as [n|] eqn:Hnode.
    2: { by erewrite bind_Exit by reflexivity. }
    erewrite bind_Ok by reflexivity.
    assert (∃ e, mkdir_exist_ok w HOOK_DIR s0 = (Raise e, s0)) as [e Hmkdir].
    { unfold mkdir_exist_ok. change (removelast HOOK_DIR) with [".git"].
      unfold node_at in Hnode.
      destruct (locate s0 [".git"]) as [q|code|e]; [|done..].
      rewrite Hnode.
      destruct n as [mode|text mode|target]; [|by eexists..].
      by destruct (Hnodir mode). }
    by erewrite bind_Raise by exact Hmkdir.
Qed.

(** C8. The last change of the installer to the hook file adds the
    owner-execute bit to the permission bits of the file and changes no
    other permission bit.  For the two statements alone, on a file of
    mode [m] that the system lets them change: they leave the text and
    ask for [m | S_IEXEC]; in the mode stored, bit 6 is set and the
    other eight permission bits are those of [m]; of the set-id and
    sticky bits those stand that [m] has and the system keeps, so that
    a mode without them becomes [m | S_IEXEC].  For a whole run that
    succeeds, with no link on the way to the hook file: the hook file
    holds the hook script, and its mode is related in the same way to
    the prior mode, that of the hook file that was there or that of a
    newly created file. *)
Theorem C8_chmod_adds_owner_execute
    (w : world) (disk : gmap (list string) node)
    (m := prior_mode w disk) :
  (∀ s q text m0,
     locate s hook_path = Ok q → node_of s q = Some (File text m0) →
     let asked := Z.lor (Z.lor S_IFREG m0) S_IEXEC in
     refuses w (fs s) (Chmod q asked) = None →
     ∃ m1, make_executable w s = (Ok (), set_node q (File text m1) s)
           ∧ Z.testbit m1 6 = true
           ∧ (∀ i, 0 ≤ i < 9 → i ≠ 6 → Z.testbit m1 i = Z.testbit m0 i)
           ∧ (∀ i, 9 ≤ i → Z.testbit m1 i = true →
                   Z.testbit m0 i = true ∧ i < 12)
           ∧ (0 ≤ m0 < 4096 →
              m1 = standing (Z.lor m0 S_IEXEC) (keeps w (fs s) (Chmod q asked)))
           ∧ (0 ≤ m0 < 512 → m1 = Z.lor m0 S_IEXEC))
  ∧ (plain disk → (run w disk).1 = 0 →
     ∃ m', fs (run w disk).2 !! hook_path = Some (File (hook_content w) m')
           ∧ Z.testbit m' 6 = true
           ∧ (∀ i, 0 ≤ i < 9 → i ≠ 6 → Z.testbit m' i = Z.testbit m i)
           ∧ (∀ i, 9 ≤ i → Z.testbit m' i = true →
                   Z.testbit m i = true ∧ i < 12)
           ∧ (0 ≤ m < 512 → m' = Z.lor m S_IEXEC)).
Proof.
  split.
  - intros s q text m0 Hq Hfile asked Hlet.
    destruct (stored_mode m0 (keeps w (fs s) (Chmod q asked)))
      as (H6 & Hlow & Hhigh & Hall & Hplain).
    eexists. split_and!; [|exact H6|exact Hlow| |exact Hall|exact Hplain].
    + unfold make_executable, stat_st_mode, chmod, node_at, bind.
      rewrite Hq, Hfile. cbn beta iota. rewrite Hq, Hfile.
      fold asked. by rewrite Hlet.
    + intros i Hi Hbit. by destruct (Hhigh i Hi Hbit) as (? & ? & _).
  - intros Hplain Hok. revert Hok. unfold run. rewrite main_run by done.
    cbn [fs logged].
    assert (∀ s : state,
              fs s !! hook_path = disk !! hook_path →
              ∀ hm, plain (fs s) → fs s !! HOOK_DIR = Some (Dir hm) →
              exit_status (write_hook w s).1 = 0 →
              ∃ m', fs (write_hook w s).2 !! hook_path
                    = Some (File (hook_content w) m')
                    ∧ Z.testbit m' 6 = true
                    ∧ (∀ i, 0 ≤ i < 9 → i ≠ 6 →
                            Z.testbit m' i = Z.testbit m i)
                    ∧ (∀ i, 9 ≤ i → Z.testbit m' i = true →
                            Z.testbit m i = true ∧ i < 12)
                    ∧ (0 ≤ m < 512 → m' = Z.lor m S_IEXEC)) as Hwrite.
    { intros s Hsame hm Hplain' Hhooks. rewrite (write_hook_run w s hm) by done.
      subst m. unfold prior_mode. rewrite <- Hsame.
      destruct (fs s !! hook_path) as [[pm|pt pm|target]|] eqn:Hhook;
        [done|
        |by destruct (Hplain' hook_path target ltac:(by repeat econstructor))
        |];
        (destruct (refuses w (fs s) (OpenW hook_path)); [done|]);
        (destruct (encodable w (hook_content w)); [|done]);
        cbn zeta;
        (destruct (refuses w _ (Chmod _ _)); [done|]);
        intros _; cbn [fst snd fs];
        (eexists; split; [by rewrite lookup_insert_eq|]).
      - set (Kw := keeps w (fs s) (OpenW hook_path)).
        destruct (stored_mode (standing pm Kw)
                    (keeps w
                       (fs (set_node hook_path
                              (File (hook_content w) (standing pm Kw)) s))
                       (Chmod hook_path
                          (Z.lor (Z.lor S_IFREG (standing pm Kw)) S_IEXEC))))
          as (H6 & Hlow & Hhigh & _ & Hsmall).
        split_and!; [exact H6| | |].
        + intros i Hi Hne. rewrite Hlow by done.
          rewrite standing_bits by lia.
          replace (i <? 9) with true by (symmetry; apply Z.ltb_lt; lia).
          by rewrite andb_true_r.
        + intros i Hi Hbit. destruct (Hhigh i Hi Hbit) as (Hst & ? & _).
          rewrite standing_bits in Hst by lia.
          apply andb_true_iff in Hst as [? _]. done.
        + intros Hpm. rewrite (standing_low pm Kw Hpm) in Hsmall |- *.
          by apply Hsmall.
      - destruct (stored_mode (Z.land o666 (Z.lnot (umask w)))
                    (keeps w
                       (fs (set_node hook_path
                              (File (hook_content w)
                                 (Z.land o666 (Z.lnot (umask w)))) s))
                       (Chmod hook_path
                          (Z.lor (Z.lor S_IFREG
                                    (Z.land o666 (Z.lnot (umask w))))
                             S_IEXEC))))
          as (H6 & Hlow & Hhigh & _ & Hsmall).
        split_and!; [exact H6|exact Hlow| |exact Hsmall].
        intros i Hi Hbit. by destruct (Hhigh i Hi Hbit) as (? & ? & _). }
    assert (hook_path ≠ HOOK_DIR) as Hne by done.
    destruct (disk !! [".git"]) as [[gm|gt gm|target]|]; try done.
    destruct (disk !! HOOK_DIR) as [[hm|ht hm|target]|] eqn:Hhooks;
      try done.
    + apply (Hwrite {| fs := disk; logged := [] |} eq_refl hm); done.
    + destruct (refuses w disk (Mkdir HOOK_DIR)); [done|].
      apply (Hwrite (set_node HOOK_DIR _ {| fs := disk; logged := [] |}))
        with (hm := Z.land o777 (Z.lnot (umask w))).
      * cbn [fs set_node]. by rewrite lookup_insert_ne.
      * cbn [fs set_node]. apply plain_insert; [done|by intros ?].
      * cbn [fs set_node]. by rewrite lookup_insert_eq.
Qed.

End installer_properties.
(** * Further properties of the hook *)

Lemma get_api_key_result (w : world) (s : state) :
  (get_api_key w s).1 = if keyless w then Exit 1 else Ok (key_of w).
Proof.
  rewrite get_api_key_run. unfold keyless, key_of.
  destruct (opt_truthy (config.GEMINI_API_KEY (cfg w))); [done|].
  by destruct (opt_truthy (environ w !! "GEMINI_API_KEY")).
Qed.

Lemma get_git_diff_result (utf8_decode : string → option string)
    (w : world) (s : state) :
  (get_git_diff utf8_decode w s).1
  = if opt_truthy (path_lookup w "git") then
      match text_of utf8_decode w (diff_command w) with
      | Some _ => Ok (diff_of utf8_decode w)
      | None => Raise UnicodeDecodeError
      end
    else Exit 1.
Proof.
  rewrite get_git_diff_run. unfold diff_of, text_of, diff_command, git_of.
  destruct (opt_truthy (path_lookup w "git")); [|done].
  destruct (utf8_decode _) as [text|]; [|done]. simpl.
  by destruct (returncode _ =? 0)%Z.
Qed.

Lemma get_branch_name_result (utf8_decode : string → option string)
    (strip : string → string) (w : world) (s : state) :
  (get_branch_name utf8_decode strip w s).1
  = if opt_truthy (path_lookup w "git") then
      match text_of utf8_decode w (branch_command w) with
      | Some _ => Ok (branch_of utf8_decode strip w)
      | None => Raise UnicodeDecodeError
      end
    else Exit 1.
Proof.
  rewrite get_branch_name_run.
  unfold branch_of, text_of, branch_command, git_of.
  destruct (opt_truthy (path_lookup w "git")); [|done].
  destruct (utf8_decode _) as [text|]; [|done]. simpl.
  by destruct (returncode _ =? 0)%Z.
Qed.

(** What reading the hint does. *)
Lemma read_text_result (w : world) (p : string) (s : state) :
  (read_text w p s).1
  = match files s !! p with
    | Some text =>
        match unreadable w p with
        | Some e => Raise e
        | None => Ok text
        end
    | None => Raise FileNotFoundError
    end.
Proof.
  unfold read_text, emit, bind. simpl.
  destruct (files s !! p); [|done]. by destruct (unreadable w p).
Qed.

Section reach.

Variable json_loads : string → option value.
Variable utf8_decode : string → option string.
Variable strip : string → string.

(** Every run either stops early, for one of nine reasons and without a
    request or a write, or reaches the last two statements of [main] with
    the arguments the helpers computed. *)
Lemma main_reaches (w : world) (disk : gmap string string) :
  (stops_early utf8_decode w disk
     (main json_loads utf8_decode strip w (start disk)).1
   ∧ quiet_ext (start disk)
       (main json_loads utf8_decode strip w (start disk)).2)
  ∨ ∃ file s1,
      asks utf8_decode w disk file ∧ quiet_ext (start disk) s1
      ∧ main json_loads utf8_decode strip w (start disk)
        = generate_and_write json_loads utf8_decode w file
            (diff_of utf8_decode w) (branch_of utf8_decode strip w)
            (key_of w) (hint_of strip w disk) s1.
Proof.
  unfold main, asks, hint_of.
  pose proof (quiet_ext_refl (start disk)) as Hq0.
  destruct (argv w !! 1%nat) as [file|] eqn:Hfile.
  2: { left. erewrite bind_Raise by (unfold argv_item; by rewrite Hfile).
       split; [by constructor|done]. }
  erewrite bind_Ok by by apply argv_item_run.
  erewrite bind_Ok by apply commit_source_run.
  destruct (String.eqb_spec (commit_source w) "merge") as [Hmerge|Hmerge].
  { left. erewrite bind_Exit by reflexivity. split.
    - apply stop_merge; eauto.
    - by apply (quiet_ext_after (start disk)
                  [Log INFO "Merge commit detected. Skipping." []]). }
  erewrite bind_Ok by reflexivity.
  (* the hint *)
  assert ((∃ s1, (if (commit_source w =? "message")%string
                  then bind (read_text w file)
                         (λ text, ret (Some (strip text)))
                  else ret None) (start disk)
                 = (Ok (if (commit_source w =? "message")%string
                        then strip <$> disk !! file else None), s1)
                 ∧ quiet_ext (start disk) s1
                 ∧ (commit_source w = "message" → readable w disk file))
          ∨ (∃ e s1, (if (commit_source w =? "message")%string
                      then bind (read_text w file)
                             (λ text, ret (Some (strip text)))
                      else ret None) (start disk)
                     = (Raise e, s1)
                     ∧ quiet_ext (start disk) s1
                     ∧ stops_early utf8_decode w disk (Raise e)))
    as [(s1 & Hhint & Hq1 & Hread)|(e & s1 & Hhint & Hq1 & Hstop)].
  { destruct (String.eqb_spec (commit_source w) "message") as [Hmsg|Hmsg].
    - pose proof (quiet_read_text w file (start disk)) as Hq.
      pose proof (read_text_result w file (start disk)) as Hres.
      rewrite bind_run. cbn [files start] in Hres.
      destruct (disk !! file) as [text|] eqn:Htext;
        [destruct (unreadable w file) as [e|] eqn:Hopen|];
        rewrite Hres.
      + right. eexists _, _. split_and!; [done..|].
        by eapply stop_unreadable.
      + left. eexists. split_and!; [done..|]. by intros _; split.
      + right. eexists _, _. split_and!; [done..|].
        by eapply stop_missing.
    - left. exists (start disk). split_and!; [done..|]. by intros ?. }
  2: { left. erewrite bind_Raise by exact Hhint. done. }
  erewrite bind_Ok by exact Hhint. clear Hhint.
  (* the key *)
  rewrite bind_run, get_api_key_result.
  pose proof (quiet_get_api_key w s1) as Hq2.
  destruct (keyless w) eqn:Hkey.
  { left. split; [by eapply stop_keyless|]. eauto using quiet_ext_trans. }
  set (s2 := (get_api_key w s1).2) in *.
  assert (quiet_ext (start disk) s2) as Hq2' by eauto using quiet_ext_trans.
  clearbody s2. clear Hq2 Hq1 s1.
  (* the diff and the branch name *)
  rewrite bind_run, get_git_diff_result.
  pose proof (quiet_get_git_diff utf8_decode w s2) as Hq3.
  destruct (opt_truthy (path_lookup w "git")) eqn:Hgit.
  2: { left. split; [by eapply stop_no_git|]. eauto using quiet_ext_trans. }
  destruct (text_of utf8_decode w (diff_command w)) as [diff_text|] eqn:Hdt.
  2: { left. split; [by eapply stop_diff_not_text|].
       eauto using quiet_ext_trans. }
  set (s3 := (get_git_diff utf8_decode w s2).2) in *.
  assert (quiet_ext (start disk) s3) as Hq3' by eauto using quiet_ext_trans.
  clearbody s3. clear Hq3 Hq2' s2.
  rewrite bind_run, get_branch_name_result, Hgit.
  pose proof (quiet_get_branch_name utf8_decode strip w s3) as Hq4.
  destruct (text_of utf8_decode w (branch_command w)) as [branch_text|]
    eqn:Hbt.
  2: { left. split; [eapply stop_branch_not_text; eauto|].
       eauto using quiet_ext_trans. }
  set (s4 := (get_branch_name utf8_decode strip w s3).2) in *.
  assert (quiet_ext (start disk) s4) as Hq4' by eauto using quiet_ext_trans.
  clearbody s4. clear Hq4 Hq3' s3.
  (* nothing staged *)
  destruct (str_truthy (diff_of utf8_decode w)) eqn:Hdiff.
  2: { left. erewrite bind_Exit by reflexivity.
       assert (diff_of utf8_decode w = "") as Hempty.
       { destruct (String.eqb_spec (diff_of utf8_decode w) "") as [|Hne];
           [done|].
         apply str_truthy_nonempty in Hne. congruence. }
       split; [eapply stop_nothing_staged; eauto|].
       eapply quiet_ext_trans; [done|].
       by apply (quiet_ext_after s4
                   [Log INFO "No staged changes found. Aborting." []]). }
  erewrite bind_Ok by reflexivity.
  erewrite bind_Ok by reflexivity.
  right. exists file, (after s4 [Log INFO "Generating commit message..." []]).
  split_and!; try done.
  - by apply str_truthy_nonempty.
  - eapply quiet_ext_trans; [done|]. by apply quiet_ext_after.
Qed.

End reach.

Lemma asks_not_early (utf8_decode : string → option string) (w : world)
    (disk : gmap string string) (file : string) (r : result unit) :
  asks utf8_decode w disk file → ¬ stops_early utf8_decode w disk r.
Proof.
  intros (Hfile & Hmerge & Hread & Hkey & Hgit & Hdt & Hbt & Hdiff) Hstop.
  destruct Hstop as [Hno|_ ?|f Hf Hmsg Hnone|f e Hf Hmsg _ Hopen
                     |f Hf _ _ Hk|f Hf _ _ _ Hg
                     |f Hf _ _ _ _ Hd|f Hf _ _ _ _ _ Hb
                     |f Hf _ _ _ _ _ _ Hd];
    simplify_eq; try congruence.
  - destruct (Hread Hmsg) as [[text Htext] _]. congruence.
  - destruct (Hread Hmsg) as [_ Hok]. congruence.
  - rewrite Hd in Hdt. by destruct Hdt.
  - rewrite Hb in Hbt. by destruct Hbt.
Qed.

(** The last two statements of [main] ask the API exactly once. *)
Lemma generate_and_write_requests (json_loads : string → option value)
    (utf8_decode : string → option string)
    (w : world) (file diff branch_name api_key : string)
    (user_message : option string) (s : state) :
  requests (trace s) = [] →
  requests (trace (generate_and_write json_loads utf8_decode w file diff
                     branch_name api_key user_message s).2)
  = [request_of w diff branch_name api_key user_message].
Proof.
  intros Hr. unfold generate_and_write, bind.
  destruct (generate_commit_message_outcome json_loads utf8_decode w diff
              branch_name api_key user_message s)
    as (logs & -> & _ & _ & Hlr).
  set (req := request_of w diff branch_name api_key user_message).
  assert (requests (trace (after s (Urlopen req :: logs))) = [req]) as Hreq.
  { unfold after. cbn [trace].
    rewrite requests_app, Hr. change (req :: requests logs = [req]).
    by rewrite Hlr. }
  destruct (answer json_loads utf8_decode w req) as [v|code|e]; [|done..].
  destruct (truthy v); [|done].
  unfold write_text.
  destruct v; try done.
  destruct (unwritable w file); [done|].
  destruct (encodable w _); unfold emit, bind; cbn [snd trace];
    by rewrite requests_app, Hreq.
Qed.

(** The spelled-out prompt is the prompt of the source. *)
Lemma user_prompt_told (hint : option string) :
  user_prompt_of hint = told hint.
Proof. by destruct hint as [[|c rest]|]. Qed.

Lemma string_app_assoc (a b c : string) :
  ((a ++ b) ++ c = a ++ (b ++ c))%string.
Proof.
  induction a as [|x a IH]; [done|].
  change (String x ((a ++ b) ++ c) = String x (a ++ (b ++ c)))%string.
  by rewrite IH.
Qed.

Lemma prompt_of_template (diff branch told : string) :
  prompt_of diff branch told = joined (line <$> template branch told diff).
Proof.
  unfold prompt_of, template, nl. cbn [fmap list_fmap joined line].
  rewrite !string_app_assoc. reflexivity.
Qed.

(** And they end with status 0 or 1. *)
Lemma generate_and_write_status (json_loads : string → option value)
    (utf8_decode : string → option string)
    (w : world) (file diff branch_name api_key : string)
    (user_message : option string) (s : state) :
  let r := (generate_and_write json_loads utf8_decode w file diff
              branch_name api_key user_message s).1 in
  exit_status r = 0 ∨ exit_status r = 1.
Proof.
  unfold generate_and_write, bind.
  destruct (generate_commit_message_outcome json_loads utf8_decode w diff
              branch_name api_key user_message s)
    as (logs & -> & _ & _ & _).
  pose proof (answer_status json_loads utf8_decode w
                (request_of w diff branch_name api_key user_message)) as Hst.
  destruct (answer json_loads utf8_decode w _) as [v|code|e]; simpl;
    [|by right..].
  destruct (truthy v); [|by left].
  unfold write_text.
  destruct v; try by right.
  destruct (unwritable w file); [by right|].
  destruct (encodable w _); unfold emit, bind; simpl; auto.
Qed.

(** Newline translation leaves no carriage return, and leaves a text
    without one as it is. *)
Lemma universal_newlines_no_CR (text : string) :
  occurrences CR (universal_newlines text) = 0%nat.
Proof.
  enough (occurrences CR (universal_newlines text) = 0%nat
          ∧ ∀ c, occurrences CR (universal_newlines (String c text)) = 0%nat)
    as [? _] by done.
  induction text as [|c' rest [IH1 IH2]].
  - split; [done|]. intros c. simpl.
    by destruct (Ascii.eqb_spec c CR) as [->|Hne]; simpl;
      [|destruct (Ascii.eqb_spec c CR)].
  - split; [apply IH2|]. intros c.
    change (universal_newlines (String c (String c' rest)))
      with (if Ascii.eqb c CR
            then if Ascii.eqb c' LF
                 then String LF (universal_newlines rest)
                 else String LF (universal_newlines (String c' rest))
            else String c (universal_newlines (String c' rest))).
    destruct (Ascii.eqb_spec c CR) as [->|Hne].
    + destruct (Ascii.eqb c' LF).
      * change (0 + occurrences CR (universal_newlines rest) = 0)%nat.
        by rewrite IH1.
      * change (0 + occurrences CR (universal_newlines (String c' rest))
                = 0)%nat.
        by rewrite IH2.
    + cbn [occurrences]. rewrite IH2.
      by destruct (Ascii.eqb_spec c CR).
Qed.

Lemma universal_newlines_plain (text : string) :
  occurrences CR text = 0%nat → universal_newlines text = text.
Proof.
  induction text as [|c rest IH]; [done|]. cbn [occurrences].
  destruct (Ascii.eqb_spec c CR) as [->|Hne]; [done|].
  intros Hrest. cbn [universal_newlines].
  destruct (Ascii.eqb_spec c CR) as [|_]; [done|]. by rewrite IH.
Qed.

Section hook_extras.

Variable json_loads : string → option value.
Variable utf8_decode : string → option string.
Variable strip : string → string.

(** X1. [get_git_diff] has four outcomes.  Without [git] on the PATH it
    logs an error and ends the process with [sys.exit(1)], before any
    command is run.  When the output of [git diff --staged] is not
    UTF-8 it raises [UnicodeDecodeError], whatever the exit status of
    the command.  When the output is UTF-8 and the command succeeded it
    returns the text of the output, not stripped, with the newlines
    translated: no carriage return is left, and a text without one is
    returned as it is.  When the command failed it returns the empty
    string.  It exits only in the first case and raises only in the
    second. *)
Theorem X1_git_diff_outcomes (w : world) (s : state)
    (found := path_lookup w "git")
    (cmdline := [default "" found; "diff"; "--staged"])
    (output := utf8_decode (stdout (child w cmdline))) :
  (opt_truthy found = false →
     get_git_diff utf8_decode w s
     = (Exit 1, after s [Which "git";
                         Log ERROR "git executable not found." []]))
  ∧ (opt_truthy found = true → output = None →
     get_git_diff utf8_decode w s
     = (Raise UnicodeDecodeError,
        after s [Which "git"; CheckOutput cmdline]))
  ∧ (∀ text, opt_truthy found = true → output = Some text →
     returncode (child w cmdline) = 0 →
     get_git_diff utf8_decode w s
     = (Ok (universal_newlines text),
        after s [Which "git"; CheckOutput cmdline])
     ∧ occurrences CR (universal_newlines text) = 0%nat
     ∧ (occurrences CR text = 0%nat → universal_newlines text = text))
  ∧ (∀ text, opt_truthy found = true → output = Some text →
     returncode (child w cmdline) ≠ 0 →
     get_git_diff utf8_decode w s
     = (Ok "", after s [Which "git"; CheckOutput cmdline]))
  ∧ (∀ code s', get_git_diff utf8_decode w s = (Exit code, s') →
     opt_truthy found = false)
  ∧ (∀ e s', get_git_diff utf8_decode w s = (Raise e, s') →
     opt_truthy found = true ∧ output = None ∧ e = UnicodeDecodeError).
Proof.
  pose proof (get_git_diff_run utf8_decode w s) as Hrun. simpl in Hrun.
  fold found in Hrun. fold cmdline in Hrun. fold output in Hrun.
  split_and!.
  - intros Hfound. by rewrite Hrun, Hfound.
  - intros Hfound Hout. by rewrite Hrun, Hfound, Hout.
  - intros text Hfound Hout Hrc. rewrite Hrun, Hfound, Hout, Hrc.
    split_and!; [done|apply universal_newlines_no_CR
                |apply universal_newlines_plain].
  - intros text Hfound Hout Hrc. rewrite Hrun, Hfound, Hout.
    by destruct (Z.eqb_spec (returncode (child w cmdline)) 0).
  - intros code s'. rewrite Hrun.
    destruct (opt_truthy found); [|done].
    destruct output; [|done].
    by destruct (returncode (child w cmdline) =? 0)%Z.
  - intros e s'. rewrite Hrun.
    destruct (opt_truthy found); [|done].
    destruct output; [|by intros [= <- _]].
    by destruct (returncode (child w cmdline) =? 0)%Z.
Qed.

(** X2. A non-empty [config.GEMINI_API_KEY] takes precedence over the
    environment: [get_api_key] returns it whatever the environment
    holds, and does not read the environment at all (no event is
    recorded).  Only when the configured key is unset or empty is the
    [GEMINI_API_KEY] variable read, and a non-empty value returned. *)
Theorem X2_configured_key_wins (w : world) (s : state) :
  (∀ k, config.GEMINI_API_KEY (cfg w) = Some k → k ≠ "" →
     ∀ env, get_api_key (with_environ env w) s = (Ok k, s))
  ∧ (∀ k, opt_truthy (config.GEMINI_API_KEY (cfg w)) = false →
     environ w !! "GEMINI_API_KEY" = Some k → k ≠ "" →
     get_api_key w s = (Ok k, after s [EnvironGet "GEMINI_API_KEY"])).
Proof.
  split.
  - intros k Hcfg Hk env. rewrite get_api_key_run. simpl. rewrite Hcfg. simpl.
    apply str_truthy_nonempty in Hk. by rewrite Hk.
  - intros k Hcfg Henv Hk. rewrite get_api_key_run, Hcfg, Henv. simpl.
    apply str_truthy_nonempty in Hk. by rewrite Hk.
Qed.

(** X3. What a run sends.  A run asks the API exactly when the first
    argument is there, the source is not [merge], the file is readable
    if the source is [message], a key is found, [git] is found, the
    outputs of both [git] commands are UTF-8 and the staged diff is not
    empty.  It then sends one request and no more.  Its URL names the
    configured model and carries the key.  Its data hold one text, the
    lines of the template joined by newlines, each line but the blank
    ones indented by four spaces: the second line quotes the branch
    name (the stripped text of the output, [""] when [rev-parse]
    failed), the third tells the hint (the stripped text the file had
    when the run started, for the source [message]; the line is empty
    without a hint), and the diff stands between the last two fences.
    In every other run no request is sent. *)
Theorem X3_request_sent (w : world) (disk : gmap string string)
    (st := (run json_loads utf8_decode strip w disk).2)
    (prompt :=
       joined (line <$> template (branch_of utf8_decode strip w)
                          (told (hint_of strip w disk))
                          (diff_of utf8_decode w))) :
  (∀ file, asks utf8_decode w disk file →
     requests (trace st)
     = [ {| url := "https://generativelanguage.googleapis.com/v1beta/models/"
                   ++ config.GEMINI_MODEL (cfg w)
                   ++ ":generateContent?key=" ++ key_of w;
            data :=
              VDict [("contents",
                VList [VDict [("parts",
                  VList [VDict [("text", VStr prompt)]])]])];
            headers := [("Content-Type", "application/json")] |} ])
  ∧ ((∀ file, ¬ asks utf8_decode w disk file) → requests (trace st) = []).
Proof.
  subst st prompt. unfold run. cbn [snd]. fold (start disk).
  destruct (main_reaches json_loads utf8_decode strip w disk)
    as [[Hstop Hq]|(file & s1 & Hasks & Hq & ->)];
    apply quiet_from_start in Hq as (Hf & Hw & Hc & Hr).
  - split; [|done]. intros file Hasks.
    by destruct (asks_not_early utf8_decode w disk file _ Hasks Hstop).
  - split.
    + intros _ _. rewrite generate_and_write_requests by done.
      unfold request_of. by rewrite prompt_of_template, user_prompt_told.
    + intros Hnot. by destruct (Hnot file).
Qed.

(** X4. The exit status of the hook is 0 or 1 in every run. *)
Theorem X4_exit_status_0_or_1 (w : world) (disk : gmap string string) :
  (run json_loads utf8_decode strip w disk).1 = 0
  ∨ (run json_loads utf8_decode strip w disk).1 = 1.
Proof.
  unfold run. cbn [fst]. fold (start disk).
  destruct (main_reaches json_loads utf8_decode strip w disk)
    as [[Hstop _]|(file & s1 & _ & _ & ->)].
  - destruct Hstop; simpl; auto.
  - apply generate_and_write_status.
Qed.

(** X5. Without [git] on the PATH a run sends no request, writes no file
    and leaves the files as they were; unless the source is [merge], it
    ends with status 1. *)
Theorem X5_missing_git_is_fatal (w : world) (disk : gmap string string)
    (st := (run json_loads utf8_decode strip w disk).2) :
  opt_truthy (path_lookup w "git") = false →
  requests (trace st) = [] ∧ writes (trace st) = [] ∧ files st = disk
  ∧ (commit_source w ≠ "merge" →
     (run json_loads utf8_decode strip w disk).1 = 1).
Proof.
  intros Hgit. subst st. unfold run. cbn [fst snd]. fold (start disk).
  destruct (main_reaches json_loads utf8_decode strip w disk)
    as [[Hstop Hq]|(file & s1 & Hasks & _)].
  - apply quiet_from_start in Hq as (Hf & Hw & Hc & Hr).
    split_and!; try done.
    intros Hmerge. destruct Hstop; simpl; try done; congruence.
  - destruct Hasks as (_ & _ & _ & _ & Hfound & _). congruence.
Qed.

(** X6. Called without the commit-message file argument, the hook ends
    with an [IndexError], so with status 1, before doing anything: the
    trace is empty and the files are as they were. *)
Theorem X6_no_argument (w : world) (disk : gmap string string) :
  (length (argv w) ≤ 1)%nat →
  main json_loads utf8_decode strip w (start disk)
  = (Raise IndexError, start disk)
  ∧ run json_loads utf8_decode strip w disk = (1, start disk).
Proof.
  intros Hlen. apply lookup_ge_None in Hlen.
  assert (main json_loads utf8_decode strip w (start disk)
          = (Raise IndexError, start disk))
    as Hmain.
  { unfold main. erewrite bind_Raise; [done|].
    unfold argv_item. by rewrite Hlen. }
  split; [done|]. unfold run. fold (start disk). by rewrite Hmain.
Qed.

(** X7. With the source [message] and no file at the given path, the
    run ends with [FileNotFoundError], so with status 1, right after the
    attempt to read: no key is looked up, no command is run, no request
    is sent and nothing is written. *)
Theorem X7_unreadable_hint (w : world) (disk : gmap string string)
    (file : string) :
  argv w !! 1%nat = Some file → argv w !! 2%nat = Some "message" →
  disk !! file = None →
  run json_loads utf8_decode strip w disk
  = (1, {| files := disk; trace := [ReadText file] |}).
Proof.
  intros Hfile Hmsg Hnone. unfold run, main.
  erewrite bind_Ok by by apply argv_item_run.
  erewrite bind_Ok by apply commit_source_run.
  unfold commit_source. rewrite Hmsg.
  change (default "" (Some "message")) with "message".
  erewrite bind_Ok by reflexivity.
  erewrite bind_Raise; [done|].
  unfold read_text, emit, bind. simpl. by rewrite Hnone.
Qed.

(** X8. A failed API call is fatal.  When the API answers with a status
    other than 200 (another 2xx status included), cannot be reached, or
    the call or the reading of the reply raises an exception of any
    class, the run ends with status 1, writes nothing and leaves the
    files as they were. *)
Theorem X8_api_failure_is_fatal (w : world) (disk : gmap string string)
    (req : request)
    (st := (run json_loads utf8_decode strip w disk).2) :
  Urlopen req ∈ trace st →
  (network w req = Unreachable
   ∨ (∃ status body, network w req = Response status body ∧ status ≠ 200)
   ∨ (∃ e, network w req = Failed e)
   ∨ (∃ status e, network w req = Cut status e)) →
  (run json_loads utf8_decode strip w disk).1 = 1
  ∧ writes (trace st) = [] ∧ truncations (trace st) = [] ∧ files st = disk.
Proof.
  subst st. unfold run. cbn [fst snd]. fold (start disk).
  pose proof (main_ending json_loads utf8_decode strip w disk) as Hend.
  destruct (main json_loads utf8_decode strip w (start disk)) as [r st].
  cbn [fst snd] in *. intros Hin Hfail.
  apply elem_of_requests in Hin.
  assert (∀ v, answer json_loads utf8_decode w req ≠ Ok v) as Hno.
  { intros v Hv. apply answer_Ok in Hv as (body & result & Hnet & _).
    destruct Hfail as [?|[(? & ? & ? & ?)|[[? ?]|(? & ? & ?)]]];
      congruence. }
  rename req into asked.
  by_ending Hend; rewrite Hr in Hin;
    try (by apply elem_of_nil in Hin);
    apply list_elem_of_singleton in Hin as ->;
    try (by destruct (Hno _ Hans)).
  split_and!; try done. subst r.
  apply unit_of_status; [done|apply answer_status].
Qed.

(** X9. An empty or absent message is a silent success.  When the API
    client returned a falsy value (the empty string, [null]) the run
    ends with status 0, having written nothing. *)
Theorem X9_empty_message_is_success (w : world) (disk : gmap string string)
    (v : value)
    (st := (run json_loads utf8_decode strip w disk).2) :
  api_returned json_loads w (trace st) v → truthy v = false →
  (run json_loads utf8_decode strip w disk).1 = 0
  ∧ writes (trace st) = [] ∧ files st = disk.
Proof.
  subst st. unfold run. cbn [fst snd]. fold (start disk).
  pose proof (main_ending json_loads utf8_decode strip w disk) as Hend.
  destruct (main json_loads utf8_decode strip w (start disk)) as [r st].
  cbn [fst snd] in *. intros Hret Hv.
  rename v into returned, Hv into Hfalse.
  assert (∀ text, text ≠ "" → returned ≠ VStr text) as Hfalsy.
  { intros text Hne ->. apply str_truthy_nonempty in Hne.
    change (str_truthy text = false) in Hfalse. congruence. }
  by_ending Hend; returned_here; try done; try congruence;
    try (by destruct (Hfalsy _ Hne)).
Qed.

(** X10. The subscript chain of [generate_commit_message] returns a
    value exactly for the replies that have the path
    [candidates[0].content.parts[0].text] as JSON structure, and then
    the value at the end of that path: only the first candidate and its
    first part are read.  A string in the place of an array is not
    accepted, although Python would index it. *)
Theorem X10_extract_text_reads_the_path (result text : value) :
  extract_text result = Ok text ↔ text_path result = Some text.
Proof.
  pose proof (extract_text_path result) as Hpath.
  destruct (text_path result) as [text'|].
  - rewrite Hpath. split; congruence.
  - destruct Hpath as [e ->]. split; discriminate.
Qed.

(** X16. A blank hint is no hint.  When the source is [message] and the
    text of the file strips to the empty string, the request sent is the
    one of a run without a hint: the prompt has no hint line. *)
Theorem X16_blank_hint_ignored (w : world) (disk : gmap string string)
    (file text : string)
    (st := (run json_loads utf8_decode strip w disk).2) :
  asks utf8_decode w disk file → commit_source w = "message" →
  disk !! file = Some text → strip text = "" →
  requests (trace st)
  = [request_of w (diff_of utf8_decode w) (branch_of utf8_decode strip w)
       (key_of w) None].
Proof.
  intros Hasks Hmsg Htext Hblank.
  subst st. unfold run. cbn [snd]. fold (start disk).
  destruct (main_reaches json_loads utf8_decode strip w disk)
    as [[Hstop Hq]|(file' & s1 & _ & Hq & ->)].
  - by destruct (asks_not_early utf8_decode w disk file _ Hasks Hstop).
  - apply quiet_from_start in Hq as (Hf & Hw & Hc & Hr).
    rewrite generate_and_write_requests by done.
    destruct Hasks as (Hfile & _).
    unfold hint_of. rewrite Hfile, Hmsg, Htext. simpl. by rewrite Hblank.
Qed.

(** X17. The outcomes of [generate_commit_message].  It touches no
    file.  It returns a value only on a 200 reply whose body decodes
    and has the path, and the value is the one at the path; the
    [return None] at its end is never reached.  It exits, always with
    status 1, only when the API cannot be reached, when the call or the
    reading of the reply raises a [URLError] (an [HTTPError] is one),
    or on a reply other than 200 whose body is UTF-8.  It raises, and
    never a [URLError], only on a malformed 200 reply, on a reply other
    than 200 whose body is not UTF-8 (a [UnicodeDecodeError]), or when
    the call or the reading of the reply raises that exception. *)
Theorem X17_generate_outcomes (w : world)
    (diff branch_name api_key : string) (user_message : option string)
    (s s' : state) (r : result value)
    (req := request_of w diff branch_name api_key user_message) :
  generate_commit_message json_loads utf8_decode w diff branch_name api_key
    user_message s = (r, s') →
  files s' = files s
  ∧ match r with
    | Ok v =>
        ∃ body result,
          network w req = Response 200 body
          ∧ json_loads body = Some result ∧ extract_text result = Ok v
    | Exit code =>
        code = 1
        ∧ (network w req = Unreachable
           ∨ (∃ e, is_URLError e = true
                   ∧ (network w req = Failed e
                      ∨ ∃ status, network w req = Cut status e))
           ∨ (∃ status body text,
                 network w req = Response status body ∧ status ≠ 200
                 ∧ utf8_decode body = Some text))
    | Raise e =>
        is_URLError e = false
        ∧ ((∃ body, network w req = Response 200 body
                    ∧ malformed json_loads body)
           ∨ (∃ status body,
                 network w req = Response status body ∧ status ≠ 200
                 ∧ utf8_decode body = None ∧ e = UnicodeDecodeError)
           ∨ network w req = Failed e
           ∨ ∃ status, network w req = Cut status e)
    end.
Proof.
  rewrite generate_commit_message_run. fold req.
  destruct (network w req) as [status body| |e|status e] eqn:Hnet; simpl.
  - destruct (Z.eqb_spec status 200) as [->|Hstatus]; simpl.
    + destruct (json_loads body) as [result|] eqn:Hbody; simpl.
      * pose proof (extract_text_result result) as Hres.
        pose proof (extract_text_path result) as Hpath.
        intros [= <- <-]. split; [done|].
        destruct (extract_text result) as [v|code|e] eqn:Htext;
          simpl in *; [eauto|done|].
        split; [done|]. left. exists body. split; [done|].
        unfold malformed. rewrite Hbody.
        destruct (text_path result); [congruence|done].
      * intros [= <- <-]. split_and!; [done..|]. left. exists body.
        split; [done|]. unfold malformed. by rewrite Hbody.
    + destruct (utf8_decode body) as [text|] eqn:Hdec;
        intros [= <- <-]; (split_and!; [done..|]).
      * right. right. by exists status, body, text.
      * right. left. by exists status, body.
  - intros [= <- <-]. split_and!; [done..|]. by left.
  - destruct (is_URLError e) eqn:He; intros [= <- <-];
      (split_and!; [done..|]).
    + right. left. exists e. eauto.
    + by right; right; left.
  - destruct (Z.eqb_spec status 200) as [->|Hstatus];
      destruct (is_URLError e) eqn:He; intros [= <- <-];
      (split_and!; [done..|]);
      first [ right; left; exists e; by eauto
            | right; right; right; by eauto ].
Qed.

(** X18. The hook changes no file but the commit-message file: every
    other path holds after the run what it held before, in every run. *)
Theorem X18_only_message_file_changes (w : world)
    (disk : gmap string string) (p : string)
    (st := (run json_loads utf8_decode strip w disk).2) :
  argv w !! 1%nat ≠ Some p → files st !! p = disk !! p.
Proof.
  subst st. unfold run. cbn [fst snd]. fold (start disk).
  pose proof (main_ending json_loads utf8_decode strip w disk) as Hend.
  destruct (main json_loads utf8_decode strip w (start disk)) as [r st].
  cbn [fst snd] in *. intros Hother.
  by_ending Hend; rewrite Hf; try done;
    apply lookup_insert_ne; congruence.
Qed.

End hook_extras.
(** * Further properties of the installer *)

Lemma replace_absent (old : ascii) (new s : string) :
  occurrences old s = 0%nat → install.replace old new s = s.
Proof.
  induction s as [|c rest IH]; simpl; [done|].
  destruct (Ascii.eqb c old); [done|]. intros Hrest. by rewrite IH.
Qed.

(** [replace] with a character doubled, character by character. *)
Lemma replace_doubled (c : ascii) (s : string) :
  list_ascii_of_string
    (install.replace c (String c (String c EmptyString)) s)
  = install_spec.doubled c (list_ascii_of_string s).
Proof.
  induction s as [|c1 rest IH]; [done|].
  cbn [install.replace list_ascii_of_string install_spec.doubled flat_map].
  destruct (Ascii.eqb c1 c) eqn:Hc.
  - apply Ascii.eqb_eq in Hc as ->.
    change (String c (String c "") ++ ?x)%string
      with (String c (String c x)).
    cbn [list_ascii_of_string]. by rewrite IH.
  - cbn [list_ascii_of_string]. by rewrite IH.
Qed.

(** Reading the doubled backslashes as quoting gives the string back. *)
Lemma unquoted_replace (s : string) :
  install_spec.unquoted (install.replace "\"%char "\\" s) = s.
Proof.
  induction s as [|c rest IH]; [done|]. cbn [install.replace].
  destruct (Ascii.eqb c "\"%char) eqn:Hc.
  - apply Ascii.eqb_eq in Hc as ->.
    change ("\\" ++ ?x)%string with (String "\"%char (String "\"%char x)).
    cbn [install_spec.unquoted]. rewrite Ascii.eqb_refl. by rewrite IH.
  - cbn [install_spec.unquoted]. rewrite Hc. by rewrite IH.
Qed.

Section installer_extras.
Import install install_spec.
Local Open Scope Z_scope.

Lemma low_bound (m : Z) : 0 ≤ m < 512 → low m.
Proof. intros Hm i Hi. by apply (bits_below m i 9). Qed.

Lemma low_new (w : world) : low (Z.land o666 (Z.lnot (umask w))).
Proof.
  intros i Hi. rewrite Z.land_spec.
  by rewrite (bits_below o666 i 9).
Qed.

Lemma low_exec (m : Z) : low m → low (Z.lor m S_IEXEC).
Proof.
  intros Hm i Hi. rewrite lor_exec_bits, Hm by lia.
  apply orb_false_intro; [|done]. apply Z.eqb_neq. lia.
Qed.

Lemma standing_of_low (m kept : Z) : low m → standing m kept = m.
Proof.
  intros Hm. apply Z.bits_inj'. intros i Hi.
  rewrite standing_bits by done.
  destruct (Z.ltb_spec i 9) as [Hlt|Hge]; [by rewrite andb_true_r|].
  by rewrite Hm.
Qed.

Lemma stored_of_low (m kept : Z) :
  low m →
  standing (Z.land (Z.lor (Z.lor S_IFREG m) S_IEXEC) o7777) kept
  = Z.lor m S_IEXEC.
Proof.
  intros Hm. apply Z.bits_inj'. intros i Hi.
  rewrite stored_bits, lor_exec_bits by done.
  destruct (Z.ltb_spec i 9) as [Hlt|Hge].
  - replace (i <? 12) with true by (symmetry; apply Z.ltb_lt; lia).
    by rewrite andb_true_r.
  - replace (i =? 6) with false by (symmetry; apply Z.eqb_neq; lia).
    rewrite Hm by done. by rewrite andb_false_r.
Qed.

Lemma lor_exec_twice (m : Z) :
  Z.lor (Z.lor m S_IEXEC) S_IEXEC = Z.lor m S_IEXEC.
Proof. by rewrite <- Z.lor_assoc, Z.lor_diag. Qed.

(** The tree after [mkdir] is plain when the tree was. *)
Lemma plain_with_hooks (w : world) (tree : gmap (list string) node) :
  plain tree → plain (with_hooks w tree).
Proof.
  intros Hplain. unfold with_hooks.
  destruct (tree !! HOOK_DIR); [done|].
  apply plain_insert; [done|by intros ?].
Qed.

Lemma with_hooks_other (w : world) (tree : gmap (list string) node)
    (p : path) :
  p ≠ HOOK_DIR → with_hooks w tree !! p = tree !! p.
Proof.
  intros Hp. unfold with_hooks.
  destruct (tree !! HOOK_DIR); [done|]. by rewrite lookup_insert_ne.
Qed.

(** How a run in a plain tree ends, stage by stage: before the hook
    file is opened, at the opening, at the writing, at [chmod], or with
    the hook installed. *)
Lemma run_stages (w : world) (disk : gmap (list string) node) :
  plain disk →
  let made := with_hooks w disk in
  let m := match disk !! hook_path with
           | Some (File _ mode) =>
               standing mode (keeps w made (OpenW hook_path))
           | _ => Z.land o666 (Z.lnot (umask w))
           end in
  let written := <[hook_path := File (hook_content w) m]> made in
  let asked := Z.lor (Z.lor S_IFREG m) S_IEXEC in
  (* the first check *)
  (disk !! [".git"] = None
   ∧ run w disk
     = (1, {| fs := disk;
              logged := [(ERROR, "Error: This is not a git repository.",
                          [])] |}))
  (* mkdir *)
  ∨ ((∀ gm, disk !! [".git"] ≠ Some (Dir gm)) ∧ is_Some (disk !! [".git"])
     ∧ run w disk = (1, {| fs := disk; logged := [] |}))
  ∨ ((∃ text mode, disk !! HOOK_DIR = Some (File text mode))
     ∧ run w disk = (1, {| fs := disk; logged := [] |}))
  ∨ (disk !! HOOK_DIR = None ∧ is_Some (refuses w disk (Mkdir HOOK_DIR))
     ∧ run w disk = (1, {| fs := disk; logged := [] |}))
  (* from here on [.git] and [.git/hooks] are directories *)
  ∨ ((∃ gm, disk !! [".git"] = Some (Dir gm))
     ∧ (∃ hm, made !! HOOK_DIR = Some (Dir hm))
     ∧ (disk !! HOOK_DIR = None → refuses w disk (Mkdir HOOK_DIR) = None)
     ∧ ((* open *)
        ((∃ pm, disk !! hook_path = Some (Dir pm))
         ∧ run w disk = (1, {| fs := made; logged := [] |}))
        ∨ ((∀ pm, disk !! hook_path ≠ Some (Dir pm))
           ∧ is_Some (refuses w made (OpenW hook_path))
           ∧ run w disk = (1, {| fs := made; logged := [] |}))
        (* write *)
        ∨ ((∀ pm, disk !! hook_path ≠ Some (Dir pm))
           ∧ refuses w made (OpenW hook_path) = None
           ∧ encodable w (hook_content w) = false
           ∧ run w disk
             = (1, {| fs := <[hook_path := File "" m]> made;
                      logged := [] |}))
        (* chmod *)
        ∨ ((∀ pm, disk !! hook_path ≠ Some (Dir pm))
           ∧ refuses w made (OpenW hook_path) = None
           ∧ encodable w (hook_content w) = true
           ∧ is_Some (refuses w written (Chmod hook_path asked))
           ∧ run w disk = (1, {| fs := written; logged := [] |}))
        ∨ ((∀ pm, disk !! hook_path ≠ Some (Dir pm))
           ∧ refuses w made (OpenW hook_path) = None
           ∧ encodable w (hook_content w) = true
           ∧ refuses w written (Chmod hook_path asked) = None
           ∧ run w disk
             = (0, {| fs := <[hook_path :=
                                File (hook_content w)
                                  (standing (Z.land asked o7777)
                                     (keeps w written
                                        (Chmod hook_path asked)))]> written;
                      logged := [success] |})))).
Proof.
  intros Hplain made m written asked.
  assert (hook_path ≠ HOOK_DIR) as Hne by done.
  unfold run. rewrite main_run by done. cbn [fs logged].
  destruct (disk !! [".git"]) as [[gm|gt gm|target]|] eqn:Hgit.
  2: { right; left. split_and!; [done|by eexists|done]. }
  2: { right; left. split_and!; [done|by eexists|done]. }
  2: { by left. }
  assert (∀ s : state,
            fs s = made → logged s = [] →
            (∃ hm, made !! HOOK_DIR = Some (Dir hm)) →
            ((∃ pm, disk !! hook_path = Some (Dir pm))
             ∧ (exit_status (write_hook w s).1, (write_hook w s).2)
               = (1, {| fs := made; logged := [] |}))
            ∨ ((∀ pm, disk !! hook_path ≠ Some (Dir pm))
               ∧ is_Some (refuses w made (OpenW hook_path))
               ∧ (exit_status (write_hook w s).1, (write_hook w s).2)
                 = (1, {| fs := made; logged := [] |}))
            ∨ ((∀ pm, disk !! hook_path ≠ Some (Dir pm))
               ∧ refuses w made (OpenW hook_path) = None
               ∧ encodable w (hook_content w) = false
               ∧ (exit_status (write_hook w s).1, (write_hook w s).2)
                 = (1, {| fs := <[hook_path := File "" m]> made;
                          logged := [] |}))
            ∨ ((∀ pm, disk !! hook_path ≠ Some (Dir pm))
               ∧ refuses w made (OpenW hook_path) = None
               ∧ encodable w (hook_content w) = true
               ∧ is_Some (refuses w written (Chmod hook_path asked))
               ∧ (exit_status (write_hook w s).1, (write_hook w s).2)
                 = (1, {| fs := written; logged := [] |}))
            ∨ ((∀ pm, disk !! hook_path ≠ Some (Dir pm))
               ∧ refuses w made (OpenW hook_path) = None
               ∧ encodable w (hook_content w) = true
               ∧ refuses w written (Chmod hook_path asked) = None
               ∧ (exit_status (write_hook w s).1, (write_hook w s).2)
                 = (0, {| fs := <[hook_path :=
                                    File (hook_content w)
                                      (standing (Z.land asked o7777)
                                         (keeps w written
                                            (Chmod hook_path asked)))]>
                                  written;
                          logged := [success] |}))) as Hwrite.
  { intros [tree lg] Htree Hlog [hm Hhooks]. cbn [fs logged] in *.
    subst tree lg.
    rewrite (write_hook_run w {| fs := made; logged := [] |} hm)
      by (try apply plain_with_hooks; done).
    cbn [fs logged set_node]. fold written.
    assert (made !! hook_path = disk !! hook_path) as ->
      by by apply with_hooks_other.
    subst written asked m.
    destruct (disk !! hook_path) as [[pm|pt pm|target]|] eqn:Hhook.
    { left. split; [by eexists|done]. }
    2: { by destruct (Hplain hook_path target ltac:(by repeat econstructor)). }
    all: right;
      (destruct (refuses w made (OpenW hook_path)) eqn:Hopen;
       [left; split_and!; [done|by eexists|done]|right]);
      (destruct (encodable w (hook_content w)) eqn:Henc;
       [right|left; by split_and!]);
      cbn zeta;
      (destruct (refuses w _ (Chmod _ _)) eqn:Hchmod;
       [left; split_and!; [done..|by eexists|done]
       |right; by split_and!]). }
  destruct (disk !! HOOK_DIR) as [[hm|ht hm|target]|] eqn:Hhooks.
  - do 4 right. split_and!; [by eexists| |done|].
    + unfold made, with_hooks. rewrite Hhooks. by eexists.
    + apply (Hwrite {| fs := disk; logged := [] |}); [|done|].
      * unfold made, with_hooks. by rewrite Hhooks.
      * unfold made, with_hooks. rewrite Hhooks. by eexists.
  - do 2 right. left. split; [by eexists _, _|done].
  - by destruct (Hplain HOOK_DIR target ltac:(by repeat econstructor)).
  - destruct (refuses w disk (Mkdir HOOK_DIR)) eqn:Hmkdir.
    { do 3 right. left. split_and!; [done|by eexists|done]. }
    do 4 right. split_and!; [by eexists| |done|].
    + unfold made, with_hooks. rewrite Hhooks, lookup_insert_eq. by eexists.
    + apply (Hwrite (set_node HOOK_DIR _ {| fs := disk; logged := [] |}));
        [|done|].
      * unfold made, with_hooks. by rewrite Hhooks.
      * unfold made, with_hooks. rewrite Hhooks, lookup_insert_eq.
        by eexists.
Qed.

(** Names the facts of each stage at which a run can end. *)
Ltac by_stage w Hplain :=
  destruct (run_stages w _ Hplain)
    as [ [Hgit Hrun]
       | [ (Hgit & Hthere & Hrun)
         | [ ((ht & hmode & Hhooks) & Hrun)
           | [ (Hhooks & Hmkdir & Hrun)
             | ((gm & Hgit) & (hm & Hmade) & Hmkdir
                & [ ((pm & Hhook) & Hrun)
                  | [ (Hhook & Hopen & Hrun)
                    | [ (Hhook & Hopen & Henc & Hrun)
                      | [ (Hhook & Hopen & Henc & Hchmod & Hrun)
                        | (Hhook & Hopen & Henc & Hchmod & Hrun) ]]]]) ]]]];
  rewrite Hrun; cbn [fst snd fs logged].

(** X11. When the installer succeeds.  With no link on the way to the
    hook file, a run succeeds only if [.git] is a directory,
    [.git/hooks] is not a regular file, the hook path is not a
    directory and the encoding can write the hook script; and where the
    system refuses no call, these conditions are enough. *)
Theorem X11_install_succeeds_iff (w : world) (disk : gmap (list string) node) :
  plain disk →
  ((run w disk).1 = 0 →
     (∃ mode, disk !! [".git"] = Some (Dir mode))
     ∧ (∀ text mode, disk !! HOOK_DIR ≠ Some (File text mode))
     ∧ (∀ mode, disk !! hook_path ≠ Some (Dir mode))
     ∧ encodable w (hook_content w) = true)
  ∧ (permissive w → encodable w (hook_content w) = true →
     (∃ mode, disk !! [".git"] = Some (Dir mode)) →
     (∀ text mode, disk !! HOOK_DIR ≠ Some (File text mode)) →
     (∀ mode, disk !! hook_path ≠ Some (Dir mode)) →
     (run w disk).1 = 0).
Proof.
  intros Hplain. split.
  - by_stage w Hplain; try done. intros _. split_and!; eauto.
    intros text mode Hfile. revert Hmade. unfold with_hooks.
    rewrite Hfile. rewrite Hfile. by intros [=].
  - intros Hperm Hencode [mode Hdir] Hnofile Hnodir.
    by_stage w Hplain; try done; try congruence;
      first [ by destruct (Hgit mode)
            | by destruct (Hnofile ht hmode)
            | by destruct (Hnodir pm)
            | rewrite Hperm in Hmkdir; by destruct Hmkdir
            | rewrite Hperm in Hopen; by destruct Hopen
            | rewrite Hperm in Hchmod; by destruct Hchmod ].
Qed.



(** X14. Installing twice is installing once: after a successful run, a
    second run that succeeds leaves the same file system, the hook file
    with the same text and the same mode, and logs the same line.  The
    tree has no link on the way to the hook file, and a hook file that
    was there has no set-id or sticky bit.  (A second run need not
    succeed: a hook created under a umask that masks the owner's write
    bit does not open for writing again.) *)
Theorem X14_install_idempotent (w : world) (disk : gmap (list string) node) :
  plain disk →
  (∀ text mode, disk !! hook_path = Some (File text mode) → 0 ≤ mode < 512) →
  (run w disk).1 = 0 →
  (run w (fs (run w disk).2)).1 = 0 →
  run w (fs (run w disk).2) = run w disk.
Proof.
  intros Hplain Hmode.
  assert (hook_path ≠ HOOK_DIR) as Hne1 by done.
  assert (hook_path ≠ [".git"]) as Hne2 by done.
  assert (HOOK_DIR ≠ [".git"]) as Hne3 by done.
  by_stage w Hplain; try done. intros _.
  set (made := with_hooks w disk) in *.
  set (base := match disk !! hook_path with
               | Some (File _ mode) =>
                   standing mode (keeps w made (OpenW hook_path))
               | _ => Z.land o666 (Z.lnot (umask w))
               end) in *.
  assert (low base) as Hlow.
  { subst base. destruct (disk !! hook_path) as [[pm|pt pm|target]|] eqn:Hp;
      try apply low_new.
    rewrite standing_of_low; apply low_bound; eauto. }
  rewrite stored_of_low by done. rewrite insert_insert_eq.
  set (after := <[hook_path := File (hook_content w)
                                 (Z.lor base S_IEXEC)]> made).
  assert (plain after) as Hplain'.
  { apply plain_insert; [by apply plain_with_hooks|by intros ?]. }
  assert (with_hooks w after = after) as Hmade'.
  { unfold with_hooks, after. rewrite lookup_insert_ne by done.
    fold made. by rewrite Hmade. }
  pose proof (run_stages w after Hplain') as Hsecond.
  cbn zeta in Hsecond. rewrite Hmade' in Hsecond.
  assert (after !! hook_path
          = Some (File (hook_content w) (Z.lor base S_IEXEC))) as Hthere
    by apply lookup_insert_eq.
  rewrite Hthere in Hsecond.
  repeat rewrite (standing_of_low (Z.lor base S_IEXEC)) in Hsecond
    by by apply low_exec.
  repeat rewrite (stored_of_low (Z.lor base S_IEXEC)) in Hsecond
    by by apply low_exec.
  rewrite !lor_exec_twice in Hsecond.
  rewrite !insert_insert_eq in Hsecond.
  rewrite !(insert_id after hook_path
              (File (hook_content w) (Z.lor base S_IEXEC))) in Hsecond
    by done.
  destruct Hsecond
    as [ [_ ->]
       | [ (_ & _ & ->)
         | [ (_ & ->)
           | [ (_ & _ & ->)
             | (_ & _ & _
                & [ (_ & ->)
                  | [ (_ & _ & ->)
                    | [ (_ & _ & _ & ->)
                      | [ (_ & _ & _ & _ & ->)
                        | (_ & _ & _ & _ & ->) ]]]]) ]]]];
    done.
Qed.

(** X15. How the script path is written into the hook.  The path in the
    hook is the resolved path with each backslash doubled, character by
    character, and every other character as it is and where it is:
    reading a backslash as quoting the next character gives the
    resolved path back.  A path without a backslash is written as it
    is.  The hook is the shebang line and [python <path> $1]. *)
Theorem X15_script_path_escaped (w : world)
    (resolved := resolve w (SCRIPT_DIR w ++ [SCRIPT_NAME])%list) :
  list_ascii_of_string (script_path w)
  = flat_map (λ c, if Ascii.eqb c "\"%char then ["\"%char; "\"%char]
                   else [c])
      (list_ascii_of_string resolved)
  ∧ unquoted (script_path w) = resolved
  ∧ (occurrences "\"%char resolved = 0%nat → script_path w = resolved)
  ∧ hook_content w
    = ("#!/bin/sh" ++ String LF "" ++ "python " ++ script_path w
       ++ " $1" ++ String LF "")%string.
Proof.
  unfold script_path. fold resolved. split_and!.
  - rewrite (replace_doubled "\"%char resolved). unfold doubled.
    apply flat_map_ext. intros c.
    by destruct (Ascii.eqb_spec c "\"%char) as [->|].
  - apply unquoted_replace.
  - apply replace_absent.
  - done.
Qed.

(** X19. A hook file that the installer creates is executable by its
    owner and by nobody else: its mode is [0o666 & ~umask] with the
    owner-execute bit added, so the group and other execute bits and
    the three special bits are clear.  The tree has no link on the way
    to the hook file. *)
Theorem X19_new_hook_mode (w : world) (disk : gmap (list string) node) :
  plain disk →
  (run w disk).1 = 0 → disk !! hook_path = None →
  ∃ mode,
    fs (run w disk).2 !! hook_path = Some (File (hook_content w) mode)
    ∧ (∀ i, 0 ≤ i →
         Z.testbit mode i
         = (i =? 6) || (Z.testbit o666 i && negb (Z.testbit (umask w) i)))
    ∧ Z.testbit mode 6 = true
    ∧ Z.testbit mode 3 = false ∧ Z.testbit mode 0 = false.
Proof.
  intros Hplain Hok Hnone. revert Hok.
  by_stage w Hplain; try done. intros _. rewrite Hnone.
  rewrite stored_of_low by apply low_new.
  eexists. split; [by rewrite lookup_insert_eq|].
  assert (∀ i, 0 ≤ i →
            Z.testbit (Z.lor (Z.land o666 (Z.lnot (umask w))) S_IEXEC) i
            = (i =? 6) || (Z.testbit o666 i && negb (Z.testbit (umask w) i)))
    as Hbits.
  { intros i Hi. by rewrite lor_exec_bits, Z.land_spec, Z.lnot_spec by done. }
  split_and!; [exact Hbits|by rewrite Hbits..].
Qed.

End installer_extras.
(** * The properties on concrete runs *)

(** The sample trees have no links. *)
Lemma no_links_empty : install_spec.no_links ∅.
Proof. intros p target. by rewrite lookup_empty. Qed.

Lemma no_links_fresh : install_spec.no_links sample_install.fresh.
Proof.
  unfold sample_install.fresh. rewrite <- insert_empty.
  apply no_links_insert; [apply no_links_empty|by intros ?].
Qed.

Lemma no_links_installed : install_spec.no_links sample_install.installed.
Proof.
  unfold sample_install.installed.
  do 2 (apply no_links_insert; [|by intros ?]). apply no_links_fresh.
Qed.

Lemma C1_empty_diff_exits_0_witness :
  files (run sample.loads sample.decode sample.strip sample.unstaged
           sample.disk).2 = sample.disk
  ∧ (run sample.loads sample.decode sample.strip sample.unstaged
       sample.disk).1 = 0
  ∧ files (run sample.loads sample.decode sample.strip sample.unstaged_odd
             sample.disk).2 = sample.disk
  ∧ (run sample.loads sample.decode sample.strip sample.unstaged_odd
       sample.disk).1 = 1.
Proof.
  destruct (C1_empty_diff_exits_0 sample.loads sample.decode sample.strip
              sample.unstaged sample.disk sample.msg_file)
    as (Hfiles & Hzero & _).
  { reflexivity. }
  { intros Hmerge. vm_compute in Hmerge. discriminate Hmerge. }
  { intros Hsource. vm_compute in Hsource. discriminate Hsource. }
  { vm_compute. reflexivity. }
  { intros s. vm_compute. reflexivity. }
  destruct (C1_empty_diff_exits_0 sample.loads sample.decode sample.strip
              sample.unstaged_odd sample.disk sample.msg_file)
    as (Hfiles' & _ & Hone).
  { reflexivity. }
  { intros Hmerge. vm_compute in Hmerge. discriminate Hmerge. }
  { intros Hsource. vm_compute in Hsource. discriminate Hsource. }
  { vm_compute. reflexivity. }
  { intros s. vm_compute. reflexivity. }
  split_and!.
  - exact Hfiles.
  - apply Hzero. eexists. vm_compute. reflexivity.
  - exact Hfiles'.
  - apply Hone. vm_compute. reflexivity.
Defined.

(** C1, as stated, fails where the name of the branch is not UTF-8:
    nothing is staged, no error came before the diff was fetched, and
    the run ends with [UnicodeDecodeError], so with status 1. *)
Lemma C1_counterexample :
  argv sample.unstaged_odd !! 1%nat = Some sample.msg_file
  ∧ commit_source sample.unstaged_odd ≠ "merge"
  ∧ keyless sample.unstaged_odd = false
  ∧ get_git_diff sample.decode sample.unstaged_odd sample.init
    = (Ok "",
       after sample.init
         [Which "git"; CheckOutput [sample.git; "diff"; "--staged"]])
  ∧ (main sample.loads sample.decode sample.strip sample.unstaged_odd
       (start sample.disk)).1 = Raise UnicodeDecodeError
  ∧ (run sample.loads sample.decode sample.strip sample.unstaged_odd
       sample.disk).1 = 1
  ∧ (run sample.loads sample.decode sample.strip sample.unstaged_odd
       sample.disk).1 ≠ 0.
Proof.
  split_and!; try reflexivity.
  - intros Hmerge. vm_compute in Hmerge. discriminate Hmerge.
  - intros Hzero. vm_compute in Hzero. discriminate Hzero.
Qed.



Lemma C3_branch_name_or_exit_witness :
  get_branch_name sample.decode sample.strip sample.happy sample.init
  = (Ok "main",
     after sample.init
       [Which "git";
        CheckOutput [sample.git; "rev-parse"; "--abbrev-ref"; "HEAD"]])
  ∧ get_branch_name sample.decode sample.strip sample.unstaged_odd sample.init
    = (Raise UnicodeDecodeError,
       after sample.init
         [Which "git";
          CheckOutput [sample.git; "rev-parse"; "--abbrev-ref"; "HEAD"]]).
Proof.
  split.
  - destruct (C3_branch_name_or_exit sample.decode sample.strip sample.happy
                sample.init) as (_ & Hfound & _).
    apply (Hfound ("main" ++ nl)); reflexivity.
  - destruct (C3_branch_name_or_exit sample.decode sample.strip
                sample.unstaged_odd sample.init) as (_ & _ & _ & Hodd & _).
    apply Hodd; reflexivity.
Defined.

(** C3, as stated, fails where [git] is not on the PATH: there
    [get_branch_name] returns nothing, it ends the process with status 1. *)
Lemma C3_counterexample :
  path_lookup sample.no_git "git" = None
  ∧ (get_branch_name sample.decode sample.strip sample.no_git sample.init).1
    = Exit 1
  ∧ ¬ ∃ name s',
        get_branch_name sample.decode sample.strip sample.no_git sample.init
        = (Ok name, s').
Proof.
  split_and!; [reflexivity..|].
  intros (name & s' & Hret). vm_compute in Hret. discriminate Hret.
Qed.

Lemma C4_missing_key_is_fatal_witness :
  (get_api_key sample.no_key sample.init).1 = Exit 1
  ∧ requests (trace (run sample.loads sample.decode sample.strip sample.no_key
                       sample.disk).2)
    = []
  ∧ (run sample.loads sample.decode sample.strip sample.no_key sample.disk).1
    ≠ 0.
Proof.
  destruct (C4_missing_key_is_fatal sample.loads sample.decode sample.strip
              sample.no_key)
    as [Hfatal _].
  destruct Hfatal as [Hexit Hrun]; [reflexivity|].
  destruct (Hrun sample.disk) as [Hquiet Hstatus].
  split_and!.
  - by rewrite Hexit.
  - exact Hquiet.
  - apply Hstatus. intros Hmerge. vm_compute in Hmerge. discriminate Hmerge.
Defined.

(** C4, as stated, fails where the environment variable is set to the
    empty string: the variable is not unset, and still [get_api_key]
    returns no key, it ends the process with status 1. *)
Lemma C4_counterexample :
  environ sample.empty_env_key !! "GEMINI_API_KEY" = Some ""
  ∧ ¬ (config.GEMINI_API_KEY (cfg sample.empty_env_key) = None
       ∧ environ sample.empty_env_key !! "GEMINI_API_KEY" = None)
  ∧ (get_api_key sample.empty_env_key sample.init).1 = Exit 1
  ∧ ¬ ∃ k s', get_api_key sample.empty_env_key sample.init = (Ok k, s').
Proof.
  split_and!.
  - reflexivity.
  - intros [_ Henv]. vm_compute in Henv. discriminate Henv.
  - reflexivity.
  - intros (k & s' & Hret). vm_compute in Hret. discriminate Hret.
Qed.



Lemma C6_merge_is_skipped_witness :
  run sample.loads sample.decode sample.strip sample.merging sample.disk
  = (0, {| files := sample.disk;
           trace := [Log INFO "Merge commit detected. Skipping." []] |}).
Proof.
  apply (C6_merge_is_skipped sample.loads sample.decode sample.strip
           sample.merging sample.disk).
  reflexivity.
Defined.

Lemma C7_outside_repository_no_hook_witness :
  install.run sample_install.here sample_install.outside
  = (1, {| install.fs := sample_install.outside;
           install.logged :=
             [(ERROR, "Error: This is not a git repository.", [])] |}).
Proof.
  destruct (C7_outside_repository_no_hook sample_install.here
              sample_install.outside) as [Hcheck _].
  apply Hcheck. vm_compute. reflexivity.
Defined.

Lemma C8_chmod_adds_owner_execute_witness :
  install.fs (install.run sample_install.here sample_install.installed).2
    !! install.hook_path
  = Some (install.File (install.hook_content sample_install.here) 480).
Proof.
  destruct (C8_chmod_adds_owner_execute sample_install.here
              sample_install.installed) as [_ Hrun].
  destruct Hrun as (m' & Hfile & _ & _ & _ & Hmode).
  - apply no_links_plain, no_links_installed.
  - vm_compute. reflexivity.
  - rewrite Hfile, Hmode; [reflexivity|].
    vm_compute. split; [intros Hcmp; discriminate Hcmp|reflexivity].
Defined.

Lemma C9_malformed_reply_raises_witness :
  (run sample.loads sample.decode sample.strip sample.bad_reply
     sample.disk).1 = 1
  ∧ files (run sample.loads sample.decode sample.strip sample.bad_reply
             sample.disk).2
    = sample.disk.
Proof.
  destruct (C9_malformed_reply_raises sample.loads sample.decode sample.strip
              sample.bad_reply sample.disk "{}") as [_ Hrun].
  - vm_compute. reflexivity.
  - destruct Hrun as (_ & Hstatus & Hfiles & _); [|by split].
    eexists. split; [|reflexivity].
    apply elem_of_requests. vm_compute. left.
Defined.

Lemma C10_empty_key_is_absent_witness :
  get_api_key sample.empty_cfg_key sample.init
  = (Ok "k3y", after sample.init [EnvironGet "GEMINI_API_KEY"])
  ∧ get_api_key sample.empty_env_key sample.init
    = (Exit 1,
       after sample.init
         [EnvironGet "GEMINI_API_KEY";
          Log ERROR "Error: GEMINI_API_KEY not found." [];
          Log ERROR ("Please set the GEMINI_API_KEY in the script or as an "
                     ++ "environment variable.") []]).
Proof.
  split.
  - destruct (C10_empty_key_is_absent sample.loads sample.decode sample.strip
                sample.empty_cfg_key sample.init) as (Hcfg & _).
    destruct Hcfg as (Hfalls & _); [reflexivity|].
    apply (Hfalls "k3y"); [reflexivity|discriminate].
  - destruct (C10_empty_key_is_absent sample.loads sample.decode sample.strip
                sample.empty_env_key sample.init) as (_ & Henv & _).
    destruct Henv as (Hexit & _); [reflexivity..|]. exact Hexit.
Defined.

(** * The further properties on concrete runs *)

Lemma X1_git_diff_outcomes_witness :
  get_git_diff sample.decode sample.windows_diff sample.init
  = (Ok ("+a" ++ nl ++ "+b" ++ nl),
     after sample.init
       [Which "git"; CheckOutput [sample.git; "diff"; "--staged"]])
  ∧ get_git_diff sample.decode sample.binary_diff sample.init
    = (Raise UnicodeDecodeError,
       after sample.init
         [Which "git"; CheckOutput [sample.git; "diff"; "--staged"]])
  ∧ (get_git_diff sample.decode sample.no_git sample.init).1 = Exit 1.
Proof.
  split_and!.
  - destruct (X1_git_diff_outcomes sample.decode sample.windows_diff
                sample.init) as (_ & _ & Hfound & _).
    destruct (Hfound ("+a" ++ String CR (String LF "+b") ++ String CR ""))
      as (Hdiff & _); [reflexivity..|].
    rewrite Hdiff. reflexivity.
  - destruct (X1_git_diff_outcomes sample.decode sample.binary_diff
                sample.init) as (_ & Hodd & _).
    apply Hodd; reflexivity.
  - destruct (X1_git_diff_outcomes sample.decode sample.no_git sample.init)
      as (Hmissing & _).
    rewrite Hmissing; reflexivity.
Defined.

Lemma X2_configured_key_wins_witness :
  get_api_key sample.both_keys sample.init = (Ok "c0nf", sample.init)
  ∧ get_api_key sample.happy sample.init
    = (Ok "k3y", after sample.init [EnvironGet "GEMINI_API_KEY"]).
Proof.
  split.
  - destruct (X2_configured_key_wins sample.both_keys sample.init)
      as [Hcfg _].
    apply (Hcfg "c0nf" eq_refl ltac:(discriminate) sample.key_in_env).
  - destruct (X2_configured_key_wins sample.happy sample.init)
      as [_ Henv].
    apply (Henv "k3y"); [reflexivity|reflexivity|discriminate].
Defined.

Lemma X3_request_sent_witness :
  requests (trace (run sample.loads sample.decode sample.strip sample.happy
                     sample.disk).2)
  = [request_of sample.happy "+print(1)" "main" "k3y" None]
  ∧ requests (trace (run sample.loads sample.decode sample.strip
                       sample.unstaged sample.disk).2) = []
  ∧ requests (trace (run sample.loads sample.decode sample.strip
                       sample.binary_diff sample.disk).2) = [].
Proof.
  split_and!.
  - destruct (X3_request_sent sample.loads sample.decode sample.strip
                sample.happy sample.disk) as [Hasks _].
    rewrite (Hasks sample.msg_file).
    + vm_compute. reflexivity.
    + split_and!; try reflexivity.
      * intros Hmerge. vm_compute in Hmerge. discriminate Hmerge.
      * intros Hmsg. vm_compute in Hmsg. discriminate Hmsg.
      * eexists. vm_compute. reflexivity.
      * eexists. vm_compute. reflexivity.
      * intros Hdiff. vm_compute in Hdiff. discriminate Hdiff.
  - destruct (X3_request_sent sample.loads sample.decode sample.strip
                sample.unstaged sample.disk) as [_ Hnot].
    apply Hnot. intros file (_ & _ & _ & _ & _ & _ & _ & Hdiff).
    apply Hdiff. reflexivity.
  - destruct (X3_request_sent sample.loads sample.decode sample.strip
                sample.binary_diff sample.disk) as [_ Hnot].
    apply Hnot. intros file (_ & _ & _ & _ & _ & Htext & _).
    destruct Htext as [text Htext]. vm_compute in Htext. discriminate Htext.
Defined.

Lemma X5_missing_git_is_fatal_witness :
  requests (trace (run sample.loads sample.decode sample.strip sample.no_git
                     sample.disk).2)
  = []
  ∧ (run sample.loads sample.decode sample.strip sample.no_git sample.disk).1
    = 1.
Proof.
  destruct (X5_missing_git_is_fatal sample.loads sample.decode sample.strip
              sample.no_git sample.disk) as (Hquiet & _ & _ & Hstatus);
    [reflexivity|].
  split; [exact Hquiet|]. apply Hstatus.
  intros Hmerge. vm_compute in Hmerge. discriminate Hmerge.
Defined.

Lemma X6_no_argument_witness :
  run sample.loads sample.decode sample.strip sample.bare sample.disk
  = (1, start sample.disk).
Proof.
  apply (X6_no_argument sample.loads sample.decode sample.strip sample.bare
           sample.disk).
  vm_compute. constructor.
Defined.

Lemma X7_unreadable_hint_witness :
  run sample.loads sample.decode sample.strip sample.lost_hint sample.disk
  = (1, {| files := sample.disk; trace := [ReadText "gone"] |}).
Proof.
  apply (X7_unreadable_hint sample.loads sample.decode sample.strip
           sample.lost_hint sample.disk "gone"); reflexivity.
Defined.

Lemma X8_api_failure_is_fatal_witness :
  ((run sample.loads sample.decode sample.strip sample.rate_limited
      sample.disk).1 = 1
   ∧ files (run sample.loads sample.decode sample.strip sample.rate_limited
              sample.disk).2
     = sample.disk)
  ∧ ((run sample.loads sample.decode sample.strip sample.hung_up
        sample.disk).1 = 1
     ∧ files (run sample.loads sample.decode sample.strip sample.hung_up
                sample.disk).2
       = sample.disk).
Proof.
  split.
  - destruct (X8_api_failure_is_fatal sample.loads sample.decode sample.strip
                sample.rate_limited sample.disk
                (request_of sample.rate_limited "+print(1)" "main" "k3y" None))
      as (Hstatus & _ & _ & Hfiles).
    + apply elem_of_requests. vm_compute. left.
    + right; left. exists 429, "quota exceeded".
      split; [reflexivity|discriminate].
    + by split.
  - destruct (X8_api_failure_is_fatal sample.loads sample.decode sample.strip
                sample.hung_up sample.disk
                (request_of sample.hung_up "+print(1)" "main" "k3y" None))
      as (Hstatus & _ & _ & Hfiles).
    + apply elem_of_requests. vm_compute. left.
    + right; right; left. by exists RemoteDisconnected.
    + by split.
Defined.

Lemma X9_empty_message_is_success_witness :
  (run sample.loads sample.decode sample.strip sample.empty_reply
     sample.disk).1 = 0
  ∧ writes (trace (run sample.loads sample.decode sample.strip
                     sample.empty_reply sample.disk).2) = []
  ∧ files (run sample.loads sample.decode sample.strip sample.empty_reply
             sample.disk).2
    = sample.disk.
Proof.
  apply (X9_empty_message_is_success sample.loads sample.decode sample.strip
           sample.empty_reply sample.disk (VStr "")).
  - eapply api_returned_intro.
    + vm_compute. reflexivity.
    + reflexivity.
    + reflexivity.
    + reflexivity.
  - reflexivity.
Defined.

Lemma X11_install_succeeds_iff_witness :
  (install.run sample_install.here sample_install.fresh).1 = 0
  ∧ install.encodable sample_install.here
      (install.hook_content sample_install.here) = true.
Proof.
  destruct (X11_install_succeeds_iff sample_install.here sample_install.fresh)
    as [Honly Hif].
  { apply no_links_plain, no_links_fresh. }
  assert ((install.run sample_install.here sample_install.fresh).1 = 0)
    as Hok.
  { apply Hif.
    - intros tree c. reflexivity.
    - reflexivity.
    - eexists. vm_compute. reflexivity.
    - intros text mode Hfile. vm_compute in Hfile. discriminate Hfile.
    - intros mode Hdir. vm_compute in Hdir. discriminate Hdir. }
  split; [exact Hok|].
  destruct (Honly Hok) as (_ & _ & _ & Henc). exact Henc.
Defined.



Lemma X14_install_idempotent_witness :
  install.run sample_install.here
    (install.fs (install.run sample_install.here sample_install.fresh).2)
  = install.run sample_install.here sample_install.fresh.
Proof.
  apply (X14_install_idempotent sample_install.here sample_install.fresh).
  - apply no_links_plain, no_links_fresh.
  - intros text mode Hfile. vm_compute in Hfile. discriminate Hfile.
  - vm_compute. reflexivity.
  - vm_compute. reflexivity.
Defined.

Lemma X15_script_path_escaped_witness :
  install.script_path sample_install.here = "/opt/hook/gemini_commit.py"
  ∧ install_spec.unquoted (install.script_path sample_install.windows)
    = "C:\hook\gemini_commit.py".
Proof.
  split.
  - destruct (X15_script_path_escaped sample_install.here)
      as (_ & _ & Hposix & _).
    apply Hposix. reflexivity.
  - destruct (X15_script_path_escaped sample_install.windows)
      as (_ & Hback & _).
    exact Hback.
Defined.

Lemma X16_blank_hint_ignored_witness :
  requests (trace (run sample.loads sample.decode sample.strip sample.hinted
                     sample.blank_disk).2)
  = [request_of sample.hinted "+print(1)" "main" "k3y" None].
Proof.
  apply (X16_blank_hint_ignored sample.loads sample.decode sample.strip
           sample.hinted sample.blank_disk sample.msg_file ("  " ++ nl)).
  - split_and!; try reflexivity.
    + intros Hmerge. vm_compute in Hmerge. discriminate Hmerge.
    + intros _. split; [eexists; vm_compute; reflexivity|reflexivity].
    + eexists. vm_compute. reflexivity.
    + eexists. vm_compute. reflexivity.
    + intros Hdiff. vm_compute in Hdiff. discriminate Hdiff.
  - reflexivity.
  - vm_compute. reflexivity.
  - reflexivity.
Defined.

Lemma X17_generate_outcomes_witness :
  (∃ body result,
     network sample.happy
       (request_of sample.happy "+print(1)" "main" "k3y" None)
     = Response 200 body
     ∧ sample.loads body = Some result
     ∧ extract_text result = Ok (VStr "feat: add print"))
  ∧ is_URLError RemoteDisconnected = false.
Proof.
  split.
  - apply (X17_generate_outcomes sample.loads sample.decode sample.happy
             "+print(1)" "main" "k3y" None sample.init
             (after sample.init
                [Urlopen (request_of sample.happy "+print(1)" "main" "k3y"
                            None)])
             (Ok (VStr "feat: add print"))).
    vm_compute. reflexivity.
  - apply (X17_generate_outcomes sample.loads sample.decode sample.hung_up
             "+print(1)" "main" "k3y" None sample.init
             (after sample.init
                [Urlopen (request_of sample.hung_up "+print(1)" "main" "k3y"
                            None)])
             (Raise RemoteDisconnected)).
    vm_compute. reflexivity.
Defined.

Lemma X18_only_message_file_changes_witness :
  files (run sample.loads sample.decode sample.strip sample.happy
           sample.disk).2 !! "README"
  = sample.disk !! "README".
Proof.
  apply (X18_only_message_file_changes sample.loads sample.decode sample.strip
           sample.happy sample.disk "README").
  intros Hsame. vm_compute in Hsame. discriminate Hsame.
Defined.

Lemma X19_new_hook_mode_witness :
  ∃ mode,
    install.fs (install.run sample_install.here sample_install.fresh).2
      !! install.hook_path
    = Some (install.File (install.hook_content sample_install.here) mode)
    ∧ Z.testbit mode 6 = true
    ∧ Z.testbit mode 3 = false ∧ Z.testbit mode 0 = false.
Proof.
  destruct (X19_new_hook_mode sample_install.here sample_install.fresh)
    as (mode & Hfile & _ & Hbits).
  { apply no_links_plain, no_links_fresh. }
  { vm_compute. reflexivity. }
  { vm_compute. reflexivity. }
  exists mode. split; [exact Hfile|exact Hbits].
Defined.

(** * What the hypotheses of the properties are for *)

(** An HTTP error.  A reply of status 403 is raised by [urlopen] as
    [HTTPError], a [URLError]: the run logs it and ends with status 1. *)
Lemma http_error_exits_1 :
  (run sample.loads sample.decode sample.strip sample.forbidden
     sample.disk).1 = 1
  ∧ files (run sample.loads sample.decode sample.strip sample.forbidden
             sample.disk).2
    = sample.disk
  ∧ last (trace (run sample.loads sample.decode sample.strip
                   sample.forbidden sample.disk).2)
    = Some (Log ERROR "Error: Could not connect to Gemini API" []).
Proof. split_and!; vm_compute; reflexivity. Qed.

(** A message file that cannot be opened for writing.  The message is
    generated, the file is as it was and the run ends with status 1. *)
Lemma read_only_message_file :
  (run sample.loads sample.decode sample.strip sample.read_only
     sample.disk).1 = 1
  ∧ files (run sample.loads sample.decode sample.strip sample.read_only
             sample.disk).2
    = sample.disk
  ∧ length (requests
              (trace (run sample.loads sample.decode sample.strip
                        sample.read_only sample.disk).2)) = 1%nat.
Proof. split_and!; vm_compute; reflexivity. Qed.

(** Through a link.  Where [.git/hooks] is a link to a directory the
    installer follows it: the hook file is created in that directory,
    and the link is as it was. *)
Lemma install_through_link :
  (install.run sample_install.here sample_install.linked).1 = 0
  ∧ install.fs (install.run sample_install.here sample_install.linked).2
      !! ["shared-hooks"; install.HOOK_NAME]
    = Some (install.File (install.hook_content sample_install.here) 484)
  ∧ install.fs (install.run sample_install.here sample_install.linked).2
      !! install.HOOK_DIR
    = Some (install.Link ["shared-hooks"]).
Proof. split_and!; vm_compute; reflexivity. Qed.

(** A second install can fail.  Under the umask [0o222] the hook file
    is created without the owner's write bit; a process that is not the
    superuser cannot open it for writing again. *)
Lemma second_install_can_fail :
  (install.run sample_install.careful sample_install.fresh).1 = 0
  ∧ (install.run sample_install.careful
       (install.fs
          (install.run sample_install.careful sample_install.fresh).2)).1
    = 1.
Proof. split; vm_compute; reflexivity. Qed.

(** The system can clear a set-id bit.  A hook file of mode [0o2664]
    made executable by a process outside its group gets the mode
    [0o764], not [0o2764]: the nine permission bits are those of
    [0o2664 | 0o100]. *)
Lemma set_group_id_cleared :
  install.fs (install.run sample_install.outsider sample_install.shared).2
    !! install.hook_path
  = Some (install.File (install.hook_content sample_install.outsider) 500)
  ∧ Z.lor 1460 install.S_IEXEC = 1524
  ∧ Z.land 500 install.o777 = Z.land 1524 install.o777.
Proof. split_and!; vm_compute; reflexivity. Qed.
